(** * SimpleEthercat: a shallow embedding of the master-side control logic

    The repository wraps the SOEM EtherCAT master library in a small session
    class ([SimpleEthercat], file SimpleEthercat.cpp) and ships SOEM's
    [slaveinfo] tool with its PDO mapping printers (slaveinfo.cpp).  SOEM
    itself is an external library: its entry points are taken here as an
    abstract driver acting on SOEM's global tables, and every call the code
    makes to it is recorded, in order, in a log.  Text written with [printf]
    is recorded in the same log as the format string and its arguments. *)

From Stdlib Require Import ZArith List String Bool Lia.
Import ListNotations.
Local Open Scope Z_scope.

(** ** Fixed-width integers of the C++ code, as [Z] with explicit wrap-around *)

Module CInt.

Definition uint8 (x : Z) : Z := x mod 2 ^ 8.
Definition uint16 (x : Z) : Z := x mod 2 ^ 16.
Definition int32 (x : Z) : Z := (x + 2 ^ 31) mod 2 ^ 32 - 2 ^ 31.

Definition UINT8_MAX : Z := 2 ^ 8 - 1.
Definition UINT16_MAX : Z := 2 ^ 16 - 1.
Definition INT_MAX : Z := 2 ^ 31 - 1.
Definition INT_MIN : Z := - 2 ^ 31.

(** [LO_BYTE(w)] of SOEM: the least significant byte. *)
Definition LO_BYTE (w : Z) : Z := Z.land w 255.

End CInt.

(** ** The SOEM library as seen by the repository *)

Module SOEM.

(** Constants of SOEM's headers (ethercattype.h, ethercatmain.h), reached
    through [#include "ethercat.h"]; SOEM is not part of the repository, and
    the values are those of the library the code is compiled against.  The
    state values are the EtherCAT application-layer state encoding
    ([ec_state]), where the error flag and the acknowledge flag share one
    bit. *)
Definition EC_STATE_NONE : Z := 0.
Definition EC_STATE_INIT : Z := 1.
Definition EC_STATE_PRE_OP : Z := 2.
Definition EC_STATE_BOOT : Z := 3.
Definition EC_STATE_SAFE_OP : Z := 4.
Definition EC_STATE_OPERATIONAL : Z := 8.
Definition EC_STATE_ACK : Z := 16.
Definition EC_STATE_ERROR : Z := 16.

Definition EC_TIMEOUTRET : Z := 2000.
Definition EC_TIMEOUTSTATE : Z := 2000000.
Definition EC_TIMEOUTRXM : Z := 700000.

Definition EC_MAXSM : Z := 8.
Definition EC_MAXEEPDO : Z := 512.
Definition ECT_SDO_SMCOMMTYPE : Z := 7168.  (* 0x1c00 *)
Definition ECT_SDO_PDOASSIGN : Z := 7184.   (* 0x1c10 *)
Definition ECT_SII_PDO : Z := 50.

(** The fields of [ec_slavet] and [ec_groupt] the code reads or writes.
    [outputs] and [inputs] are pointers into the IO map in the source; they
    are kept as byte offsets from the start of the map, the only way the code
    uses them. *)
Record ec_slavet : Type := mk_slave {
  state : Z;            (* uint16 *)
  ALstatuscode : Z;     (* uint16 *)
  group : Z;            (* uint8 *)
  islost : bool;
  hasdc : bool;
  name : string;
  Obits : Z;
  Ibits : Z;
  pdelay : Z;
  eep_pdi : Z;          (* uint8 *)
  outputs : Z;
  inputs : Z
}.

Record ec_groupt : Type := mk_group {
  docheckstate : bool;
  outputsWKC : Z;       (* uint16 *)
  inputsWKC : Z         (* uint16 *)
}.

(** The object dictionary lists of [ec_ODlistt] and [ec_OElistt], with the
    fields [si_PDOassign] touches. *)
Record ec_ODlistt : Type := mk_ODlist {
  OD_Slave : Z;
  OD_Index : Z -> Z
}.

Record ec_OElistt : Type := mk_OElist {
  Entries : Z;
  DataType : Z -> Z;
  Name : Z -> string
}.

(** [ec_eepromPDOt]: the record table filled while the PDO section of the
    descriptor memory is walked.  [Index], [SyncM] and [BitSize] have
    [EC_MAXEEPDO] cells, [SMbitsize] has [EC_MAXSM]. *)
Record ec_eepromPDOt : Type := mk_eepromPDO {
  Startpos : Z;         (* uint16 *)
  Length : Z;           (* uint16 *)
  nPDO : Z;             (* uint16 *)
  Index : Z -> Z;       (* uint16 [EC_MAXEEPDO] *)
  SyncM : Z -> Z;       (* uint16 [EC_MAXEEPDO] *)
  BitSize : Z -> Z;     (* uint16 [EC_MAXEEPDO] *)
  SMbitsize : Z -> Z    (* uint16 [EC_MAXSM] *)
}.

Section Tables.

(** [Net] is whatever lies behind the library: the wire, the devices and
    SOEM's private state. *)
Variable Net : Type.

(** SOEM's global tables [ec_slave[]] and [ec_group[]] are fixed-size C
    arrays; they are total maps here, and the code only indexes them at slave
    numbers [0 .. ec_slavecount] and at group numbers held in a [uint8]. *)
Record Bus : Type := mk_bus {
  ec_slave : Z -> ec_slavet;
  ec_group : Z -> ec_groupt;
  wire : Net
}.

(** [ec_slavecount] is written by the discovery call [ec_config_init] only;
    the other entry points work on the tables and the wire.  The two parts
    are kept apart so that the types say so. *)
Record World : Type := mk_world {
  ec_slavecount : Z;
  bus : Bus
}.

(** The entry points of SOEM the session class calls.  Each takes the
    arguments of the C function and returns its result with the new tables. *)
Record Driver : Type := mk_driver {
  ec_config_init : bool -> World -> Z * World;
  ec_statecheck : Z -> Z -> Z -> Bus -> Z * Bus;
  ec_readstate : Bus -> Z * Bus;
  ec_writestate : Z -> Bus -> Z * Bus;
  ec_send_processdata : Bus -> Z * Bus;
  ec_receive_processdata : Z -> Bus -> Z * Bus;
  ec_reconfig_slave : Z -> Z -> Bus -> Z * Bus;
  ec_recover_slave : Z -> Z -> Bus -> Z * Bus;
  ec_ALstatuscode2string : Z -> string
}.

(** The entry points of SOEM that [slaveinfo] calls to read the object
    dictionary (CoE) and the descriptor memory (SII).  [ec_SDOread] answers
    the work counter and the value left in the caller's buffer, which the
    caller has cleared before the call; [ec_siistring] answers the string it
    leaves in the caller's buffer. *)
Record Mailbox : Type := mk_mailbox {
  ec_SDOread : Z -> Z -> Z -> bool -> Z -> Z -> Bus -> (Z * Z) * Bus;
  ec_readOEsingle : Z -> Z -> ec_ODlistt -> ec_OElistt -> Bus -> (Z * ec_OElistt) * Bus;
  ec_siifind : Z -> Z -> Bus -> Z * Bus;
  ec_siigetbyte : Z -> Z -> Bus -> Z * Bus;
  ec_siistring : Z -> Z -> Bus -> string * Bus;
  ec_eeprom2pdi : Z -> Bus -> Z * Bus
}.

End Tables.

Arguments ec_slave {Net} _ _.
Arguments ec_group {Net} _ _.
Arguments wire {Net} _.
Arguments mk_bus {Net} _ _ _.
Arguments ec_slavecount {Net} _.
Arguments bus {Net} _.
Arguments mk_world {Net} _ _.
Arguments mk_driver {Net} _ _ _ _ _ _ _ _ _.
Arguments mk_mailbox {Net} _ _ _ _ _ _.
Arguments ec_config_init {Net} _ _ _.
Arguments ec_statecheck {Net} _ _ _ _ _.
Arguments ec_readstate {Net} _ _.
Arguments ec_writestate {Net} _ _ _.
Arguments ec_send_processdata {Net} _ _.
Arguments ec_receive_processdata {Net} _ _ _.
Arguments ec_reconfig_slave {Net} _ _ _ _.
Arguments ec_recover_slave {Net} _ _ _ _.
Arguments ec_ALstatuscode2string {Net} _ _.
Arguments ec_SDOread {Net} _ _ _ _ _ _ _ _.
Arguments ec_readOEsingle {Net} _ _ _ _ _ _.
Arguments ec_siifind {Net} _ _ _ _.
Arguments ec_siigetbyte {Net} _ _ _ _.
Arguments ec_siistring {Net} _ _ _ _.
Arguments ec_eeprom2pdi {Net} _ _ _.

(** Writing one field of one entry of a table. *)
Definition upd {A : Type} (f : Z -> A) (i : Z) (x : A) : Z -> A :=
  fun j => if j =? i then x else f j.

Definition with_state (s : ec_slavet) (v : Z) : ec_slavet :=
  mk_slave v (ALstatuscode s) (group s) (islost s) (hasdc s) (name s)
           (Obits s) (Ibits s) (pdelay s) (eep_pdi s) (outputs s) (inputs s).

Definition with_islost (s : ec_slavet) (v : bool) : ec_slavet :=
  mk_slave (state s) (ALstatuscode s) (group s) v (hasdc s) (name s)
           (Obits s) (Ibits s) (pdelay s) (eep_pdi s) (outputs s) (inputs s).

Definition with_docheckstate (g : ec_groupt) (v : bool) : ec_groupt :=
  mk_group v (outputsWKC g) (inputsWKC g).

Definition set_slave_state {Net} (b : Bus Net) (i v : Z) : Bus Net :=
  mk_bus (upd (ec_slave b) i (with_state (ec_slave b i) v)) (ec_group b) (wire b).

Definition set_slave_islost {Net} (b : Bus Net) (i : Z) (v : bool) : Bus Net :=
  mk_bus (upd (ec_slave b) i (with_islost (ec_slave b i) v)) (ec_group b) (wire b).

Definition set_docheckstate {Net} (b : Bus Net) (g : Z) (v : bool) : Bus Net :=
  mk_bus (ec_slave b) (upd (ec_group b) g (with_docheckstate (ec_group b g) v)) (wire b).

(** What the code does to the outside, in order. *)
Inductive parg : Type :=
| PInt (z : Z)
| PStr (s : string).

Inductive event : Type :=
| ev_config_init (usetable : bool)
| ev_statecheck (slave reqstate timeout : Z)
| ev_readstate
| ev_writestate (slave requested : Z)
| ev_send_processdata
| ev_receive_processdata (timeout : Z)
| ev_reconfig_slave (slave timeout : Z)
| ev_recover_slave (slave timeout : Z)
| ev_usleep (usec : Z)
| ev_SDOread (slave index subindex : Z) (complete : bool) (size timeout : Z)
| ev_readOEsingle (item subindex : Z)
| ev_siifind (slave cat : Z)
| ev_siigetbyte (slave address : Z)
| ev_siistring (slave sn : Z)
| ev_eeprom2pdi (slave : Z)
| ev_printf (fmt : string) (args : list parg).

End SOEM.

Import SOEM.

(** ** A state monad: the code runs on the session object, SOEM's globals
    and the log of calls *)

Module StateMonad.

Definition M (S A : Type) : Type := S -> A * S.

Definition ret {S A : Type} (a : A) : M S A := fun s => (a, s).

Definition bind {S A B : Type} (c : M S A) (k : A -> M S B) : M S B :=
  fun s => let (a, s') := c s in k a s'.

Definition gets {S A : Type} (f : S -> A) : M S A := fun s => (f s, s).

Definition modify {S : Type} (f : S -> S) : M S unit := fun s => (tt, f s).

(** [for (i = first; ...; i++)] over [n] remaining rounds; a body that
    answers [Some r] leaves the loop at once with [r] (a [return] inside the
    loop), [None] goes on to the next round. *)
Fixpoint for_upto {S R : Type} (n : nat) (i : Z) (body : Z -> M S (option R))
  : M S (option R) :=
  match n with
  | O => ret None
  | S n' =>
      bind (body i) (fun r =>
        match r with
        | Some v => ret (Some v)
        | None => for_upto n' (i + 1) body
        end)
  end.

End StateMonad.

Import StateMonad.

Declare Scope monad_scope.
Delimit Scope monad_scope with monad.
Notation "x <- c1 ;; c2" := (bind c1 (fun x => c2))
  (at level 61, c1 at next level, right associativity) : monad_scope.
Notation "c1 ;;; c2" := (bind c1 (fun _ => c2))
  (at level 61, right associativity) : monad_scope.
Local Open Scope monad_scope.

(** ** class SimpleEthercat (SimpleEthercat.h, SimpleEthercat.cpp) *)

Module Session.

Definition EC_TIMEOUTMON : Z := 500.

(** The data members of the class; [_IOmap] and the thread handle play no
    part in the functions below. *)
Record SimpleEthercat : Type := mk_session {
  errorMessage : string;
  _IOmapSize : Z;
  _slaveCount : Z;
  _forceByteAlignment : bool;
  _expectedWKC : Z;
  _state : Z;
  _wkc : Z;
  _currentgroup : Z;
  _needlf : bool
}.

Definition with_errorMessage (t : SimpleEthercat) (m : string) : SimpleEthercat :=
  mk_session m (_IOmapSize t) (_slaveCount t) (_forceByteAlignment t)
             (_expectedWKC t) (_state t) (_wkc t) (_currentgroup t) (_needlf t).

Definition with_slaveCount (t : SimpleEthercat) (n : Z) : SimpleEthercat :=
  mk_session (errorMessage t) (_IOmapSize t) n (_forceByteAlignment t)
             (_expectedWKC t) (_state t) (_wkc t) (_currentgroup t) (_needlf t).

Definition with_expectedWKC (t : SimpleEthercat) (n : Z) : SimpleEthercat :=
  mk_session (errorMessage t) (_IOmapSize t) (_slaveCount t) (_forceByteAlignment t)
             n (_state t) (_wkc t) (_currentgroup t) (_needlf t).

Definition with_session_state (t : SimpleEthercat) (n : Z) : SimpleEthercat :=
  mk_session (errorMessage t) (_IOmapSize t) (_slaveCount t) (_forceByteAlignment t)
             (_expectedWKC t) n (_wkc t) (_currentgroup t) (_needlf t).

Definition with_needlf (t : SimpleEthercat) (v : bool) : SimpleEthercat :=
  mk_session (errorMessage t) (_IOmapSize t) (_slaveCount t) (_forceByteAlignment t)
             (_expectedWKC t) (_state t) (_wkc t) (_currentgroup t) v.

Section Methods.

Context {Net : Type}.
Variable drv : Driver Net.

(** [sprintf] of the C library, as used by [setSafeOperationalState] to build
    its message. *)
Variable sprintf : string -> list parg -> string.

(** The machine the methods run on: the object ([this]), SOEM's globals and
    the log. *)
Record St : Type := mk_st {
  self : SimpleEthercat;
  soem : World Net;
  out : list event
}.

Definition emit (e : event) : M St unit :=
  modify (fun s => mk_st (self s) (soem s) (out s ++ [e])).

Definition printf (fmt : string) (args : list parg) : M St unit :=
  emit (ev_printf fmt args).

Definition set_self (f : SimpleEthercat -> SimpleEthercat) : M St unit :=
  modify (fun s => mk_st (f (self s)) (soem s) (out s)).

Definition set_bus (f : Bus Net -> Bus Net) : M St unit :=
  modify (fun s =>
    mk_st (self s) (mk_world (ec_slavecount (soem s)) (f (bus (soem s)))) (out s)).

Definition this : M St SimpleEthercat := gets self.
Definition slave (i : Z) : M St ec_slavet := gets (fun s => ec_slave (bus (soem s)) i).
Definition grp (g : Z) : M St ec_groupt := gets (fun s => ec_group (bus (soem s)) g).
Definition slavecount : M St Z := gets (fun s => ec_slavecount (soem s)).

(** A call into SOEM that works on the tables: run it, log it. *)
Definition call (e : event) (op : Bus Net -> Z * Bus Net) : M St Z :=
  fun s =>
    let (r, b) := op (bus (soem s)) in
    (r, mk_st (self s) (mk_world (ec_slavecount (soem s)) b) (out s ++ [e])).

Definition do_statecheck (sl reqstate timeout : Z) : M St Z :=
  call (ev_statecheck sl reqstate timeout) (ec_statecheck drv sl reqstate timeout).

Definition do_readstate : M St Z := call ev_readstate (ec_readstate drv).

(** [ec_writestate(sl)] sends the state found in [ec_slave[sl].state]; the
    log keeps that value with the call. *)
Definition do_writestate (sl : Z) : M St Z :=
  s <- slave sl ;;
  call (ev_writestate sl (state s)) (ec_writestate drv sl).

Definition do_send_processdata : M St Z :=
  call ev_send_processdata (ec_send_processdata drv).

Definition do_receive_processdata (timeout : Z) : M St Z :=
  call (ev_receive_processdata timeout) (ec_receive_processdata drv timeout).

Definition do_reconfig_slave (sl timeout : Z) : M St Z :=
  call (ev_reconfig_slave sl timeout) (ec_reconfig_slave drv sl timeout).

Definition do_recover_slave (sl timeout : Z) : M St Z :=
  call (ev_recover_slave sl timeout) (ec_recover_slave drv sl timeout).

Definition do_config_init (usetable : bool) : M St Z :=
  fun s =>
    let (r, w) := ec_config_init drv usetable (soem s) in
    (r, mk_st (self s) w (out s ++ [ev_config_init usetable])).

(** [for (int i = 1; i <= ec_slavecount; i++)].  The bound is read once:
    no call made inside such a loop can write [ec_slavecount]. *)
Definition for_slaves {R : Type} (body : Z -> M St (option R)) : M St (option R) :=
  n <- slavecount ;;
  for_upto (Z.to_nat n) 1 body.

(** bool SimpleEthercat::updateProccess(void) *)
Definition updateProccess : M St bool :=
  do_send_processdata ;;;
  wkc <- do_receive_processdata EC_TIMEOUTRET ;;
  t <- this ;;
  if wkc <? _expectedWKC t then ret false else ret true.

(** void SimpleEthercat::_readStates(void) *)
Definition _readStates : M St unit :=
  do_readstate ;;; ret tt.

(** [do { body } while (chk-- && (ec_slave[0].state != target));]
    The body runs first; [chk--] is tested before the state, and a zero
    [chk] ends the loop without looking at the state. *)
Fixpoint poll_until (body : M St unit) (target : Z) (chk : nat) : M St unit :=
  body ;;;
  match chk with
  | O => ret tt
  | S chk' =>
      s0 <- slave 0 ;;
      if negb (state s0 =? target) then poll_until body target chk' else ret tt
  end.

(** The first part of [setOperationalState]: the request, the polling and
    the last state read. *)
Definition request_operational : M St unit :=
  do_statecheck 0 EC_STATE_OPERATIONAL 50000 ;;;
  do_readstate ;;;
  set_bus (fun b => set_slave_state b 0 EC_STATE_OPERATIONAL) ;;;
  do_send_processdata ;;;
  do_receive_processdata EC_TIMEOUTRET ;;;
  do_writestate 0 ;;;
  do_statecheck 0 EC_STATE_OPERATIONAL (EC_TIMEOUTSTATE * 4) ;;;
  poll_until (do_writestate 0 ;;;
              do_statecheck 0 EC_STATE_OPERATIONAL 50000 ;;; ret tt)
             EC_STATE_OPERATIONAL 200 ;;;
  do_readstate ;;; ret tt.

(** The body of the [for] loop that follows: its [return false] leaves the
    loop and the function. *)
Definition report_not_operational (i : Z) : M St (option bool) :=
  s <- slave i ;;
  if negb (state s =? EC_STATE_OPERATIONAL) then
    printf "Slave %d AL status code: %s. Current state: %d\n"
           [PInt i; PStr (ec_ALstatuscode2string drv (ALstatuscode s));
            PInt (state s)] ;;;
    set_self (fun t => with_errorMessage t
                "Slaves state can not set to operational state.") ;;;
    ret (Some false)
  else ret None.

(** bool SimpleEthercat::setOperationalState(void) *)
Definition setOperationalState : M St bool :=
  request_operational ;;;
  r <- for_slaves report_not_operational ;;
  match r with
  | Some b => ret b
  | None =>
      set_self (fun t => with_session_state t EC_STATE_OPERATIONAL) ;;;
      ret true
  end.

(** void SimpleEthercat::setInitState(void) *)
Definition setInitState : M St unit :=
  do_statecheck 0 EC_STATE_INIT 50000 ;;;
  do_readstate ;;;
  set_bus (fun b => set_slave_state b 0 EC_STATE_INIT) ;;;
  do_send_processdata ;;;
  do_receive_processdata EC_TIMEOUTRET ;;;
  do_writestate 0 ;;;
  poll_until (do_send_processdata ;;;
              do_receive_processdata EC_TIMEOUTRET ;;;
              do_statecheck 0 EC_STATE_INIT 50000 ;;; ret tt)
             EC_STATE_INIT 200 ;;;
  set_self (fun t => with_session_state t EC_STATE_INIT).

(** bool SimpleEthercat::setPreOperationalState(void) *)
Definition setPreOperationalState : M St bool :=
  do_statecheck 0 EC_STATE_PRE_OP 50000 ;;;
  do_readstate ;;;
  set_bus (fun b => set_slave_state b 0 EC_STATE_PRE_OP) ;;;
  do_send_processdata ;;;
  do_receive_processdata EC_TIMEOUTRET ;;;
  do_writestate 0 ;;;
  poll_until (do_send_processdata ;;;
              do_receive_processdata EC_TIMEOUTRET ;;;
              do_statecheck 0 EC_STATE_PRE_OP 50000 ;;; ret tt)
             EC_STATE_PRE_OP 200 ;;;
  set_self (fun t => with_session_state t EC_STATE_PRE_OP) ;;;
  ret true.

(** bool SimpleEthercat::setSafeOperationalState(void) *)
Definition setSafeOperationalState : M St bool :=
  for_slaves (R := unit) (fun i =>
    set_bus (fun b => set_slave_state b i EC_STATE_SAFE_OP) ;;; ret None) ;;;
  do_writestate 0 ;;;
  r <- do_statecheck 0 EC_STATE_SAFE_OP (EC_TIMEOUTSTATE * 4) ;;
  let flag := r =? EC_STATE_SAFE_OP in
  do_readstate ;;;
  g0 <- grp 0 ;;
  set_self (fun t =>
    with_expectedWKC t (CInt.int32 (outputsWKC g0 * 2 + inputsWKC g0))) ;;;
  (if flag then
     set_self (fun t => with_session_state t EC_STATE_SAFE_OP)
   else
     for_slaves (R := unit) (fun i =>
       s <- slave i ;;
       if negb (state s =? EC_STATE_SAFE_OP) then
         set_self (fun t => with_errorMessage t
           (sprintf
              "Slave %d failed to reach SAFE_OP. State: %2x, StatusCode: %4x : %s\nCheck slave configuration at pre_operational mode.\n"
              [PInt i; PInt (state s); PInt (ALstatuscode s);
               PStr (ec_ALstatuscode2string drv (ALstatuscode s))])) ;;;
         ret None
       else ret None) ;;; ret tt) ;;;
  ret flag.

(** bool SimpleEthercat::configSlaves(void) *)
Definition configSlaves : M St bool :=
  found <- do_config_init false ;;
  if found >? 0 then
    n <- slavecount ;;
    set_self (fun t => with_slaveCount t n) ;;;
    setPreOperationalState ;;;
    _readStates ;;;
    r <- for_slaves (fun cnt =>
           s <- slave cnt ;;
           if negb (state s =? EC_STATE_PRE_OP) then
             set_self (fun t => with_errorMessage t
               "Error SimpleEthercat: Ethercat state can not switch to Pre Operational.") ;;;
             ret (Some false)
           else ret None) ;;
    match r with
    | Some b => ret b
    | None =>
        set_self (fun t => with_session_state t EC_STATE_PRE_OP) ;;;
        ret true
    end
  else
    set_self (fun t => with_errorMessage t
      "Error SimpleEthercat: Failed to config slaves. No slaves detected!") ;;;
    _readStates ;;;
    ret false.

(** std::string SimpleEthercat::_slaveStateNum2Str(int num_state) *)
Definition _slaveStateNum2Str (num_state : Z) : string :=
  if num_state =? EC_STATE_BOOT then "Boot"
  else if num_state =? EC_STATE_INIT then "INIT"
  else if num_state =? EC_STATE_PRE_OP then "PRE_OP"
  else if num_state =? EC_STATE_SAFE_OP then "SAFE_OP"
  else if num_state =? EC_STATE_OPERATIONAL then "OP"
  else if num_state =? EC_STATE_NONE then "NONE"
  else if num_state =? EC_STATE_ERROR then "ERROR/ACK"
  else "NONE".

(** void SimpleEthercat::showStates(void) *)
Definition showStates : M St unit :=
  _readStates ;;;
  for_slaves (R := unit) (fun i =>
    s <- slave i ;;
    let str_state := _slaveStateNum2Str (state s) in
    printf "Slave %2d, State=%8s, StatusCode=0x%4.4x : %s\n"
           [PInt i; PStr str_state; PInt (ALstatuscode s);
            PStr (ec_ALstatuscode2string drv (ALstatuscode s))] ;;;
    ret None) ;;;
  ret tt.

(** void SimpleEthercat::listSlaves(void) *)
Definition listSlaves : M St unit :=
  _readStates ;;;
  for_slaves (R := unit) (fun cnt =>
    s <- slave cnt ;;
    let str_state := _slaveStateNum2Str (state s) in
    printf "\nSlave:%2d Name:%s\t RXsize: %3dbytes, TXsize: %3dbytes\t State: %8s\t Delay: %8d[ns]\t Has DC: %1d\n"
           [PInt cnt; PStr (name s); PInt (Z.quot (Obits s) 8);
            PInt (Z.quot (Ibits s) 8); PStr str_state; PInt (pdelay s);
            PInt (if hasdc s then 1 else 0)] ;;;
    ret None) ;;;
  ret tt.

(** bool SimpleEthercat::isAllStatesOPT(void) *)
Definition isAllStatesOPT : M St bool :=
  _readStates ;;;
  r <- for_slaves (fun i =>
         s <- slave i ;;
         if negb (state s =? EC_STATE_OPERATIONAL) then
           set_self (fun t => with_errorMessage t
                       "Not all slaves reached operational state.") ;;;
           ret (Some false)
         else ret None) ;;
  match r with
  | Some b => ret b
  | None => ret true
  end.

(** The repair ladder of [_ecatcheck] for one slave that belongs to the
    current group and is not OPERATIONAL: the [if / else if] chain. *)
Definition repair_ladder (sl : Z) : M St unit :=
  s <- slave sl ;;
  if state s =? EC_STATE_SAFE_OP + EC_STATE_ERROR then
    printf "ERROR : slave %d is in SAFE_OP + ERROR, attempting ack.\n" [PInt sl] ;;;
    set_bus (fun b => set_slave_state b sl (EC_STATE_SAFE_OP + EC_STATE_ACK)) ;;;
    do_writestate sl ;;; ret tt
  else if state s =? EC_STATE_SAFE_OP then
    printf "WARNING : slave %d is in SAFE_OP, change to OPERATIONAL.\n" [PInt sl] ;;;
    set_bus (fun b => set_slave_state b sl EC_STATE_OPERATIONAL) ;;;
    do_writestate sl ;;; ret tt
  else if state s >? EC_STATE_NONE then
    r <- do_reconfig_slave sl EC_TIMEOUTMON ;;
    if negb (r =? 0) then
      set_bus (fun b => set_slave_islost b sl false) ;;;
      printf "MESSAGE : slave %d reconfigured\n" [PInt sl]
    else ret tt
  else if negb (islost s) then
    do_statecheck sl EC_STATE_OPERATIONAL EC_TIMEOUTRET ;;;
    s' <- slave sl ;;
    if state s' =? EC_STATE_NONE then
      set_bus (fun b => set_slave_islost b sl true) ;;;
      printf "ERROR : slave %d lost\n" [PInt sl]
    else ret tt
  else ret tt.

(** The second [if] of the loop body: a slave flagged lost. *)
Definition offer_recovery (sl : Z) : M St unit :=
  s <- slave sl ;;
  if islost s then
    if state s =? EC_STATE_NONE then
      r <- do_recover_slave sl EC_TIMEOUTMON ;;
      if negb (r =? 0) then
        set_bus (fun b => set_slave_islost b sl false) ;;;
        printf "MESSAGE : slave %d recovered\n" [PInt sl]
      else ret tt
    else
      set_bus (fun b => set_slave_islost b sl false) ;;;
      printf "MESSAGE : slave %d found\n" [PInt sl]
  else ret tt.

(** The body of [for (slave = 1; slave <= ec_slavecount; slave++)]. *)
Definition check_slave (sl : Z) : M St unit :=
  t <- this ;;
  s <- slave sl ;;
  (if (group s =? _currentgroup t) && negb (state s =? EC_STATE_OPERATIONAL) then
     set_bus (fun b => set_docheckstate b (_currentgroup t) true) ;;;
     repair_ladder sl
   else ret tt) ;;;
  offer_recovery sl.

(** The guard of the sweep:
    [(_state == EC_STATE_OPERATIONAL) &&
     ((_wkc < _expectedWKC) || ec_group[_currentgroup].docheckstate)] *)
Definition sweep_due (s : St) : bool :=
  (_state (self s) =? EC_STATE_OPERATIONAL) &&
  ((_wkc (self s) <? _expectedWKC (self s)) ||
   docheckstate (ec_group (bus (soem s)) (_currentgroup (self s)))).

(** What the guard protects, in three parts: up to the state read, the loop
    over the slaves, and the closing message. *)
Definition sweep_begin : M St unit :=
  t <- this ;;
  (if _needlf t then
     set_self (fun t => with_needlf t false) ;;; printf "\n" []
   else ret tt) ;;;
  set_bus (fun b => set_docheckstate b (_currentgroup t) false) ;;;
  do_readstate ;;; ret tt.

Definition sweep_end : M St unit :=
  t <- this ;;
  g <- grp (_currentgroup t) ;;
  if negb (docheckstate g) then
    printf "SDCSDC\n" [] ;;;
    set_bus (fun b => set_docheckstate b (_currentgroup t) false) ;;;
    printf "OK : all slaves resumed OPERATIONAL.\n" []
  else ret tt.

Definition sweep : M St unit :=
  sweep_begin ;;;
  for_slaves (R := unit) (fun sl => check_slave sl ;;; ret None) ;;;
  sweep_end.

(** One round of the [while(1)] of [_ecatcheck]. *)
Definition ecatcheck_round : M St unit :=
  due <- gets sweep_due ;;
  (if due then sweep else ret tt) ;;;
  emit (ev_usleep 10000).

(** OSAL_THREAD_FUNC SimpleEthercat::_ecatcheck(): the loop never ends; the
    model runs a given number of its rounds. *)
Fixpoint _ecatcheck (rounds : nat) : M St unit :=
  match rounds with
  | O => ret tt
  | S n => ecatcheck_round ;;; _ecatcheck n
  end.

End Methods.

Arguments St : clear implicits.

End Session.

(** ** An error-and-state monad for [slaveinfo]

    Two things can go wrong in the model of the mapping printers: a loop of
    the source that need not end runs out of the fuel it was given, or a
    fixed-size table is indexed outside its cells. *)

Module ErrorMonad.

Inductive fault : Type :=
| out_of_fuel
| array_overrun.

Inductive result (A : Type) : Type :=
| Done (a : A)
| Fault (f : fault).

Arguments Done {A} _.
Arguments Fault {A} _.

Definition E (S A : Type) : Type := S -> result (A * S).

Definition eret {S A : Type} (a : A) : E S A := fun s => Done (a, s).

Definition ebind {S A B : Type} (c : E S A) (k : A -> E S B) : E S B :=
  fun s =>
    match c s with
    | Done (a, s') => k a s'
    | Fault f => Fault f
    end.

Definition fail {S A : Type} (f : fault) : E S A := fun _ => Fault f.

Definition egets {S A : Type} (f : S -> A) : E S A := fun s => Done (f s, s).

Definition emodify {S : Type} (f : S -> S) : E S unit := fun s => Done (tt, f s).

(** A cell of a C array of [size] cells, read or written at index [i]. *)
Definition load {S : Type} (size : Z) (a : Z -> Z) (i : Z) : E S Z :=
  if (0 <=? i) && (i <? size) then eret (a i) else fail array_overrun.

Definition store {S : Type} (size : Z) (a : Z -> Z) (i v : Z) : E S (Z -> Z) :=
  if (0 <=? i) && (i <? size) then eret (upd a i v) else fail array_overrun.

End ErrorMonad.

Import ErrorMonad.

Declare Scope error_scope.
Delimit Scope error_scope with error.
Notation "x <- c1 ;; c2" := (ebind c1 (fun x => c2))
  (at level 61, c1 at next level, right associativity) : error_scope.
Notation "c1 ;;; c2" := (ebind c1 (fun _ => c2))
  (at level 61, right associativity) : error_scope.

(** ** slaveinfo.cpp: the PDO mapping printers *)

Module SlaveInfo.

Local Open Scope error_scope.

Section Printers.

Context {Net : Type}.
Variable mbx : Mailbox Net.

(** [dtype2string] of slaveinfo.cpp only renders a data type for a printed
    row; its text plays no part below. *)
Variable dtype2string : Z -> Z -> string.

(** The globals of the tool: SOEM's tables, [ODlist], [OElist], and the log. *)
Record Globals : Type := mk_globals {
  soem : Bus Net;
  ODlist : ec_ODlistt;
  OElist : ec_OElistt;
  out : list event
}.

Definition printf (fmt : string) (args : list parg) : E Globals unit :=
  emodify (fun g => mk_globals (soem g) (ODlist g) (OElist g)
                               (out g ++ [ev_printf fmt args])).

Definition call {A : Type} (e : event) (op : Bus Net -> A * Bus Net) : E Globals A :=
  fun g =>
    let (r, b) := op (soem g) in
    Done (r, mk_globals b (ODlist g) (OElist g) (out g ++ [e])).

Definition do_SDOread (sl index subindex : Z) (complete : bool) (size timeout : Z)
  : E Globals (Z * Z) :=
  call (ev_SDOread sl index subindex complete size timeout)
       (ec_SDOread mbx sl index subindex complete size timeout).

Definition do_readOEsingle (item subindex : Z) : E Globals Z :=
  fun g =>
    let '(wkc, oe, b) := ec_readOEsingle mbx item subindex (ODlist g) (OElist g) (soem g) in
    Done (wkc, mk_globals b (ODlist g) oe (out g ++ [ev_readOEsingle item subindex])).

Definition do_siifind (sl cat : Z) : E Globals Z :=
  call (ev_siifind sl cat) (ec_siifind mbx sl cat).

(** [ec_siigetbyte] answers a [uint8]. *)
Definition do_siigetbyte (sl address : Z) : E Globals Z :=
  v <- call (ev_siigetbyte sl address) (ec_siigetbyte mbx sl address) ;;
  eret (CInt.uint8 v).

Definition do_siistring (sl sn : Z) : E Globals string :=
  call (ev_siistring sl sn) (ec_siistring mbx sl sn).

Definition do_eeprom2pdi (sl : Z) : E Globals Z :=
  call (ev_eeprom2pdi sl) (ec_eeprom2pdi mbx sl).

(** The fields of the 32-bit mapping word read from a PDO:
    [(uint16)(rdat2 >> 16)], [(uint8)((rdat2 >> 8) & 0x000000ff)],
    [LO_BYTE(rdat2)]. *)
Definition word_obj_idx (rdat2 : Z) : Z := CInt.uint16 (Z.shiftr rdat2 16).
Definition word_obj_subidx (rdat2 : Z) : Z := CInt.uint8 (Z.land (Z.shiftr rdat2 8) 255).
Definition word_bitlen (rdat2 : Z) : Z := CInt.uint8 (CInt.LO_BYTE rdat2).

(** Body of [for (subidxloop = 1; subidxloop <= subidx; subidxloop++)] in
    [si_PDOassign].  The pair carried along is [(bsize, bitoffset)]. *)
Definition PDOassign_entry (sl idx subidxloop mapoffset : Z) (acc : Z * Z)
  : E Globals (Z * Z) :=
  let (bsize, bitoffset) := acc in
  r <- do_SDOread sl idx (CInt.uint8 subidxloop) false 4 EC_TIMEOUTRXM ;;
  let rdat2 := CInt.int32 (snd r) in
  let bitlen := word_bitlen rdat2 in
  let bsize := CInt.int32 (bsize + bitlen) in
  let obj_idx := word_obj_idx rdat2 in
  let obj_subidx := word_obj_subidx rdat2 in
  let abs_offset := CInt.int32 (mapoffset + Z.quot bitoffset 8) in
  let abs_bit := Z.rem bitoffset 8 in
  emodify (fun g =>
    mk_globals (soem g)
               (mk_ODlist sl (upd (OD_Index (ODlist g)) 0 obj_idx))
               (mk_OElist 0 (DataType (OElist g)) (Name (OElist g)))
               (out g)) ;;;
  wkc <- (if negb (obj_idx =? 0) || negb (obj_subidx =? 0)
          then do_readOEsingle 0 obj_subidx
          else eret 0) ;;
  printf "  [0x%4.4X.%1d] 0x%4.4X:0x%2.2X 0x%2.2X"
         [PInt abs_offset; PInt abs_bit; PInt obj_idx; PInt obj_subidx; PInt bitlen] ;;;
  oe <- egets OElist ;;
  (if (wkc >? 0) && negb (Entries oe =? 0) then
     printf " %-12s %s\n"
            [PStr (dtype2string (DataType oe obj_subidx) bitlen);
             PStr (Name oe obj_subidx)]
   else printf "\n" []) ;;;
  eret (bsize, CInt.int32 (bitoffset + bitlen)).

Fixpoint PDOassign_entries (n : nat) (sl idx subidxloop mapoffset : Z) (acc : Z * Z)
  : E Globals (Z * Z) :=
  match n with
  | O => eret acc
  | S n' =>
      acc' <- PDOassign_entry sl idx subidxloop mapoffset acc ;;
      PDOassign_entries n' sl idx (subidxloop + 1) mapoffset acc'
  end.

(** Body of [for (idxloop = 1; idxloop <= nidx; idxloop++)]. *)
Definition PDOassign_pdo (sl PDOassign idxloop mapoffset : Z) (acc : Z * Z)
  : E Globals (Z * Z) :=
  r <- do_SDOread sl PDOassign (CInt.uint8 idxloop) false 2 EC_TIMEOUTRXM ;;
  let idx := CInt.uint16 (snd r) in
  if idx >? 0 then
    r' <- do_SDOread sl idx 0 false 1 EC_TIMEOUTRXM ;;
    let subidx := CInt.uint8 (snd r') in
    PDOassign_entries (Z.to_nat subidx) sl idx 1 mapoffset acc
  else eret acc.

(** [idxloop] and [nidx] are both [uint16]: with [nidx = 0xffff] the test
    [idxloop <= nidx] never fails and the loop of the source does not end,
    hence the fuel. *)
Fixpoint PDOassign_pdos (fuel : nat) (sl PDOassign idxloop nidx mapoffset : Z)
  (acc : Z * Z) : E Globals (Z * Z) :=
  if idxloop <=? nidx then
    match fuel with
    | O => fail out_of_fuel
    | S fuel' =>
        acc' <- PDOassign_pdo sl PDOassign idxloop mapoffset acc ;;
        PDOassign_pdos fuel' sl PDOassign (CInt.uint16 (idxloop + 1)) nidx mapoffset acc'
    end
  else eret acc.

(** int si_PDOassign(uint16 slave, uint16 PDOassign, int mapoffset, int bitoffset) *)
Definition si_PDOassign (fuel : nat) (sl PDOassign mapoffset bitoffset : Z)
  : E Globals Z :=
  r <- do_SDOread sl PDOassign 0 false 2 EC_TIMEOUTRXM ;;
  let wkc := fst r in
  let rdat := CInt.uint16 (snd r) in
  if (wkc >? 0) && (rdat >? 0) then
    acc <- PDOassign_pdos fuel sl PDOassign 1 rdat mapoffset (0, bitoffset) ;;
    eret (fst acc)
  else eret 0.

(** The locals of [si_map_sdo] that live across the rounds of its loop. *)
Record sm_locals : Type := mk_sm_locals {
  SMt_bug_add : Z;      (* uint8 *)
  outputs_bo : Z;
  inputs_bo : Z
}.

(** What [si_map_sdo] does with a communication type once it is in [tSM]:
    [if (tSM == 3) ... if (tSM == 4) ...]. *)
Definition map_by_type (fuel : nat) (sl iSM tSM : Z) (l : sm_locals)
  : E Globals sm_locals :=
  l1 <- (if tSM =? 3 then
           printf "  SM%1d outputs\n     addr b   index: sub bitl data_type    name\n"
                  [PInt iSM] ;;;
           o <- egets (fun g => outputs (ec_slave (soem g) sl)) ;;
           Tsize <- si_PDOassign fuel sl (ECT_SDO_PDOASSIGN + iSM) (CInt.int32 o)
                                 (outputs_bo l) ;;
           eret (mk_sm_locals (SMt_bug_add l)
                              (CInt.int32 (outputs_bo l + Tsize)) (inputs_bo l))
         else eret l) ;;
  if tSM =? 4 then
    printf "  SM%1d inputs\n     addr b   index: sub bitl data_type    name\n"
           [PInt iSM] ;;;
    i <- egets (fun g => inputs (ec_slave (soem g) sl)) ;;
    Tsize <- si_PDOassign fuel sl (ECT_SDO_PDOASSIGN + iSM) (CInt.int32 i)
                          (inputs_bo l1) ;;
    eret (mk_sm_locals (SMt_bug_add l1) (outputs_bo l1)
                       (CInt.int32 (inputs_bo l1 + Tsize)))
  else eret l1.

(** Body of [for (iSM = 2 ; iSM <= nSM ; iSM++)]. *)
Definition map_sdo_round (fuel : nat) (sl iSM : Z) (l : sm_locals)
  : E Globals sm_locals :=
  r <- do_SDOread sl ECT_SDO_SMCOMMTYPE (CInt.uint8 (iSM + 1)) false 1 EC_TIMEOUTRXM ;;
  let wkc := fst r in
  let tSM := CInt.uint8 (snd r) in
  if wkc >? 0 then
    l1 <- (if (iSM =? 2) && (tSM =? 2) then
             printf "Activated SM type workaround, possible incorrect mapping.\n" [] ;;;
             eret (mk_sm_locals 1 (outputs_bo l) (inputs_bo l))
           else eret l) ;;
    let tSM := if negb (tSM =? 0) then CInt.uint8 (tSM + SMt_bug_add l1) else tSM in
    map_by_type fuel sl iSM tSM l1
  else eret l.

Fixpoint map_sdo_rounds (n : nat) (fuel : nat) (sl iSM : Z) (l : sm_locals)
  : E Globals sm_locals :=
  match n with
  | O => eret l
  | S n' =>
      l' <- map_sdo_round fuel sl iSM l ;;
      map_sdo_rounds n' fuel sl (iSM + 1) l'
  end.

(** int si_map_sdo(int slave).  [nSM] is at most [EC_MAXSM] when the loop
    starts, so the [uint8] counter [iSM] runs from 2 to [nSM] without
    wrapping: [nSM - 1] rounds. *)
Definition si_map_sdo (fuel : nat) (sl : Z) : E Globals Z :=
  printf "PDO mapping according to CoE :\n" [] ;;;
  r <- do_SDOread sl ECT_SDO_SMCOMMTYPE 0 false 1 EC_TIMEOUTRXM ;;
  let wkc := fst r in
  let nSM := CInt.uint8 (snd r) in
  l <- (if (wkc >? 0) && (nSM >? 2) then
          let nSM := CInt.uint8 (nSM - 1) in
          let nSM := if nSM >? EC_MAXSM then EC_MAXSM else nSM in
          map_sdo_rounds (Z.to_nat (nSM - 1)) fuel sl 2 (mk_sm_locals 0 0 0)
        else eret (mk_sm_locals 0 0 0)) ;;
  if (outputs_bo l >? 0) || (inputs_bo l >? 0) then eret 1 else eret 0.

(** The locals of [si_siiPDO] that live across the rounds of its loops. *)
Record sii_locals : Type := mk_sii_locals {
  a : Z;                (* uint16, read cursor *)
  c : Z;                (* uint16, words consumed *)
  PDO : ec_eepromPDOt;
  bitoffset : Z;        (* int *)
  totalsize : Z         (* int *)
}.

Definition with_PDO_Index (p : ec_eepromPDOt) (f : Z -> Z) : ec_eepromPDOt :=
  mk_eepromPDO (Startpos p) (Length p) (nPDO p) f (SyncM p) (BitSize p) (SMbitsize p).

Definition with_PDO_SyncM (p : ec_eepromPDOt) (f : Z -> Z) : ec_eepromPDOt :=
  mk_eepromPDO (Startpos p) (Length p) (nPDO p) (Index p) f (BitSize p) (SMbitsize p).

Definition with_PDO_BitSize (p : ec_eepromPDOt) (f : Z -> Z) : ec_eepromPDOt :=
  mk_eepromPDO (Startpos p) (Length p) (nPDO p) (Index p) (SyncM p) f (SMbitsize p).

Definition with_PDO_SMbitsize (p : ec_eepromPDOt) (f : Z -> Z) : ec_eepromPDOt :=
  mk_eepromPDO (Startpos p) (Length p) (nPDO p) (Index p) (SyncM p) (BitSize p) f.

Definition with_PDO_nPDO (p : ec_eepromPDOt) (n : Z) : ec_eepromPDOt :=
  mk_eepromPDO (Startpos p) (Length p) n (Index p) (SyncM p) (BitSize p) (SMbitsize p).

(** [ec_siigetbyte(slave, a++)] *)
Definition next_byte (sl : Z) (l : sii_locals) : E Globals (Z * sii_locals) :=
  v <- do_siigetbyte sl (a l) ;;
  eret (v, mk_sii_locals (CInt.uint16 (a l + 1)) (c l) (PDO l) (bitoffset l) (totalsize l)).

Definition skip_a (n : Z) (l : sii_locals) : sii_locals :=
  mk_sii_locals (CInt.uint16 (a l + n)) (c l) (PDO l) (bitoffset l) (totalsize l).

Definition add_c (n : Z) (l : sii_locals) : sii_locals :=
  mk_sii_locals (a l) (CInt.uint16 (c l + n)) (PDO l) (bitoffset l) (totalsize l).

Definition set_PDO (p : ec_eepromPDOt) (l : sii_locals) : sii_locals :=
  mk_sii_locals (a l) (c l) p (bitoffset l) (totalsize l).

(** Body of [for (er = 1; er <= e; er++)] in [si_siiPDO]. *)
Definition siiPDO_entry (sl mapoffset : Z) (l : sii_locals) : E Globals sii_locals :=
  let l := add_c 4 l in
  r <- next_byte sl l ;; let (lo, l) := r in
  r <- next_byte sl l ;; let (hi, l) := r in
  let obj_idx := CInt.uint16 (lo + Z.shiftl hi 8) in
  r <- next_byte sl l ;; let (obj_subidx, l) := r in
  r <- next_byte sl l ;; let (obj_name, l) := r in
  r <- next_byte sl l ;; let (obj_datatype, l) := r in
  r <- next_byte sl l ;; let (bitlen, l) := r in
  let abs_offset := CInt.int32 (mapoffset + Z.quot (bitoffset l) 8) in
  let abs_bit := Z.rem (bitoffset l) 8 in
  let p := PDO l in
  old <- load EC_MAXEEPDO (BitSize p) (nPDO p) ;;
  bs <- store EC_MAXEEPDO (BitSize p) (nPDO p) (CInt.uint16 (old + bitlen)) ;;
  let l := skip_a 2 (set_PDO (with_PDO_BitSize p bs) l) in
  (if negb (obj_idx =? 0) || negb (obj_subidx =? 0) then
     str_name <- (if negb (obj_name =? 0) then do_siistring sl obj_name
                  else eret EmptyString) ;;
     printf "  [0x%4.4X.%1d] 0x%4.4X:0x%2.2X 0x%2.2X"
            [PInt abs_offset; PInt abs_bit; PInt obj_idx; PInt obj_subidx; PInt bitlen] ;;;
     printf " %-12s %s\n" [PStr (dtype2string obj_datatype bitlen); PStr str_name]
   else eret tt) ;;;
  eret (mk_sii_locals (a l) (c l) (PDO l)
                      (CInt.int32 (bitoffset l + bitlen))
                      (CInt.int32 (totalsize l + bitlen))).

Fixpoint siiPDO_entries (n : nat) (sl mapoffset : Z) (l : sii_locals)
  : E Globals sii_locals :=
  match n with
  | O => eret l
  | S n' =>
      l' <- siiPDO_entry sl mapoffset l ;;
      siiPDO_entries n' sl mapoffset l'
  end.

(** Body of the [do ... while (c < PDO->Length)] of [si_siiPDO]: one PDO
    record. *)
Definition siiPDO_record (sl t mapoffset : Z) (l : sii_locals) : E Globals sii_locals :=
  let n := CInt.uint16 (nPDO (PDO l) + 1) in
  let l := set_PDO (with_PDO_nPDO (PDO l) n) l in
  r <- next_byte sl l ;; let (lo, l) := r in
  ix <- store EC_MAXEEPDO (Index (PDO l)) n lo ;;
  let l := set_PDO (with_PDO_Index (PDO l) ix) l in
  r <- next_byte sl l ;; let (hi, l) := r in
  old <- load EC_MAXEEPDO (Index (PDO l)) n ;;
  ix <- store EC_MAXEEPDO (Index (PDO l)) n (CInt.uint16 (old + Z.shiftl hi 8)) ;;
  let l := set_PDO (with_PDO_Index (PDO l) ix) l in
  bs <- store EC_MAXEEPDO (BitSize (PDO l)) n 0 ;;
  let l := add_c 1 (set_PDO (with_PDO_BitSize (PDO l) bs) l) in
  r <- next_byte sl l ;; let (e, l) := r in
  r <- next_byte sl l ;; let (sm, l) := r in
  smt <- store EC_MAXEEPDO (SyncM (PDO l)) n sm ;;
  let l := skip_a 1 (set_PDO (with_PDO_SyncM (PDO l) smt) l) in
  r <- next_byte sl l ;; let (obj_name, l) := r in
  let l := add_c 2 (skip_a 2 l) in
  syncm <- load EC_MAXEEPDO (SyncM (PDO l)) n ;;
  l <- (if syncm <? EC_MAXSM then
          str_name <- (if negb (obj_name =? 0) then do_siistring sl obj_name
                       else eret EmptyString) ;;
          idx <- load EC_MAXEEPDO (Index (PDO l)) n ;;
          (if negb (t =? 0) then
             printf "  SM%1d RXPDO 0x%4.4X %s\n" [PInt syncm; PInt idx; PStr str_name]
           else
             printf "  SM%1d TXPDO 0x%4.4X %s\n" [PInt syncm; PInt idx; PStr str_name]) ;;;
          printf "     addr b   index: sub bitl data_type    name\n" [] ;;;
          l <- siiPDO_entries (Z.to_nat e) sl mapoffset l ;;
          size <- load EC_MAXEEPDO (BitSize (PDO l)) n ;;
          old <- load EC_MAXSM (SMbitsize (PDO l)) syncm ;;
          smb <- store EC_MAXSM (SMbitsize (PDO l)) syncm (CInt.uint16 (old + size)) ;;
          eret (add_c 1 (set_PDO (with_PDO_SMbitsize (PDO l) smb) l))
        else
          eret (add_c 1 (skip_a (8 * e) (add_c (4 * e) l)))) ;;
  if nPDO (PDO l) >=? EC_MAXEEPDO - 1
  then eret (mk_sii_locals (a l) (Length (PDO l)) (PDO l) (bitoffset l) (totalsize l))
  else eret l.

(** [do { record } while (c < PDO->Length);] *)
Fixpoint siiPDO_walk (fuel : nat) (sl t mapoffset : Z) (l : sii_locals)
  : E Globals sii_locals :=
  match fuel with
  | O => fail out_of_fuel
  | S fuel' =>
      l' <- siiPDO_record sl t mapoffset l ;;
      if c l' <? Length (PDO l') then siiPDO_walk fuel' sl t mapoffset l'
      else eret l'
  end.

(** The part of [si_siiPDO] up to the end of the walk, with the locals it
    leaves behind. *)
Definition siiPDO_locals (fuel : nat) (sl t mapoffset bitoffset0 : Z)
  : E Globals sii_locals :=
  let p := mk_eepromPDO 0 0 0 (fun _ => 0) (fun _ => 0) (fun _ => 0) (fun _ => 0) in
  let t := if t >? 1 then 1 else t in
  pos <- do_siifind sl (ECT_SII_PDO + t) ;;
  let p := mk_eepromPDO (CInt.uint16 pos) 0 0 (Index p) (SyncM p) (BitSize p) (SMbitsize p) in
  let l := mk_sii_locals 0 EC_MAXSM p bitoffset0 0 in
  if Startpos p >? 0 then
    let l := mk_sii_locals (Startpos p) (c l) p bitoffset0 0 in
    r <- next_byte sl l ;; let (lo, l) := r in
    r <- next_byte sl l ;; let (hi, l) := r in
    let w := CInt.uint16 (lo + Z.shiftl hi 8) in
    let p := mk_eepromPDO (Startpos p) w 0 (Index p) (SyncM p) (BitSize p) (SMbitsize p) in
    let l := mk_sii_locals (a l) 1 p bitoffset0 0 in
    siiPDO_walk fuel sl t mapoffset l
  else eret l.

(** int si_siiPDO(uint16 slave, uint8 t, int mapoffset, int bitoffset) *)
Definition si_siiPDO (fuel : nat) (sl t mapoffset bitoffset0 : Z) : E Globals Z :=
  eectl <- egets (fun g => eep_pdi (ec_slave (soem g) sl)) ;;
  l <- siiPDO_locals fuel sl t mapoffset bitoffset0 ;;
  (if negb (eectl =? 0) then do_eeprom2pdi sl ;;; eret tt else eret tt) ;;;
  eret (totalsize l).

End Printers.

Arguments Globals : clear implicits.

End SlaveInfo.

(** ** Concrete buses used to run the code

    A bus without a wire state, on which every slave reports one fixed state
    whatever is requested of it. *)

Module Bench.

Definition quiet_slave (st : Z) : ec_slavet :=
  mk_slave st 27 0 false false "EK1100" 16 8 0 0 0 0.

Definition quiet_bus (st : Z) : Bus unit :=
  mk_bus (fun _ => quiet_slave st) (fun _ => mk_group false 1 1) tt.

(** State checks and state reads write the state [actual] back into the
    table; discovery finds [found] slaves; a receive returns the work counter
    [wkc]; reconfiguration and recovery fail. *)
Definition stuck (actual found wkc : Z) : Driver unit :=
  mk_driver
    (fun _ w => (found, mk_world found (bus w)))
    (fun sl _ _ b => (actual, set_slave_state b sl actual))
    (fun b => (actual,
               mk_bus (fun i => with_state (ec_slave b i) actual) (ec_group b) (wire b)))
    (fun _ b => (1, b))
    (fun b => (1, b))
    (fun _ b => (wkc, b))
    (fun _ _ b => (0, b))
    (fun _ _ b => (0, b))
    (fun code => if code =? 27 then "Sync manager watchdog"%string
                else "Unknown"%string).

Definition fresh_session : Session.SimpleEthercat :=
  Session.mk_session EmptyString 0 0 true 0 EC_STATE_NONE 0 0 false.

Definition start (st n : Z) : Session.St unit :=
  Session.mk_st fresh_session (mk_world n (quiet_bus st)) [].

(** A stand-in for the C library's [sprintf] that leaves the format as it
    is. *)
Definition plain_sprintf (fmt : string) (args : list parg) : string := fmt.

(** A slave whose descriptor memory holds [mem] and whose dictionary holds
    [dict]: every read succeeds and the PDO section is found at word 64. *)
Definition rom (mem : Z -> Z) (dict : Z -> Z -> Z) : Mailbox unit :=
  mk_mailbox
    (fun _ index sub _ _ _ b => ((1, dict index sub), b))
    (fun _ _ _ _ b => ((1, mk_OElist 1 (fun _ => 7) (fun _ => "Status word"%string)), b))
    (fun _ _ b => (64, b))
    (fun _ address b => (mem address, b))
    (fun _ _ b => ("Inputs"%string, b))
    (fun _ b => (1, b)).

Definition plain_dtype2string (dtype bitlen : Z) : string := "UNSIGNED16".

Definition tool_start : SlaveInfo.Globals unit :=
  SlaveInfo.mk_globals (quiet_bus EC_STATE_PRE_OP)
    (mk_ODlist 0 (fun _ => 0)) (mk_OElist 0 (fun _ => 0) (fun _ => EmptyString)) [].

End Bench.

(** ** Vocabulary for the statements *)

Module Vocabulary.

(** The indices a [for] loop visits: [n] consecutive integers from [i]. *)
Fixpoint zseq (i : Z) (n : nat) : list Z :=
  match n with
  | O => []
  | S n' => i :: zseq (i + 1) n'
  end.

(** The slave numbers of [for (i = 1; i <= ec_slavecount; i++)]. *)
Definition slave_numbers {Net : Type} (w : World Net) : list Z :=
  zseq 1 (Z.to_nat (ec_slavecount w)).

(** The labels of the [switch] in [_slaveStateNum2Str]. *)
Definition listed_states : list Z :=
  [EC_STATE_BOOT; EC_STATE_INIT; EC_STATE_PRE_OP; EC_STATE_SAFE_OP;
   EC_STATE_OPERATIONAL; EC_STATE_NONE; EC_STATE_ERROR].

(** The lifecycle states a slave can be in, on which the error flag can be
    set. *)
Definition lifecycle_states : list Z :=
  [EC_STATE_INIT; EC_STATE_PRE_OP; EC_STATE_BOOT; EC_STATE_SAFE_OP;
   EC_STATE_OPERATIONAL].

(** The row [showStates] prints for slave [i] of the tables [b], with the
    state rendered as [txt]. *)
Definition showStates_row {Net : Type} (drv : Driver Net) (b : Bus Net) (i : Z)
  (txt : string) : event :=
  ev_printf "Slave %2d, State=%8s, StatusCode=0x%4.4x : %s\n"
    [PInt i; PStr txt; PInt (ALstatuscode (ec_slave b i));
     PStr (ec_ALstatuscode2string drv (ALstatuscode (ec_slave b i)))].

(** The row [listSlaves] prints for slave [i]. *)
Definition listSlaves_row {Net : Type} (b : Bus Net) (i : Z) (txt : string) : event :=
  ev_printf "\nSlave:%2d Name:%s\t RXsize: %3dbytes, TXsize: %3dbytes\t State: %8s\t Delay: %8d[ns]\t Has DC: %1d\n"
    [PInt i; PStr (name (ec_slave b i)); PInt (Z.quot (Obits (ec_slave b i)) 8);
     PInt (Z.quot (Ibits (ec_slave b i)) 8); PStr txt; PInt (pdelay (ec_slave b i));
     PInt (if hasdc (ec_slave b i) then 1 else 0)].

(** The line [setOperationalState] prints for slave [i] of the tables [b]. *)
Definition not_operational_row {Net : Type} (drv : Driver Net) (b : Bus Net) (i : Z)
  : event :=
  ev_printf "Slave %d AL status code: %s. Current state: %d\n"
    [PInt i; PStr (ec_ALstatuscode2string drv (ALstatuscode (ec_slave b i)));
     PInt (state (ec_slave b i))].

(** The slaves of the tables [w] that are not OPERATIONAL, in slave order. *)
Definition not_operational {Net : Type} (w : World Net) : list Z :=
  filter (fun i => negb (state (ec_slave (bus w) i) =? EC_STATE_OPERATIONAL))
         (slave_numbers w).

(** The calls [setInitState] and [setPreOperationalState] make for a target
    state: a state check and a state read, one exchange cycle, the broadcast
    state write (which sends [req], the state found in [ec_slave[0]]), then
    [k] polling rounds of one exchange cycle and one state check each. *)
Definition poll_round (target : Z) : list event :=
  [ev_send_processdata; ev_receive_processdata EC_TIMEOUTRET;
   ev_statecheck 0 target 50000].

Definition request_calls (target req : Z) (k : nat) : list event :=
  [ev_statecheck 0 target 50000; ev_readstate;
   ev_send_processdata; ev_receive_processdata EC_TIMEOUTRET;
   ev_writestate 0 req]
  ++ List.concat (repeat (poll_round target) k).

(** The tables at the moment [setInitState] and [setPreOperationalState]
    send the broadcast, started on the tables [b]: after the state check and
    the state read, the assignment of the target to the group record
    [ec_slave[0]], and one exchange cycle. *)
Definition tables_at_broadcast {Net : Type} (drv : Driver Net) (target : Z) (b : Bus Net)
  : Bus Net :=
  let b1 := snd (ec_statecheck drv 0 target 50000 b) in
  let b2 := snd (ec_readstate drv b1) in
  let b3 := set_slave_state b2 0 target in
  let b4 := snd (ec_send_processdata drv b3) in
  snd (ec_receive_processdata drv EC_TIMEOUTRET b4).

(** An exchange cycle that leaves the state of the group record as it
    is. *)
Definition exchange_keeps_group_state {Net : Type} (drv : Driver Net) : Prop :=
  forall b : Bus Net,
    state (ec_slave (snd (ec_receive_processdata drv EC_TIMEOUTRET
                            (snd (ec_send_processdata drv b)))) 0)
    = state (ec_slave b 0).

(** How many state checks a log holds. *)
Definition count_statechecks (l : list event) : nat :=
  List.length (filter (fun e => match e with ev_statecheck _ _ _ => true | _ => false end) l).

(** The [printf] calls of a log. *)
Definition printed (l : list event) : list event :=
  filter (fun e => match e with ev_printf _ _ => true | _ => false end) l.

(** The repair ladder in the words of the specification: four rules in
    priority order, of which the first whose condition holds is applied. *)
Inductive ladder_rule : Type :=
| rule_ack           (* a. SAFE_OP + ERROR: request ACK *)
| rule_promote       (* b. SAFE_OP: request OPERATIONAL *)
| rule_reconfigure   (* c. above NONE: reconfigure the slave *)
| rule_recheck       (* d. NONE and not flagged lost: re-check once *)
| rule_nothing.

Definition first_applicable (st : Z) (lost : bool) : ladder_rule :=
  if st =? EC_STATE_SAFE_OP + EC_STATE_ERROR then rule_ack
  else if st =? EC_STATE_SAFE_OP then rule_promote
  else if st >? EC_STATE_NONE then rule_reconfigure
  else if (st =? EC_STATE_NONE) && negb lost then rule_recheck
  else rule_nothing.

Definition apply_rule {Net : Type} (drv : Driver Net) (r : ladder_rule) (sl : Z)
  : M (Session.St Net) unit :=
  match r with
  | rule_ack =>
      Session.printf "ERROR : slave %d is in SAFE_OP + ERROR, attempting ack.\n" [PInt sl] ;;;
      Session.set_bus (fun b => set_slave_state b sl (EC_STATE_SAFE_OP + EC_STATE_ACK)) ;;;
      Session.do_writestate drv sl ;;; ret tt
  | rule_promote =>
      Session.printf "WARNING : slave %d is in SAFE_OP, change to OPERATIONAL.\n" [PInt sl] ;;;
      Session.set_bus (fun b => set_slave_state b sl EC_STATE_OPERATIONAL) ;;;
      Session.do_writestate drv sl ;;; ret tt
  | rule_reconfigure =>
      ok <- Session.do_reconfig_slave drv sl Session.EC_TIMEOUTMON ;;
      if negb (ok =? 0) then
        Session.set_bus (fun b => set_slave_islost b sl false) ;;;
        Session.printf "MESSAGE : slave %d reconfigured\n" [PInt sl]
      else ret tt
  | rule_recheck =>
      Session.do_statecheck drv sl EC_STATE_OPERATIONAL EC_TIMEOUTRET ;;;
      s <- Session.slave sl ;;
      if state s =? EC_STATE_NONE then
        Session.set_bus (fun b => set_slave_islost b sl true) ;;;
        Session.printf "ERROR : slave %d lost\n" [PInt sl]
      else ret tt
  | rule_nothing => ret tt
  end.

(** What is offered to a slave flagged lost, in the words of the
    specification. *)
Inductive recovery : Type :=
| recover_device     (* still NONE: attempt device recovery *)
| clear_lost_flag    (* reports a real state: clear the flag, nothing else *)
| leave_alone.       (* not flagged lost *)

Definition recovery_for (st : Z) (lost : bool) : recovery :=
  if lost then (if st =? EC_STATE_NONE then recover_device else clear_lost_flag)
  else leave_alone.

Definition apply_recovery {Net : Type} (drv : Driver Net) (r : recovery) (sl : Z)
  : M (Session.St Net) unit :=
  match r with
  | recover_device =>
      ok <- Session.do_recover_slave drv sl Session.EC_TIMEOUTMON ;;
      if negb (ok =? 0) then
        Session.set_bus (fun b => set_slave_islost b sl false) ;;;
        Session.printf "MESSAGE : slave %d recovered\n" [PInt sl]
      else ret tt
  | clear_lost_flag =>
      Session.set_bus (fun b => set_slave_islost b sl false) ;;;
      Session.printf "MESSAGE : slave %d found\n" [PInt sl]
  | leave_alone => ret tt
  end.

(** A slave the ladder is for: in the current group and not OPERATIONAL. *)
Definition needs_repair {Net : Type} (s : Session.St Net) (sl : Z) : bool :=
  (group (ec_slave (bus (Session.soem s)) sl) =? Session._currentgroup (Session.self s))
  && negb (state (ec_slave (bus (Session.soem s)) sl) =? EC_STATE_OPERATIONAL).

(** The slaves of a list handled one after the other. *)
Definition visit {Net : Type} (drv : Driver Net) (l : list Z) (s : Session.St Net)
  : Session.St Net :=
  fold_left (fun st sl => snd (Session.check_slave drv sl st)) l s.

End Vocabulary.

(** ** Vocabulary for the mapping printers *)

Module MappingVocabulary.

Import SlaveInfo.

Local Open Scope error_scope.

(** The next [n] bytes of the descriptor memory from address [a] on, as
    consecutive [ec_siigetbyte(slave, a++)] calls return them. *)
Fixpoint sii_bytes {Net : Type} (mbx : Mailbox Net) (sl : Z) (n : nat) (a : Z)
  (b : Bus Net) : list Z * Bus Net :=
  match n with
  | O => ([], b)
  | S n' =>
      let (v, b1) := ec_siigetbyte mbx sl a b in
      let (vs, b2) := sii_bytes mbx sl n' (CInt.uint16 (a + 1)) b1 in
      (CInt.uint8 v :: vs, b2)
  end.

(** The calls that read them. *)
Fixpoint sii_reads (sl : Z) (n : nat) (a : Z) : list event :=
  match n with
  | O => []
  | S n' => ev_siigetbyte sl a :: sii_reads sl n' (CInt.uint16 (a + 1))
  end.

Section AsSpecified.

Context {Net : Type}.
Variable mbx : Mailbox Net.
Variable dtype2string : Z -> Z -> string.

(** The SM-type workaround in the words of the specification: once
    synchronization manager 2 has reported communication type 2, one is
    added to every communication type read, and the sum is what is classified
    as outputs (3) or inputs (4).  Nothing is said of a type that reads zero
    or of the width of the sum, so none is excepted and the sum is not
    reduced. *)
Definition map_sdo_round_as_specified (fuel : nat) (sl iSM : Z) (l : sm_locals)
  : E (Globals Net) sm_locals :=
  r <- do_SDOread mbx sl ECT_SDO_SMCOMMTYPE (CInt.uint8 (iSM + 1)) false 1 EC_TIMEOUTRXM ;;
  let wkc := fst r in
  let raw := CInt.uint8 (snd r) in
  if wkc >? 0 then
    l1 <- (if (iSM =? 2) && (raw =? 2) then
             printf "Activated SM type workaround, possible incorrect mapping.\n" [] ;;;
             eret (mk_sm_locals 1 (outputs_bo l) (inputs_bo l))
           else eret l) ;;
    map_by_type mbx dtype2string fuel sl iSM
      (if SMt_bug_add l1 =? 1 then raw + 1 else raw) l1
  else eret l.

Fixpoint map_sdo_rounds_as_specified (n : nat) (fuel : nat) (sl iSM : Z) (l : sm_locals)
  : E (Globals Net) sm_locals :=
  match n with
  | O => eret l
  | S n' =>
      l' <- map_sdo_round_as_specified fuel sl iSM l ;;
      map_sdo_rounds_as_specified n' fuel sl (iSM + 1) l'
  end.

Definition si_map_sdo_as_specified (fuel : nat) (sl : Z) : E (Globals Net) Z :=
  printf "PDO mapping according to CoE :\n" [] ;;;
  r <- do_SDOread mbx sl ECT_SDO_SMCOMMTYPE 0 false 1 EC_TIMEOUTRXM ;;
  let wkc := fst r in
  let nSM := CInt.uint8 (snd r) in
  l <- (if (wkc >? 0) && (nSM >? 2) then
          let nSM := CInt.uint8 (nSM - 1) in
          let nSM := if nSM >? EC_MAXSM then EC_MAXSM else nSM in
          map_sdo_rounds_as_specified (Z.to_nat (nSM - 1)) fuel sl 2 (mk_sm_locals 0 0 0)
        else eret (mk_sm_locals 0 0 0)) ;;
  if (outputs_bo l >? 0) || (inputs_bo l >? 0) then eret 1 else eret 0.

End AsSpecified.

(** The rows [si_PDOassign] prints for [n] filler entries of [L] bits each,
    the first of them at bit offset [bo]: for each entry its address line,
    closed at once, without a data type and a name. *)
Fixpoint filler_rows (mapoffset bo L : Z) (n : nat) : list event :=
  match n with
  | O => []
  | S n' =>
      ev_printf "  [0x%4.4X.%1d] 0x%4.4X:0x%2.2X 0x%2.2X"
        [PInt (CInt.int32 (mapoffset + Z.quot bo 8)); PInt (Z.rem bo 8);
         PInt 0; PInt 0; PInt L]
      :: ev_printf "\n" []
      :: filler_rows mapoffset (bo + L) L n'
  end.

(** The dictionary look-ups of a log. *)
Definition lookups (l : list event) : list event :=
  filter (fun e => match e with ev_readOEsingle _ _ => true | _ => false end) l.

(** A descriptor memory that reads the same whatever else went over the
    bus: byte [mem x] at address [x]. *)
Definition reads_memory {Net : Type} (mbx : Mailbox Net) (sl : Z) (mem : Z -> Z) : Prop :=
  forall (x : Z) (b : Bus Net), CInt.uint8 (fst (ec_siigetbyte mbx sl x b)) = mem x.

(** A PDO section of the memory [mem] at byte address [start] that holds one
    record, for sync manager [sm], of [e] entries that are all fillers of
    [L] bits: the section length [len] (in words) ends with that record, the
    record head gives [e] and [sm], and each entry of 8 bytes has object index
    and sub-index zero and bit length [L]. *)
Definition filler_section (mem : Z -> Z) (start len e sm L : Z) : Prop :=
  CInt.uint16 (mem start + Z.shiftl (mem (start + 1)) 8) = len /\
  len <= 5 + 4 * e /\
  mem (start + 4) = e /\
  mem (start + 5) = sm /\
  forall k : Z, 0 <= k < e ->
    mem (start + 10 + 8 * k) = 0 /\
    mem (start + 10 + 8 * k + 1) = 0 /\
    mem (start + 10 + 8 * k + 2) = 0 /\
    mem (start + 10 + 8 * k + 5) = L.

End MappingVocabulary.

(** ** More vocabulary for the session class *)

Module SessionVocabulary.

Import Session Vocabulary.

(** The slaves of the tables [w] that are not in state [st], in slave
    order. *)
Definition not_in_state {Net : Type} (st : Z) (w : World Net) : list Z :=
  filter (fun i => negb (state (ec_slave (bus w) i) =? st)) (slave_numbers w).

(** The message [setSafeOperationalState] builds for slave [i] of the
    tables [b]. *)
Definition safe_op_message {Net : Type} (drv : Driver Net)
  (sprintf : string -> list parg -> string) (b : Bus Net) (i : Z) : string :=
  sprintf
    "Slave %d failed to reach SAFE_OP. State: %2x, StatusCode: %4x : %s\nCheck slave configuration at pre_operational mode.\n"%string
    [PInt i; PInt (state (ec_slave b i)); PInt (ALstatuscode (ec_slave b i));
     PStr (ec_ALstatuscode2string drv (ALstatuscode (ec_slave b i)))].

(** The tables after [ec_slave[i].state = st] for every slave number in
    [l]. *)
Definition with_states {Net : Type} (st : Z) (l : list Z) (b : Bus Net) : Bus Net :=
  fold_left (fun b i => set_slave_state b i st) l b.

(** The repair ladder in terms of the bus: the tables it leaves and the
    calls and lines it adds for slave [sl] of the tables [b], by the first
    applicable rule.
    a. SAFE_OP + ERROR: the ACK state is written to the slave;
    b. SAFE_OP: OPERATIONAL is written to the slave;
    c. above NONE: the slave is reconfigured, and on success its lost flag
       is cleared;
    d. NONE and not flagged lost: one short state check, and the slave is
       flagged lost if it still reads NONE. *)
Definition ladder_outcome {Net : Type} (drv : Driver Net) (sl : Z) (b : Bus Net)
  : Bus Net * list event :=
  match first_applicable (state (ec_slave b sl)) (islost (ec_slave b sl)) with
  | rule_ack =>
      (snd (ec_writestate drv sl (set_slave_state b sl (EC_STATE_SAFE_OP + EC_STATE_ACK))),
       [ev_printf "ERROR : slave %d is in SAFE_OP + ERROR, attempting ack.\n" [PInt sl];
        ev_writestate sl (EC_STATE_SAFE_OP + EC_STATE_ACK)])
  | rule_promote =>
      (snd (ec_writestate drv sl (set_slave_state b sl EC_STATE_OPERATIONAL)),
       [ev_printf "WARNING : slave %d is in SAFE_OP, change to OPERATIONAL.\n" [PInt sl];
        ev_writestate sl EC_STATE_OPERATIONAL])
  | rule_reconfigure =>
      let r := ec_reconfig_slave drv sl EC_TIMEOUTMON b in
      if fst r =? 0
      then (snd r, [ev_reconfig_slave sl EC_TIMEOUTMON])
      else (set_slave_islost (snd r) sl false,
            [ev_reconfig_slave sl EC_TIMEOUTMON;
             ev_printf "MESSAGE : slave %d reconfigured\n" [PInt sl]])
  | rule_recheck =>
      let b1 := snd (ec_statecheck drv sl EC_STATE_OPERATIONAL EC_TIMEOUTRET b) in
      if state (ec_slave b1 sl) =? EC_STATE_NONE
      then (set_slave_islost b1 sl true,
            [ev_statecheck sl EC_STATE_OPERATIONAL EC_TIMEOUTRET;
             ev_printf "ERROR : slave %d lost\n" [PInt sl]])
      else (b1, [ev_statecheck sl EC_STATE_OPERATIONAL EC_TIMEOUTRET])
  | rule_nothing => (b, [])
  end.

(** What is offered to a slave flagged lost, in terms of the bus: device
    recovery while it still reads NONE, its flag cleared on success; the flag
    cleared without any call once it reports another state. *)
Definition recovery_outcome {Net : Type} (drv : Driver Net) (sl : Z) (b : Bus Net)
  : Bus Net * list event :=
  match recovery_for (state (ec_slave b sl)) (islost (ec_slave b sl)) with
  | recover_device =>
      let r := ec_recover_slave drv sl EC_TIMEOUTMON b in
      if fst r =? 0
      then (snd r, [ev_recover_slave sl EC_TIMEOUTMON])
      else (set_slave_islost (snd r) sl false,
            [ev_recover_slave sl EC_TIMEOUTMON;
             ev_printf "MESSAGE : slave %d recovered\n" [PInt sl]])
  | clear_lost_flag =>
      (set_slave_islost b sl false, [ev_printf "MESSAGE : slave %d found\n" [PInt sl]])
  | leave_alone => (b, [])
  end.

End SessionVocabulary.

(** ** More buses to run the code on *)

Module MoreBench.

(** A bus on which a state check leaves the requested state in the record it
    was asked about, and nothing else ever changes. *)
Definition obedient : Driver unit :=
  mk_driver
    (fun _ w => (ec_slavecount w, w))
    (fun sl req _ b => (req, set_slave_state b sl req))
    (fun b => (0, b))
    (fun _ b => (1, b))
    (fun b => (1, b))
    (fun _ b => (3, b))
    (fun _ _ b => (0, b))
    (fun _ _ b => (0, b))
    (fun _ => "No error"%string).

End MoreBench.


(** ** The rest of the slave information tool's mapping printers *)

Module SlaveInfoMore.

Import ErrorMonad SlaveInfo.

Local Open Scope error_scope.

Definition ATYPE_Rpre : Z := 1.    (* 0x01 *)
Definition ATYPE_Rsafe : Z := 2.   (* 0x02 *)
Definition ATYPE_Rop : Z := 4.     (* 0x04 *)
Definition ATYPE_Wpre : Z := 8.    (* 0x08 *)
Definition ATYPE_Wsafe : Z := 16.  (* 0x10 *)
Definition ATYPE_Wop : Z := 32.    (* 0x20 *)

(** char* access2string(uint16 access): the six [%s] of the format, in the
    order of the source. *)
Definition access2string (access : Z) : string :=
  let sel (mask : Z) (letter : string) : string :=
    if negb (Z.land access mask =? 0) then letter else "_"%string in
  (sel ATYPE_Rpre "R" ++ sel ATYPE_Wpre "W" ++
   sel ATYPE_Rsafe "R" ++ sel ATYPE_Wsafe "W" ++
   sel ATYPE_Rop "R" ++ sel ATYPE_Wop "W")%string.

Section Printers.

Context {Net : Type}.
Variable mbx : Mailbox Net.
Variable dtype2string : Z -> Z -> string.

(** int si_map_sii(int slave).  Both passes are entered with a bit offset of
    zero; the offsets [ec_slave[slave].outputs - IOmap] and
    [ec_slave[slave].inputs - IOmap] are read when the call is made. *)
Definition si_map_sii (fuel : nat) (sl : Z) : E (Globals Net) Z :=
  printf "PDO mapping according to SII :\n" [] ;;;
  let outputs_bo := 0 in
  let inputs_bo := 0 in
  o <- egets (fun g => outputs (ec_slave (soem g) sl)) ;;
  Tsize <- si_siiPDO mbx dtype2string fuel sl 1 (CInt.int32 o) outputs_bo ;;
  let outputs_bo := CInt.int32 (outputs_bo + Tsize) in
  i <- egets (fun g => inputs (ec_slave (soem g) sl)) ;;
  Tsize <- si_siiPDO mbx dtype2string fuel sl 0 (CInt.int32 i) inputs_bo ;;
  let inputs_bo := CInt.int32 (inputs_bo + Tsize) in
  if (outputs_bo >? 0) || (inputs_bo >? 0) then eret 1 else eret 0.

End Printers.

End SlaveInfoMore.

(** ** More vocabulary for the mapping printers *)

Module MappingMoreVocabulary.

(** A CoE mapping word as a slave stores it: object index in the upper half,
    then the sub-index, then the length in bits; read into an [int32]. *)
Definition mapping_word (idx sub len : Z) : Z :=
  CInt.int32 (idx * 65536 + sub * 256 + len).

(** The most bits one walk of the descriptor memory can add up: at most
    [EC_MAXEEPDO - 1] records of at most 255 entries of at most 255 bits. *)
Definition sii_size_cap : Z := (EC_MAXEEPDO - 1) * (255 * 255).

End MappingMoreVocabulary.

(** ** More slaves to run the printers on *)

Module MoreBenchTool.

(** A slave without a mailbox and without PDO sections in its descriptor
    memory: every read fails and no section is found. *)
Definition bare : Mailbox unit :=
  mk_mailbox
    (fun _ _ _ _ _ _ b => ((0, 0), b))
    (fun _ _ _ oe b => ((0, oe), b))
    (fun _ _ b => (0, b))
    (fun _ _ b => (255, b))
    (fun _ _ b => (EmptyString, b))
    (fun _ b => (1, b)).

(** A slave whose PDO-assign object claims [n] PDOs, none of which is
    assigned (every other read yields zero). *)
Definition claims (n : Z) : Mailbox unit :=
  mk_mailbox
    (fun _ _ sub _ _ _ b => ((1, if sub =? 0 then n else 0), b))
    (fun _ _ _ oe b => ((0, oe), b))
    (fun _ _ b => (0, b))
    (fun _ _ b => (255, b))
    (fun _ _ b => (EmptyString, b))
    (fun _ b => (1, b)).

(** The tool started on slaves whose descriptor memory is in the hands of
    the PDI ([eep_pdi] set). *)
Definition pdi_start : SlaveInfo.Globals unit :=
  SlaveInfo.mk_globals
    (mk_bus (fun _ => mk_slave EC_STATE_PRE_OP 0 0 false false "EL2004" 4 0 0 1 0 0)
            (fun _ => mk_group false 1 1) tt)
    (mk_ODlist 0 (fun _ => 0)) (mk_OElist 0 (fun _ => 0) (fun _ => EmptyString)) [].

End MoreBenchTool.

(** ** Proof steps shared by the facts about the descriptor-memory printer *)

Module MappingTactics.

Import SlaveInfo.

(** Reduce the projections of the locals and of the globals. *)
Ltac sii_fields :=
  cbn [a c PDO bitoffset totalsize soem out ODlist OElist
       Startpos Length nPDO Index SyncM BitSize SMbitsize
       with_PDO_nPDO with_PDO_Index with_PDO_SyncM with_PDO_BitSize
       with_PDO_SMbitsize].

Ltac sii_fields_in H :=
  cbn [a c PDO bitoffset totalsize soem out ODlist OElist
       Startpos Length nPDO Index SyncM BitSize SMbitsize
       with_PDO_nPDO with_PDO_Index with_PDO_SyncM with_PDO_BitSize
       with_PDO_SMbitsize] in H.

Ltac sii_read_bytes :=
  repeat (match goal with
          | |- context [ec_siigetbyte ?m ?s ?x ?b] =>
              destruct (ec_siigetbyte m s x b) as [? ?]
          end;
          sii_fields).

(** Read the next bytes of a memory that [Hmem] describes. *)
Ltac sii_read_mem Hmem :=
  repeat (match goal with
          | |- context [ec_siigetbyte ?m ?s ?x ?b] =>
              let H := fresh "Hb" in
              pose proof (Hmem x b) as H;
              destruct (ec_siigetbyte m s x b) as [? ?];
              cbn [fst] in H; sii_fields; rewrite ?H; clear H
          end).

End MappingTactics.
(** * Properties of the session class *)

Module SessionFacts.

Import Session Vocabulary.

Lemma zseq_In : forall n i k, In k (zseq i n) <-> i <= k < i + Z.of_nat n.
Proof.
  induction n as [|n IH]; intros i k; cbn [zseq In].
  - lia.
  - rewrite IH. lia.
Qed.

Lemma slave_numbers_In :
  forall Net (w : World Net) k, In k (slave_numbers w) <-> 1 <= k <= ec_slavecount w.
Proof.
  intros Net w k. unfold slave_numbers. rewrite zseq_In. lia.
Qed.

Section Facts.

Variable Net : Type.
Variable drv : Driver Net.
Variable sprintf : string -> list parg -> string.

(** A loop whose body only appends one event per round, computed from SOEM's
    tables, appends the events of the indices it visits and changes nothing
    else. *)
Lemma for_upto_rows :
  forall (R : Type) (body : Z -> M (St Net) (option R)) (row : World Net -> Z -> event),
    (forall i s, body i s = (None, mk_st (self s) (soem s) (out s ++ [row (soem s) i]))) ->
    forall n i s,
      for_upto n i body s
      = (None, mk_st (self s) (soem s) (out s ++ map (row (soem s)) (zseq i n))).
Proof.
  intros R body row Hbody n.
  induction n as [|n IH]; intros i s; cbn [for_upto zseq map].
  - unfold ret. rewrite app_nil_r. destruct s; reflexivity.
  - unfold bind at 1. rewrite Hbody. rewrite IH. cbn [self soem out].
    rewrite <- app_assoc. reflexivity.
Qed.

(** A loop whose body keeps a property of the machine keeps it. *)
Lemma for_upto_keeps :
  forall (R : Type) (body : Z -> M (St Net) (option R)) (P : St Net -> Prop),
    (forall i s, P s -> P (snd (body i s))) ->
    forall n i s, P s -> P (snd (for_upto n i body s)).
Proof.
  intros R body P Hbody n.
  induction n as [|n IH]; intros i s Hs; cbn [for_upto].
  - exact Hs.
  - unfold bind at 1. specialize (Hbody i s Hs).
    destruct (body i s) as [[v|] s']; cbn [snd] in *.
    + exact Hbody.
    + apply IH. exact Hbody.
Qed.

(** C1.  One exchange cycle of [updateProccess] is one send followed by one
    receive with the timeout [EC_TIMEOUTRET]; the call answers [false]
    exactly when the work counter the receive returned is strictly below the
    stored expected work counter, and [true] otherwise, so that a work
    counter equal to the expected one is a success.  The object itself is
    left as it was. *)
Theorem updateProccess_send_receive_verdict :
  forall s : St Net,
    let b1 := snd (ec_send_processdata drv (bus (soem s))) in
    let wkc := fst (ec_receive_processdata drv EC_TIMEOUTRET b1) in
    let r := updateProccess drv s in
    out (snd r) = out s ++ [ev_send_processdata; ev_receive_processdata EC_TIMEOUTRET] /\
    fst r = negb (wkc <? _expectedWKC (self s)) /\
    (fst r = false <-> wkc < _expectedWKC (self s)) /\
    (fst r = true <-> _expectedWKC (self s) <= wkc) /\
    self (snd r) = self s.
Proof.
  intros s b1 wkc r. subst r b1 wkc.
  unfold updateProccess, do_send_processdata, do_receive_processdata, call,
    this, bind, gets, ret.
  destruct (ec_send_processdata drv (bus (soem s))) as [r1 b1]. cbn.
  destruct (ec_receive_processdata drv EC_TIMEOUTRET b1) as [w b2]. cbn.
  rewrite <- app_assoc. cbn.
  destruct (Z.ltb_spec w (_expectedWKC (self s))); cbn;
    repeat split; auto; try lia; try discriminate.
Qed.

Lemma slaveStateNum2Str_unlisted :
  forall v, ~ In v listed_states -> _slaveStateNum2Str v = "NONE"%string.
Proof.
  intros v Hv. unfold listed_states in Hv. cbn [In] in Hv.
  unfold _slaveStateNum2Str.
  repeat match goal with
         | |- context [?x =? ?y] =>
             destruct (Z.eqb_spec x y); [exfalso; apply Hv; subst; tauto|]
         end.
  reflexivity.
Qed.

Lemma showStates_log :
  forall s : St Net,
    let b := snd (ec_readstate drv (bus (soem s))) in
    snd (showStates drv s)
    = mk_st (self s) (mk_world (ec_slavecount (soem s)) b)
        (out s ++ ev_readstate ::
           map (fun i => showStates_row drv b i (_slaveStateNum2Str (state (ec_slave b i))))
               (slave_numbers (soem s))).
Proof.
  intros s b. subst b.
  unfold showStates, _readStates, do_readstate, call, for_slaves, slavecount, gets.
  unfold bind at 1 2 3. destruct (ec_readstate drv (bus (soem s))) as [r b]. cbn [snd].
  unfold ret at 1. unfold bind at 1. unfold bind at 1. cbn [soem ec_slavecount].
  rewrite (for_upto_rows unit _
    (fun w i => showStates_row drv (bus w) i (_slaveStateNum2Str (state (ec_slave (bus w) i))))).
  - cbn. rewrite <- app_assoc. reflexivity.
  - intros i s'. reflexivity.
Qed.

Lemma listSlaves_log :
  forall s : St Net,
    let b := snd (ec_readstate drv (bus (soem s))) in
    snd (listSlaves drv s)
    = mk_st (self s) (mk_world (ec_slavecount (soem s)) b)
        (out s ++ ev_readstate ::
           map (fun i => listSlaves_row b i (_slaveStateNum2Str (state (ec_slave b i))))
               (slave_numbers (soem s))).
Proof.
  intros s b. subst b.
  unfold listSlaves, _readStates, do_readstate, call, for_slaves, slavecount, gets.
  unfold bind at 1 2 3. destruct (ec_readstate drv (bus (soem s))) as [r b]. cbn [snd].
  unfold ret at 1. unfold bind at 1. unfold bind at 1. cbn [soem ec_slavecount].
  rewrite (for_upto_rows unit _
    (fun w i => listSlaves_row (bus w) i (_slaveStateNum2Str (state (ec_slave (bus w) i))))).
  - cbn. rewrite <- app_assoc. reflexivity.
  - intros i s'. reflexivity.
Qed.

(** The polling loop runs its body at least once and at most [chk + 1]
    times; a body that makes fixed calls and leaves the object alone gives a
    log of that many rounds. *)
Lemma poll_until_calls :
  forall (body : M (St Net) unit) (evs : list event),
    (forall s, out (snd (body s)) = out s ++ evs /\ self (snd (body s)) = self s) ->
    forall (target : Z) (chk : nat) (s : St Net),
      exists (k : nat) (s' : St Net),
        (1 <= k <= S chk)%nat /\
        poll_until body target chk s = (tt, s') /\
        out s' = out s ++ List.concat (repeat evs k) /\
        self s' = self s.
Proof.
  intros body evs Hbody target chk.
  induction chk as [|chk IH]; intros s; cbn [poll_until]; unfold bind at 1;
    destruct (Hbody s) as [Ho Hs]; destruct (body s) as [u s1]; cbn [snd] in Ho, Hs.
  - exists 1%nat, s1. unfold ret. cbn [repeat List.concat].
    rewrite app_nil_r. repeat split; auto.
  - unfold bind, slave, gets.
    destruct (negb (state (ec_slave (bus (soem s1)) 0) =? target)).
    + destruct (IH s1) as [k [s' [Hk [Heq [Hok Hsk]]]]].
      exists (S k), s'. split; [lia|]. split; [exact Heq|].
      rewrite Hok, Hsk, Ho, Hs.
      cbn [repeat List.concat]. rewrite app_assoc. auto.
    + exists 1%nat, s1. unfold ret. cbn [repeat List.concat].
      rewrite app_nil_r. split; [lia|]. auto.
Qed.

Lemma exchange_then_statecheck_calls :
  forall (target : Z) (s : St Net),
    let body := (do_send_processdata drv ;;;
                 do_receive_processdata drv EC_TIMEOUTRET ;;;
                 do_statecheck drv 0 target 50000 ;;; ret tt)%monad in
    out (snd (body s)) = out s ++ poll_round target /\ self (snd (body s)) = self s.
Proof.
  intros target s body. subst body.
  unfold do_send_processdata, do_receive_processdata, do_statecheck, call, bind, ret.
  destruct (ec_send_processdata drv (bus (soem s))) as [x1 b1]. cbn [soem bus self out].
  destruct (ec_receive_processdata drv EC_TIMEOUTRET b1) as [x2 b2]. cbn [soem bus self out].
  destruct (ec_statecheck drv 0 target 50000 b2) as [x3 b3]. cbn [snd soem bus self out].
  unfold poll_round. rewrite <- !app_assoc. cbn [app]. auto.
Qed.

(** What a request for PRE_OP does, whatever the slaves answer. *)
Lemma setPreOperationalState_run :
  forall s : St Net,
    exists (k : nat) (req : Z) (s' : St Net),
      (1 <= k <= 201)%nat /\
      setPreOperationalState drv s = (true, s') /\
      out s' = out s ++ request_calls EC_STATE_PRE_OP req k /\
      self s' = with_session_state (self s) EC_STATE_PRE_OP.
Proof.
  intros s. unfold setPreOperationalState.
  unfold bind at 1. unfold do_statecheck at 1, call.
  destruct (ec_statecheck drv 0 EC_STATE_PRE_OP 50000 (bus (soem s))) as [x1 b1].
  unfold bind at 1. unfold do_readstate, call. cbn [soem bus self out].
  destruct (ec_readstate drv b1) as [x2 b2].
  unfold bind at 1. unfold set_bus, modify. cbn [soem bus self out ec_slavecount].
  unfold bind at 1. unfold do_send_processdata at 1, call. cbn [soem bus self out].
  destruct (ec_send_processdata drv _) as [x3 b3].
  unfold bind at 1. unfold do_receive_processdata at 1, call. cbn [soem bus self out].
  destruct (ec_receive_processdata drv EC_TIMEOUTRET b3) as [x4 b4].
  unfold bind at 1. unfold do_writestate, call, slave, gets. unfold bind at 1.
  cbn [soem bus self out].
  destruct (ec_writestate drv 0 b4) as [x5 b5].
  unfold bind at 1.
  match goal with
  | |- context [poll_until ?body ?t ?c ?st] =>
      destruct (poll_until_calls body (poll_round EC_STATE_PRE_OP)
                  (exchange_then_statecheck_calls EC_STATE_PRE_OP) t c st)
        as [k [s6 [Hk [Heq [Ho Hs]]]]];
      rewrite Heq
  end.
  cbn [snd out self] in Ho, Hs.
  exists k, (state (ec_slave b4 0)). eexists.
  split; [exact Hk|]. unfold bind, set_self, modify, ret.
  split; [reflexivity|]. cbn [out self]. rewrite Ho, Hs. split; [|reflexivity].
  unfold request_calls. rewrite <- !app_assoc. reflexivity.
Qed.

(** What a request for INIT does, whatever the slaves answer. *)
Lemma setInitState_run :
  forall s : St Net,
    exists (k : nat) (req : Z) (s' : St Net),
      (1 <= k <= 201)%nat /\
      setInitState drv s = (tt, s') /\
      out s' = out s ++ request_calls EC_STATE_INIT req k /\
      self s' = with_session_state (self s) EC_STATE_INIT.
Proof.
  intros s. unfold setInitState.
  unfold bind at 1. unfold do_statecheck at 1, call.
  destruct (ec_statecheck drv 0 EC_STATE_INIT 50000 (bus (soem s))) as [x1 b1].
  unfold bind at 1. unfold do_readstate, call. cbn [soem bus self out].
  destruct (ec_readstate drv b1) as [x2 b2].
  unfold bind at 1. unfold set_bus, modify. cbn [soem bus self out ec_slavecount].
  unfold bind at 1. unfold do_send_processdata at 1, call. cbn [soem bus self out].
  destruct (ec_send_processdata drv _) as [x3 b3].
  unfold bind at 1. unfold do_receive_processdata at 1, call. cbn [soem bus self out].
  destruct (ec_receive_processdata drv EC_TIMEOUTRET b3) as [x4 b4].
  unfold bind at 1. unfold do_writestate, call, slave, gets. unfold bind at 1.
  cbn [soem bus self out].
  destruct (ec_writestate drv 0 b4) as [x5 b5].
  unfold bind at 1.
  match goal with
  | |- context [poll_until ?body ?t ?c ?st] =>
      destruct (poll_until_calls body (poll_round EC_STATE_INIT)
                  (exchange_then_statecheck_calls EC_STATE_INIT) t c st)
        as [k [s6 [Hk [Heq [Ho Hs]]]]];
      rewrite Heq
  end.
  cbn [snd out self] in Ho, Hs.
  exists k, (state (ec_slave b4 0)). eexists.
  split; [exact Hk|]. unfold set_self, modify.
  split; [reflexivity|]. cbn [out self]. rewrite Ho, Hs. split; [|reflexivity].
  unfold request_calls. rewrite <- !app_assoc. reflexivity.
Qed.

(** The same runs with what the broadcast carries spelled out: the state
    of the group record in the tables at the broadcast. *)
Lemma setPreOperationalState_calls :
  forall s : St Net,
    exists (k : nat) (s' : St Net),
      (1 <= k <= 201)%nat /\
      setPreOperationalState drv s = (true, s') /\
      out s'
      = out s ++ request_calls EC_STATE_PRE_OP
                   (state (ec_slave (tables_at_broadcast drv EC_STATE_PRE_OP (bus (soem s))) 0))
                   k /\
      self s' = with_session_state (self s) EC_STATE_PRE_OP.
Proof.
  intros s. unfold setPreOperationalState, tables_at_broadcast.
  unfold bind at 1. unfold do_statecheck at 1, call.
  destruct (ec_statecheck drv 0 EC_STATE_PRE_OP 50000 (bus (soem s))) as [x1 b1].
  unfold bind at 1. unfold do_readstate, call. cbn [snd soem bus self out].
  destruct (ec_readstate drv b1) as [x2 b2].
  unfold bind at 1. unfold set_bus, modify. cbn [snd soem bus self out ec_slavecount].
  unfold bind at 1. unfold do_send_processdata at 1, call. cbn [snd soem bus self out].
  destruct (ec_send_processdata drv _) as [x3 b3].
  unfold bind at 1. unfold do_receive_processdata at 1, call. cbn [snd soem bus self out].
  destruct (ec_receive_processdata drv EC_TIMEOUTRET b3) as [x4 b4].
  unfold bind at 1. unfold do_writestate, call, slave, gets. unfold bind at 1.
  cbn [snd soem bus self out].
  destruct (ec_writestate drv 0 b4) as [x5 b5].
  unfold bind at 1.
  match goal with
  | |- context [poll_until ?body ?t ?c ?st] =>
      destruct (poll_until_calls body (poll_round EC_STATE_PRE_OP)
                  (exchange_then_statecheck_calls EC_STATE_PRE_OP) t c st)
        as [k [s6 [Hk [Heq [Ho Hs]]]]];
      rewrite Heq
  end.
  cbn [snd out self] in Ho, Hs.
  exists k. eexists.
  split; [exact Hk|]. unfold bind, set_self, modify, ret.
  split; [reflexivity|]. cbn [out self]. rewrite Ho, Hs. split; [|reflexivity].
  unfold request_calls. rewrite <- !app_assoc. reflexivity.
Qed.

Lemma setInitState_calls :
  forall s : St Net,
    exists (k : nat) (s' : St Net),
      (1 <= k <= 201)%nat /\
      setInitState drv s = (tt, s') /\
      out s'
      = out s ++ request_calls EC_STATE_INIT
                   (state (ec_slave (tables_at_broadcast drv EC_STATE_INIT (bus (soem s))) 0))
                   k /\
      self s' = with_session_state (self s) EC_STATE_INIT.
Proof.
  intros s. unfold setInitState, tables_at_broadcast.
  unfold bind at 1. unfold do_statecheck at 1, call.
  destruct (ec_statecheck drv 0 EC_STATE_INIT 50000 (bus (soem s))) as [x1 b1].
  unfold bind at 1. unfold do_readstate, call. cbn [snd soem bus self out].
  destruct (ec_readstate drv b1) as [x2 b2].
  unfold bind at 1. unfold set_bus, modify. cbn [snd soem bus self out ec_slavecount].
  unfold bind at 1. unfold do_send_processdata at 1, call. cbn [snd soem bus self out].
  destruct (ec_send_processdata drv _) as [x3 b3].
  unfold bind at 1. unfold do_receive_processdata at 1, call. cbn [snd soem bus self out].
  destruct (ec_receive_processdata drv EC_TIMEOUTRET b3) as [x4 b4].
  unfold bind at 1. unfold do_writestate, call, slave, gets. unfold bind at 1.
  cbn [snd soem bus self out].
  destruct (ec_writestate drv 0 b4) as [x5 b5].
  unfold bind at 1.
  match goal with
  | |- context [poll_until ?body ?t ?c ?st] =>
      destruct (poll_until_calls body (poll_round EC_STATE_INIT)
                  (exchange_then_statecheck_calls EC_STATE_INIT) t c st)
        as [k [s6 [Hk [Heq [Ho Hs]]]]];
      rewrite Heq
  end.
  cbn [snd out self] in Ho, Hs.
  exists k. eexists.
  split; [exact Hk|]. unfold set_self, modify.
  split; [reflexivity|]. cbn [out self]. rewrite Ho, Hs. split; [|reflexivity].
  unfold request_calls. rewrite <- !app_assoc. reflexivity.
Qed.

(** When the exchange cycle leaves the state of the group record alone, the
    group record holds the target at the broadcast. *)
Lemma target_at_broadcast :
  forall (target : Z) (b : Bus Net),
    exchange_keeps_group_state drv ->
    state (ec_slave (tables_at_broadcast drv target b) 0) = target.
Proof.
  intros target b Hkeep. unfold tables_at_broadcast. rewrite Hkeep.
  reflexivity.
Qed.

(** C8 (as amended).  A request for PRE_OP or for INIT makes the calls of
    the transition protocol and nothing after them: a state check and a
    state read, the assignment of the target to the group record
    [ec_slave[0]], one exchange cycle, the broadcast state write, then
    between 1 and 201 polling rounds of one exchange cycle and one state
    check each.  The broadcast carries the state of the group record in the
    tables the assignment and the exchange cycle produced, which is the
    target whenever the exchange cycle leaves that state alone.
    [setInitState] has no failure step: it answers nothing, leaves
    [errorMessage] as it was and records INIT as the session state, whatever
    the slaves answered. *)
Theorem init_and_preop_requests_poll_without_failure_step :
  forall s : St Net,
    (exists (k : nat) (b : bool) (s' : St Net),
       (1 <= k <= 201)%nat /\
       setPreOperationalState drv s = (b, s') /\
       out s'
       = out s ++ request_calls EC_STATE_PRE_OP
                    (state (ec_slave (tables_at_broadcast drv EC_STATE_PRE_OP
                                        (bus (soem s))) 0)) k /\
       (exchange_keeps_group_state drv ->
        out s' = out s ++ request_calls EC_STATE_PRE_OP EC_STATE_PRE_OP k)) /\
    (exists (k : nat) (s' : St Net),
       (1 <= k <= 201)%nat /\
       setInitState drv s = (tt, s') /\
       out s'
       = out s ++ request_calls EC_STATE_INIT
                    (state (ec_slave (tables_at_broadcast drv EC_STATE_INIT
                                        (bus (soem s))) 0)) k /\
       (exchange_keeps_group_state drv ->
        out s' = out s ++ request_calls EC_STATE_INIT EC_STATE_INIT k) /\
       errorMessage (self s') = errorMessage (self s) /\
       _state (self s') = EC_STATE_INIT).
Proof.
  intros s. split.
  - destruct (setPreOperationalState_calls s) as [k [s' [Hk [Heq [Ho Hs]]]]].
    exists k, true, s'. split; [exact Hk|]. split; [exact Heq|]. split; [exact Ho|].
    intros Hkeep. rewrite Ho, target_at_broadcast by exact Hkeep. reflexivity.
  - destruct (setInitState_calls s) as [k [s' [Hk [Heq [Ho Hs]]]]].
    exists k, s'. split; [exact Hk|]. split; [exact Heq|]. split; [exact Ho|].
    split.
    + intros Hkeep. rewrite Ho, target_at_broadcast by exact Hkeep. reflexivity.
    + rewrite Hs. split; reflexivity.
Qed.

(** The reporting loop of [setOperationalState] stops at the first slave
    that is not OPERATIONAL: it prints that slave's line, sets the message
    and leaves. *)
Lemma report_not_operational_loop :
  forall (n : nat) (i : Z) (s : St Net),
    for_upto n i (report_not_operational drv) s
    = match filter (fun k => negb (state (ec_slave (bus (soem s)) k) =? EC_STATE_OPERATIONAL))
                   (zseq i n) with
      | [] => (None, s)
      | k :: _ =>
          (Some false,
           mk_st (with_errorMessage (self s)
                    "Slaves state can not set to operational state.")
                 (soem s)
                 (out s ++ [not_operational_row drv (bus (soem s)) k]))
      end.
Proof.
  induction n as [|n IH]; intros i s; cbn [for_upto zseq filter].
  - reflexivity.
  - unfold bind at 1. unfold report_not_operational at 1.
    unfold bind at 1. unfold slave, gets.
    destruct (negb (state (ec_slave (bus (soem s)) i) =? EC_STATE_OPERATIONAL)).
    + unfold bind, printf, emit, set_self, modify, ret. cbn. reflexivity.
    + unfold ret at 1. apply IH.
Qed.

(** What [setOperationalState] answers and prints, from the tables as the
    last state read leaves them. *)
Lemma setOperationalState_report :
  forall s : St Net,
    let s9 := snd (request_operational drv s) in
    setOperationalState drv s
    = match not_operational (soem s9) with
      | [] => (true, mk_st (with_session_state (self s9) EC_STATE_OPERATIONAL)
                           (soem s9) (out s9))
      | k :: _ =>
          (false,
           mk_st (with_errorMessage (self s9)
                    "Slaves state can not set to operational state.")
                 (soem s9)
                 (out s9 ++ [not_operational_row drv (bus (soem s9)) k]))
      end.
Proof.
  intros s s9. subst s9. unfold setOperationalState.
  unfold bind at 1. destruct (request_operational drv s) as [u s9]. cbn [snd].
  unfold bind at 1. unfold for_slaves, slavecount, gets. unfold bind at 1.
  rewrite report_not_operational_loop. unfold not_operational, slave_numbers.
  destruct (filter _ _) as [|k l]; reflexivity.
Qed.

Lemma sweep_due_iff :
  forall s : St Net,
    sweep_due s = true <->
    _state (self s) = EC_STATE_OPERATIONAL /\
    (_wkc (self s) < _expectedWKC (self s) \/
     docheckstate (ec_group (bus (soem s)) (_currentgroup (self s))) = true).
Proof.
  intros s. unfold sweep_due.
  rewrite andb_true_iff, orb_true_iff, Z.eqb_eq, Z.ltb_lt. reflexivity.
Qed.

Lemma repair_ladder_first_applicable :
  forall (s : St Net) (sl : Z),
    0 <= state (ec_slave (bus (soem s)) sl) ->
    repair_ladder drv sl s
    = apply_rule drv (first_applicable (state (ec_slave (bus (soem s)) sl))
                                       (islost (ec_slave (bus (soem s)) sl))) sl s.
Proof.
  intros s sl Hst. unfold repair_ladder, first_applicable.
  unfold bind at 1. unfold slave at 1, gets at 1.
  destruct (state (ec_slave (bus (soem s)) sl) =? EC_STATE_SAFE_OP + EC_STATE_ERROR);
    [reflexivity|].
  destruct (state (ec_slave (bus (soem s)) sl) =? EC_STATE_SAFE_OP); [reflexivity|].
  destruct (Z.gtb_spec (state (ec_slave (bus (soem s)) sl)) EC_STATE_NONE) as [Hgt|Hle];
    [reflexivity|].
  replace (state (ec_slave (bus (soem s)) sl) =? EC_STATE_NONE) with true
    by (symmetry; apply Z.eqb_eq; unfold EC_STATE_NONE in *; lia).
  cbn [andb]. destruct (negb (islost (ec_slave (bus (soem s)) sl))); reflexivity.
Qed.

Lemma offer_recovery_for :
  forall (s : St Net) (sl : Z),
    offer_recovery drv sl s
    = apply_recovery drv (recovery_for (state (ec_slave (bus (soem s)) sl))
                                       (islost (ec_slave (bus (soem s)) sl))) sl s.
Proof.
  intros s sl. unfold offer_recovery, recovery_for.
  unfold bind at 1. unfold slave at 1, gets at 1.
  destruct (islost (ec_slave (bus (soem s)) sl)); [|reflexivity].
  destruct (state (ec_slave (bus (soem s)) sl) =? EC_STATE_NONE); reflexivity.
Qed.

Lemma for_upto_visit :
  forall (n : nat) (i : Z) (s : St Net),
    for_upto (R := unit) n i (fun sl => check_slave drv sl ;;; ret None)%monad s
    = (None, visit drv (zseq i n) s).
Proof.
  induction n as [|n IH]; intros i s; cbn [for_upto zseq].
  - reflexivity.
  - unfold bind at 1. unfold bind at 1.
    unfold visit. cbn [fold_left].
    destruct (check_slave drv i s) as [u s1]. cbn [snd]. unfold ret at 1.
    apply IH.
Qed.

(** An exchange cycle leaves every data member of the session as it was:
    the work counter it receives is compared and dropped.  So whether the
    monitor sweeps after the exchange is settled by the member [_wkc] as it
    was before, not by the counter just received. *)
Lemma updateProccess_keeps_members :
  forall s : St Net,
    self (snd (updateProccess drv s)) = self s /\
    (sweep_due (snd (updateProccess drv s)) = true <->
     _state (self s) = EC_STATE_OPERATIONAL /\
     (_wkc (self s) < _expectedWKC (self s) \/
      docheckstate (ec_group (bus (soem (snd (updateProccess drv s))))
                             (_currentgroup (self s))) = true)).
Proof.
  intros s.
  assert (Hself : self (snd (updateProccess drv s)) = self s).
  { unfold updateProccess, do_send_processdata, do_receive_processdata, call, bind,
      this, gets, ret.
    destruct (ec_send_processdata drv (bus (soem s))) as [x1 b1]. cbn [soem bus self out].
    destruct (ec_receive_processdata drv EC_TIMEOUTRET b1) as [x2 b2].
    cbn [soem bus self out]. destruct (x2 <? _expectedWKC (self s)); reflexivity. }
  split; [exact Hself|].
  rewrite sweep_due_iff, Hself. reflexivity.
Qed.

(** C10.  A state value that is none of the labels of the switch in
    [_slaveStateNum2Str] is rendered as the text NONE, and so is the row that
    [showStates] and [listSlaves] print for a slave in such a state; every
    lifecycle state with the error flag set on it, SAFE_OP + ERROR among
    them, is such a value. *)
Theorem unlisted_state_is_listed_as_NONE :
  forall (s : St Net) (i v : Z),
    let b := snd (ec_readstate drv (bus (soem s))) in
    1 <= i <= ec_slavecount (soem s) ->
    state (ec_slave b i) = v ->
    ~ In v listed_states ->
    _slaveStateNum2Str v = "NONE"%string /\
    In (showStates_row drv b i "NONE") (out (snd (showStates drv s))) /\
    In (listSlaves_row b i "NONE") (out (snd (listSlaves drv s))) /\
    (forall base, In base lifecycle_states ->
       Z.lor base EC_STATE_ERROR = base + EC_STATE_ERROR /\
       _slaveStateNum2Str (base + EC_STATE_ERROR) = "NONE"%string) /\
    _slaveStateNum2Str (EC_STATE_SAFE_OP + EC_STATE_ERROR) = "NONE"%string.
Proof.
  intros s i v b Hi Hv Hun.
  pose proof (slaveStateNum2Str_unlisted v Hun) as Hnone.
  split; [exact Hnone|].
  split.
  { rewrite showStates_log. cbn [out]. apply in_or_app. right. right.
    apply in_map_iff. exists i. fold b. rewrite Hv, Hnone. split; [reflexivity|].
    apply slave_numbers_In. exact Hi. }
  split.
  { rewrite listSlaves_log. cbn [out]. apply in_or_app. right. right.
    apply in_map_iff. exists i. fold b. rewrite Hv, Hnone. split; [reflexivity|].
    apply slave_numbers_In. exact Hi. }
  split; [|reflexivity].
  intros base Hb. unfold lifecycle_states in Hb. cbn [In] in Hb.
  repeat (destruct Hb as [Hb|Hb]; [subst base; split; reflexivity|]).
  contradiction.
Qed.

(** C9.  When discovery finds no slave ([ec_config_init] does not answer a
    positive count), [configSlaves] answers [false], leaves its message in
    [errorMessage], and leaves [_slaveCount] and [_state] as they were. *)
Theorem configSlaves_no_slave_keeps_count_and_state :
  forall s : St Net,
    fst (ec_config_init drv false (soem s)) <= 0 ->
    let r := configSlaves drv s in
    fst r = false /\
    errorMessage (self (snd r))
    = "Error SimpleEthercat: Failed to config slaves. No slaves detected!"%string /\
    _slaveCount (self (snd r)) = _slaveCount (self s) /\
    _state (self (snd r)) = _state (self s).
Proof.
  intros s Hfound r. subst r.
  unfold configSlaves, do_config_init, bind.
  destruct (ec_config_init drv false (soem s)) as [found w]. cbn [fst] in Hfound.
  replace (found >? 0) with false by (rewrite Z.gtb_ltb; symmetry; apply Z.ltb_ge; lia).
  unfold _readStates, do_readstate, call, set_self, modify, bind, ret. cbn.
  destruct (ec_readstate drv (bus w)) as [r b]. cbn. auto.
Qed.

(** C2.  When [setSafeOperationalState] returns, the stored expected work
    counter is twice the output count of group 0 plus its input count, as
    SOEM's tables hold them then; this is so on every call, whatever was
    stored before, and when the call answers [true] the session state is
    SAFE_OP. *)
Theorem setSafeOperationalState_expectedWKC :
  forall s : St Net,
    let r := setSafeOperationalState drv sprintf s in
    let g0 := ec_group (bus (soem (snd r))) 0 in
    0 <= outputsWKC g0 <= CInt.UINT16_MAX ->
    0 <= inputsWKC g0 <= CInt.UINT16_MAX ->
    _expectedWKC (self (snd r)) = 2 * outputsWKC g0 + inputsWKC g0 /\
    (fst r = true -> _state (self (snd r)) = EC_STATE_SAFE_OP).
Proof.
  intros s r g0.
  assert (Hr : r = setSafeOperationalState drv sprintf s) by reflexivity.
  clearbody r. subst g0.
  unfold setSafeOperationalState in Hr.
  unfold bind at 1 in Hr.
  destruct (for_slaves _ s) as [x s1]. clear x s.
  unfold bind at 1 in Hr. unfold do_writestate, slave, gets, call in Hr.
  unfold bind at 1 in Hr.
  destruct (ec_writestate drv 0 (bus (soem s1))) as [x b2]. clear x.
  unfold bind at 1 in Hr. unfold do_statecheck, call in Hr.
  cbn [soem bus self out] in Hr.
  destruct (ec_statecheck drv 0 EC_STATE_SAFE_OP (EC_TIMEOUTSTATE * 4) b2) as [flag b3].
  unfold bind at 1 in Hr. unfold do_readstate, call in Hr.
  cbn [soem bus self out] in Hr.
  destruct (ec_readstate drv b3) as [x b4]. clear x.
  unfold bind at 1 in Hr. unfold grp, gets in Hr. cbn [soem bus self out] in Hr.
  unfold bind at 1 in Hr. unfold set_self, modify at 1 in Hr.
  cbn [soem bus self out] in Hr.
  set (s5 := mk_st _ _ _) in Hr.
  assert (Hkeep : forall s', soem s' = soem s5 /\
                    _expectedWKC (self s') = _expectedWKC (self s5) ->
            0 <= outputsWKC (ec_group (bus (soem s')) 0) <= CInt.UINT16_MAX ->
            0 <= inputsWKC (ec_group (bus (soem s')) 0) <= CInt.UINT16_MAX ->
            _expectedWKC (self s')
            = 2 * outputsWKC (ec_group (bus (soem s')) 0)
              + inputsWKC (ec_group (bus (soem s')) 0)).
  { intros s' [Hw He] Ho Hi. rewrite He. rewrite Hw in *. subst s5.
    cbn [soem bus self _expectedWKC with_expectedWKC] in *.
    unfold CInt.int32, CInt.UINT16_MAX in *.
    rewrite Z.mod_small by lia. lia. }
  unfold bind at 1 in Hr.
  destruct (flag =? EC_STATE_SAFE_OP) eqn:Hflag.
  - unfold modify, ret in Hr. subst r. cbn [fst snd]. intros Ho Hi. split.
    + apply Hkeep; [split; reflexivity | exact Ho | exact Hi].
    + intros _. reflexivity.
  - unfold bind at 1 in Hr.
    unfold for_slaves, slavecount, gets in Hr. unfold bind at 1 in Hr.
    match type of Hr with
    | context [for_upto ?n ?i ?body ?st] =>
        assert (Hloop : (fun s' => soem s' = soem s5 /\
                           _expectedWKC (self s') = _expectedWKC (self s5))
                        (snd (for_upto n i body st)));
        [ apply for_upto_keeps;
          [ intros i0 s0 [Hw He]; unfold bind, set_self, modify, ret;
            destruct (negb _); cbn; auto
          | split; reflexivity ]
        | destruct (for_upto n i body st) as [x s6] ]
    end.
    cbn [snd] in Hloop. unfold ret in Hr. subst r. cbn [fst snd].
    intros Ho Hi. split.
    + apply Hkeep; [exact Hloop | exact Ho | exact Hi].
    + discriminate.
Qed.

End Facts.

(** Two slaves that reach SAFE_OP, with one output and one input
    acknowledgement in group 0: the expected work counter becomes 3. *)
Lemma setSafeOperationalState_expectedWKC_witness :
  let r := setSafeOperationalState (Bench.stuck EC_STATE_SAFE_OP 2 3)
             Bench.plain_sprintf (Bench.start EC_STATE_PRE_OP 2) in
  let g0 := ec_group (bus (soem (snd r))) 0 in
  (0 <= outputsWKC g0 <= CInt.UINT16_MAX) /\
  (0 <= inputsWKC g0 <= CInt.UINT16_MAX) /\
  _expectedWKC (self (snd r)) = 3 /\
  fst r = true.
Proof.
  assert (Ho : 0 <= 1 <= CInt.UINT16_MAX) by (unfold CInt.UINT16_MAX; lia).
  split; [exact Ho|]. split; [exact Ho|].
  split.
  - apply (setSafeOperationalState_expectedWKC unit
             (Bench.stuck EC_STATE_SAFE_OP 2 3) Bench.plain_sprintf
             (Bench.start EC_STATE_PRE_OP 2) Ho Ho).
  - reflexivity.
Defined.

(** Discovery that finds nothing on a session that believed it had two
    slaves in PRE_OP. *)
Lemma configSlaves_no_slave_witness :
  let s := mk_st (mk_session EmptyString 0 2 true 0 EC_STATE_PRE_OP 0 0 false)
                 (mk_world 2 (Bench.quiet_bus EC_STATE_PRE_OP)) [] in
  let r := configSlaves (Bench.stuck EC_STATE_INIT 0 0) s in
  fst (ec_config_init (Bench.stuck EC_STATE_INIT 0 0) false (soem s)) <= 0 /\
  fst r = false /\
  _slaveCount (self (snd r)) = 2 /\
  _state (self (snd r)) = EC_STATE_PRE_OP.
Proof.
  intros s r.
  assert (H0 : fst (ec_config_init (Bench.stuck EC_STATE_INIT 0 0) false (soem s)) <= 0)
    by (cbn; lia).
  split; [exact H0|].
  destruct (configSlaves_no_slave_keeps_count_and_state unit
              (Bench.stuck EC_STATE_INIT 0 0) s H0) as [Hr [_ [Hc Hs]]].
  split; [exact Hr|]. split; [exact Hc | exact Hs].
Defined.

(** The second of two slaves sits in SAFE_OP + ERROR (value 20). *)
Lemma unlisted_state_witness :
  let drv := Bench.stuck (EC_STATE_SAFE_OP + EC_STATE_ERROR) 2 3 in
  let s := Bench.start EC_STATE_OPERATIONAL 2 in
  let b := snd (ec_readstate drv (bus (soem s))) in
  1 <= 2 <= ec_slavecount (soem s) /\
  state (ec_slave b 2) = 20 /\
  ~ In 20 listed_states /\
  In (showStates_row drv b 2 "NONE") (out (snd (showStates drv s))).
Proof.
  intros drv s b.
  assert (Hi : 1 <= 2 <= ec_slavecount (soem s)) by (cbn; lia).
  assert (Hv : state (ec_slave b 2) = 20) by reflexivity.
  assert (Hun : ~ In 20 listed_states).
  { unfold listed_states. cbn [In]. intros H.
    repeat (destruct H as [H|H]; [discriminate H|]). exact H. }
  split; [exact Hi|]. split; [exact Hv|]. split; [exact Hun|].
  apply (unlisted_state_is_listed_as_NONE unit drv s 2 20 Hi Hv Hun).
Defined.

(** C8 as amended, on a bus whose slaves stay in INIT and whose exchange
    cycles leave the slave table alone: the broadcast of a request for PRE_OP
    carries PRE_OP, and that of a request for INIT carries INIT. *)
Lemma init_and_preop_requests_witness :
  let drv := Bench.stuck EC_STATE_INIT 2 3 in
  let s := Bench.start EC_STATE_INIT 2 in
  exchange_keeps_group_state drv /\
  (exists (k : nat) (b : bool) (s' : St unit),
     (1 <= k <= 201)%nat /\
     setPreOperationalState drv s = (b, s') /\
     out s' = out s ++ request_calls EC_STATE_PRE_OP EC_STATE_PRE_OP k) /\
  (exists (k : nat) (s' : St unit),
     (1 <= k <= 201)%nat /\
     setInitState drv s = (tt, s') /\
     out s' = out s ++ request_calls EC_STATE_INIT EC_STATE_INIT k).
Proof.
  intros drv s.
  assert (Hkeep : exchange_keeps_group_state drv) by (intros b; reflexivity).
  split; [exact Hkeep|].
  destruct (init_and_preop_requests_poll_without_failure_step unit drv s)
    as [[k [b [s' [Hk [Heq [_ Ho]]]]]] [k' [s'' [Hk' [Heq' [_ [Ho' _]]]]]]].
  split.
  - exists k, b, s'. split; [exact Hk|]. split; [exact Heq|]. exact (Ho Hkeep).
  - exists k', s''. split; [exact Hk'|]. split; [exact Heq'|]. exact (Ho' Hkeep).
Defined.

(** C8, refuted as the specification words it.  On a bus whose slaves stay in INIT,
    a request for PRE_OP uses up its polling rounds (202 state checks, 201 of
    them in the loop) and the group record still reads INIT; the call
    answers [true], the message is still empty and the session records
    PRE_OP.  On a bus whose slaves stay in PRE_OP, a request for INIT ends
    the same way with an empty message and the session recording INIT. *)
Lemma unconfirmed_preop_and_init_requests_report_success :
  let r := setPreOperationalState (Bench.stuck EC_STATE_INIT 2 3)
             (Bench.start EC_STATE_INIT 2) in
  let r' := setInitState (Bench.stuck EC_STATE_PRE_OP 2 3)
              (Bench.start EC_STATE_PRE_OP 2) in
  (count_statechecks (out (snd r)) = 202%nat /\
   state (ec_slave (bus (soem (snd r))) 0) = EC_STATE_INIT /\
   fst r = true /\
   errorMessage (self (snd r)) = EmptyString /\
   _state (self (snd r)) = EC_STATE_PRE_OP) /\
  (count_statechecks (out (snd r')) = 202%nat /\
   state (ec_slave (bus (soem (snd r'))) 0) = EC_STATE_PRE_OP /\
   errorMessage (self (snd r')) = EmptyString /\
   _state (self (snd r')) = EC_STATE_INIT).
Proof.
  vm_compute. repeat split.
Qed.

(** C3, the code run on two slaves that both stay in SAFE_OP.  The call
    answers [false] after 203 state checks (201 of them in the polling
    loop); both slaves are below the target when it returns, and the only
    line printed is the one for slave 1, with its state value 4 and the text
    of its status code. *)
Theorem setOperationalState_names_first_slave_only :
  let drv := Bench.stuck EC_STATE_SAFE_OP 2 3 in
  let r := setOperationalState drv (Bench.start EC_STATE_SAFE_OP 2) in
  not_operational (soem (snd r)) = [1; 2] /\
  fst r = false /\
  errorMessage (self (snd r)) = "Slaves state can not set to operational state."%string /\
  printed (out (snd r))
  = [ev_printf "Slave %d AL status code: %s. Current state: %d\n"
       [PInt 1; PStr "Sync manager watchdog"; PInt 4]] /\
  count_statechecks (out (snd r)) = 203%nat.
Proof.
  vm_compute. repeat split.
Qed.

(** C4, the monitor run on a session in operation.  The session object has
    static storage, so its member [_wkc] holds 0; it is OPERATIONAL with an
    expected work counter of 3, both slaves are OPERATIONAL and the check
    flag of the group is clear.  An exchange cycle receives the full work
    counter 3 and answers [true]; the member [_wkc] still holds 0.  The next
    round of the monitor sweeps all the same: it reads the states, finds
    nothing to repair and prints its two closing lines, and so does every
    round after it. *)
Theorem monitor_sweeps_on_a_full_work_counter :
  let drv := Bench.stuck EC_STATE_OPERATIONAL 2 3 in
  let s := mk_st (mk_session EmptyString 0 2 true 3 EC_STATE_OPERATIONAL 0 0 false)
                 (mk_world 2 (Bench.quiet_bus EC_STATE_OPERATIONAL)) [] in
  let r := updateProccess drv s in
  fst (ec_receive_processdata drv EC_TIMEOUTRET
         (snd (ec_send_processdata drv (bus (soem s))))) = 3 /\
  _expectedWKC (self s) = 3 /\
  fst r = true /\
  docheckstate (ec_group (bus (soem (snd r))) (_currentgroup (self s))) = false /\
  not_operational (soem (snd r)) = [] /\
  _wkc (self (snd r)) = 0 /\
  sweep_due (snd r) = true /\
  out (snd (ecatcheck_round drv (snd r)))
  = out (snd r)
    ++ [ev_readstate; ev_printf "SDCSDC\n" [];
        ev_printf "OK : all slaves resumed OPERATIONAL.\n" []; ev_usleep 10000] /\
  out (snd (_ecatcheck drv 3 (snd r)))
  = out (snd r)
    ++ List.concat
         (repeat [ev_readstate; ev_printf "SDCSDC\n" [];
                  ev_printf "OK : all slaves resumed OPERATIONAL.\n" []; ev_usleep 10000]
                 3).
Proof.
  vm_compute. repeat split.
Qed.

End SessionFacts.

(** * Properties of the mapping printers *)

Module MappingFacts.

Import SlaveInfo MappingVocabulary MappingTactics.

Local Open Scope error_scope.

Section Facts.

Variable Net : Type.
Variable mbx : Mailbox Net.
Variable dtype2string : Z -> Z -> string.

(** Two computations that start alike and go on alike are the same. *)
Lemma ebind_ext :
  forall (S A B : Type) (c : E S A) (k1 k2 : A -> E S B) (s : S),
    (forall a s', c s = Done (a, s') -> k1 a s' = k2 a s') ->
    ebind c k1 s = ebind c k2 s.
Proof.
  intros S A B c k1 k2 s H. unfold ebind.
  destruct (c s) as [[a s']|f]; [apply H; reflexivity | reflexivity].
Qed.

(** A communication type that is neither 3 nor 4 maps nothing. *)
Lemma map_by_type_other :
  forall (fuel : nat) (sl iSM tSM : Z) (l : sm_locals) (g : Globals Net),
    tSM <> 3 -> tSM <> 4 ->
    map_by_type mbx dtype2string fuel sl iSM tSM l g = Done (l, g).
Proof.
  intros fuel sl iSM tSM l g H3 H4. unfold map_by_type.
  destruct (Z.eqb_spec tSM 3) as [E|_]; [contradiction|].
  destruct (Z.eqb_spec tSM 4) as [E|_]; [contradiction|].
  reflexivity.
Qed.

(** With the workaround off or on, the type the code hands to the
    classification and the raw type plus the correction are classified
    alike. *)
Lemma corrected_type_classified_alike :
  forall (fuel : nat) (sl iSM raw add : Z) (l : sm_locals) (g : Globals Net),
    0 <= raw < 256 -> add = 0 \/ add = 1 ->
    map_by_type mbx dtype2string fuel sl iSM
      (if negb (raw =? 0) then CInt.uint8 (raw + add) else raw) l g
    = map_by_type mbx dtype2string fuel sl iSM
        (if add =? 1 then raw + 1 else raw) l g.
Proof.
  intros fuel sl iSM raw add l g Hraw Hadd.
  destruct Hadd as [-> | ->]; cbn [Z.eqb Pos.eqb].
  - destruct (Z.eqb_spec raw 0) as [E|E]; cbn [negb]; [reflexivity|].
    unfold CInt.uint8. rewrite Z.add_0_r, Z.mod_small by (cbn; lia). reflexivity.
  - destruct (Z.eqb_spec raw 0) as [E|E]; cbn [negb].
    + subst raw. rewrite !map_by_type_other by lia. reflexivity.
    + destruct (Z.eq_dec raw 255) as [E255|E255].
      * subst raw. rewrite !map_by_type_other by (try (cbn; lia); vm_compute; discriminate).
        reflexivity.
      * unfold CInt.uint8. rewrite Z.mod_small by (cbn; lia). reflexivity.
Qed.

Lemma map_by_type_keeps_add :
  forall (fuel : nat) (sl iSM tSM : Z) (l l' : sm_locals) (g g' : Globals Net),
    map_by_type mbx dtype2string fuel sl iSM tSM l g = Done (l', g') ->
    SMt_bug_add l' = SMt_bug_add l.
Proof.
  intros fuel sl iSM tSM l l' g g'. unfold map_by_type.
  unfold ebind at 1.
  destruct (tSM =? 3).
  - unfold ebind at 1. unfold printf at 1, emodify at 1.
    unfold ebind at 1. unfold egets at 1.
    unfold ebind at 1.
    destruct (si_PDOassign _ _ _ _ _ _ _ _) as [[T g1]|f]; [|discriminate].
    unfold eret at 1.
    destruct (tSM =? 4).
    + unfold ebind at 1. unfold printf at 1, emodify at 1.
      unfold ebind at 1. unfold egets at 1.
      unfold ebind at 1.
      destruct (si_PDOassign _ _ _ _ _ _ _ _) as [[T2 g2]|f]; [|discriminate].
      unfold eret. intros H. inversion H. reflexivity.
    + unfold eret. intros H. inversion H. reflexivity.
  - unfold eret at 1.
    destruct (tSM =? 4).
    + unfold ebind at 1. unfold printf at 1, emodify at 1.
      unfold ebind at 1. unfold egets at 1.
      unfold ebind at 1.
      destruct (si_PDOassign _ _ _ _ _ _ _ _) as [[T2 g2]|f]; [|discriminate].
      unfold eret. intros H. inversion H. reflexivity.
    + unfold eret. intros H. inversion H. reflexivity.
Qed.

(** One round of the loop of [si_map_sdo] does what the specification says
    of it. *)
Lemma map_sdo_round_eq :
  forall (fuel : nat) (sl iSM : Z) (l : sm_locals) (g : Globals Net),
    SMt_bug_add l = 0 \/ SMt_bug_add l = 1 ->
    map_sdo_round mbx dtype2string fuel sl iSM l g
    = map_sdo_round_as_specified mbx dtype2string fuel sl iSM l g.
Proof.
  intros fuel sl iSM l g Hadd.
  unfold map_sdo_round, map_sdo_round_as_specified.
  apply ebind_ext. intros r g1 _.
  destruct (fst r >? 0); [|reflexivity].
  assert (Hraw : 0 <= CInt.uint8 (snd r) < 256)
    by (unfold CInt.uint8; apply Z.mod_pos_bound; reflexivity).
  destruct ((iSM =? 2) && (CInt.uint8 (snd r) =? 2)).
  - unfold ebind, printf, emodify, eret. cbn [SMt_bug_add].
    apply (corrected_type_classified_alike fuel sl iSM (CInt.uint8 (snd r)) 1);
      [exact Hraw | right; reflexivity].
  - unfold ebind at 1 2. unfold eret at 1 2.
    apply (corrected_type_classified_alike fuel sl iSM (CInt.uint8 (snd r)) (SMt_bug_add l));
      [exact Hraw | exact Hadd].
Qed.

(** The correction, once on, stays on; it is never anything but 0 or 1. *)
Lemma map_sdo_round_add :
  forall (fuel : nat) (sl iSM : Z) (l l' : sm_locals) (g g' : Globals Net),
    map_sdo_round mbx dtype2string fuel sl iSM l g = Done (l', g') ->
    SMt_bug_add l' = SMt_bug_add l \/ SMt_bug_add l' = 1.
Proof.
  intros fuel sl iSM l l' g g'. unfold map_sdo_round.
  unfold ebind at 1.
  destruct (do_SDOread _ _ _ _ _ _ _ g) as [[r g1]|f]; [|discriminate].
  destruct (fst r >? 0); [|unfold eret; intros H; inversion H; left; reflexivity].
  unfold ebind at 1.
  destruct ((iSM =? 2) && (CInt.uint8 (snd r) =? 2)).
  - unfold ebind at 1. unfold printf at 1, emodify at 1. unfold eret at 1.
    intros H. apply map_by_type_keeps_add in H. right. exact H.
  - unfold eret at 1.
    intros H. apply map_by_type_keeps_add in H. left. exact H.
Qed.

Lemma map_sdo_rounds_eq :
  forall (n fuel : nat) (sl iSM : Z) (l : sm_locals) (g : Globals Net),
    SMt_bug_add l = 0 \/ SMt_bug_add l = 1 ->
    map_sdo_rounds mbx dtype2string n fuel sl iSM l g
    = map_sdo_rounds_as_specified mbx dtype2string n fuel sl iSM l g.
Proof.
  induction n as [|n IH]; intros fuel sl iSM l g Hadd;
    cbn [map_sdo_rounds map_sdo_rounds_as_specified].
  - reflexivity.
  - unfold ebind. rewrite <- map_sdo_round_eq by exact Hadd.
    destruct (map_sdo_round mbx dtype2string fuel sl iSM l g) as [[l1 g1]|f] eqn:Hround;
      [|reflexivity].
    apply IH. apply map_sdo_round_add in Hround. destruct Hround as [E|E]; rewrite E; auto.
Qed.

(** C5.  [si_map_sdo] does what the specification says of the SM-type
    workaround: it behaves, on every slave and whatever the slave answers,
    as the mapping in which, once synchronization manager 2 has reported
    communication type 2, one is added to every communication type read
    before it is classified as outputs (3) or inputs (4). *)
Theorem si_map_sdo_applies_workaround_as_specified :
  forall (fuel : nat) (sl : Z) (g : Globals Net),
    si_map_sdo mbx dtype2string fuel sl g
    = si_map_sdo_as_specified mbx dtype2string fuel sl g.
Proof.
  intros fuel sl g. unfold si_map_sdo, si_map_sdo_as_specified.
  apply ebind_ext. intros u g0 _.
  apply ebind_ext. intros r g1 _.
  destruct ((fst r >? 0) && (CInt.uint8 (snd r) >? 2)); [|reflexivity].
  unfold ebind. rewrite map_sdo_rounds_eq by (left; reflexivity). reflexivity.
Qed.

Lemma int32_small :
  forall x, CInt.INT_MIN <= x <= CInt.INT_MAX -> CInt.int32 x = x.
Proof.
  intros x Hx. unfold CInt.int32, CInt.INT_MIN, CInt.INT_MAX in *.
  rewrite Z.mod_small by lia. lia.
Qed.

Lemma word_bitlen_range : forall w, 0 <= word_bitlen w <= 255.
Proof.
  intros w. unfold word_bitlen, CInt.uint8.
  pose proof (Z.mod_pos_bound (CInt.LO_BYTE w) (2 ^ 8) eq_refl) as H.
  change (2 ^ 8) with 256 in *. lia.
Qed.

Lemma uint8_range : forall v, 0 <= CInt.uint8 v <= 255.
Proof.
  intros v. unfold CInt.uint8.
  pose proof (Z.mod_pos_bound v (2 ^ 8) eq_refl) as H.
  change (2 ^ 8) with 256 in *. lia.
Qed.

(** A filler entry in the dictionary-driven strategy. *)
Lemma PDOassign_filler_entry :
  forall (g : Globals Net) (sl idx subidxloop mapoffset bsize bitoffset : Z),
    let rd := ec_SDOread mbx sl idx (CInt.uint8 subidxloop) false 4 EC_TIMEOUTRXM (soem g) in
    let rdat2 := CInt.int32 (snd (fst rd)) in
    word_obj_idx rdat2 = 0 -> word_obj_subidx rdat2 = 0 ->
    CInt.INT_MIN <= bsize -> bsize + 255 <= CInt.INT_MAX ->
    CInt.INT_MIN <= bitoffset -> bitoffset + 255 <= CInt.INT_MAX ->
    exists g' : Globals Net,
      PDOassign_entry mbx dtype2string sl idx subidxloop mapoffset (bsize, bitoffset) g
      = Done ((bsize + word_bitlen rdat2, bitoffset + word_bitlen rdat2), g') /\
      out g'
      = out g ++
        [ev_SDOread sl idx (CInt.uint8 subidxloop) false 4 EC_TIMEOUTRXM;
         ev_printf "  [0x%4.4X.%1d] 0x%4.4X:0x%2.2X 0x%2.2X"
           [PInt (CInt.int32 (mapoffset + Z.quot bitoffset 8)); PInt (Z.rem bitoffset 8);
            PInt 0; PInt 0; PInt (word_bitlen rdat2)];
         ev_printf "\n" []].
Proof.
  intros g sl idx subidxloop mapoffset bsize bitoffset rd rdat2 Hidx Hsub Hb1 Hb2 Ho1 Ho2.
  subst rdat2 rd.
  unfold PDOassign_entry. unfold ebind at 1. unfold do_SDOread, call.
  destruct (ec_SDOread mbx sl idx (CInt.uint8 subidxloop) false 4 EC_TIMEOUTRXM (soem g))
    as [[wkc v] b1].
  cbn [fst snd] in *. rewrite Hidx, Hsub.
  pose proof (word_bitlen_range (CInt.int32 v)) as Hlen.
  rewrite !int32_small with (x := bsize + _) by lia.
  rewrite !int32_small with (x := bitoffset + _) by lia.
  unfold ebind, emodify, eret, printf, egets. cbn.
  eexists. split; [reflexivity|].
  rewrite <- !app_assoc. reflexivity.
Qed.

Lemma in_table :
  forall size i, 0 <= i < size -> (0 <=? i) && (i <? size) = true.
Proof.
  intros size i H. apply andb_true_iff. split; [apply Z.leb_le | apply Z.ltb_lt]; lia.
Qed.

(** A filler entry in the descriptor-memory strategy. *)
Lemma siiPDO_filler_entry :
  forall (g : Globals Net) (sl mapoffset : Z) (l : sii_locals) (nm dt bl : Z),
    fst (sii_bytes mbx sl 6 (a l) (soem g)) = [0; 0; 0; nm; dt; bl] ->
    0 <= nPDO (PDO l) < EC_MAXEEPDO ->
    CInt.INT_MIN <= bitoffset l -> bitoffset l + 255 <= CInt.INT_MAX ->
    CInt.INT_MIN <= totalsize l -> totalsize l + 255 <= CInt.INT_MAX ->
    exists (l' : sii_locals) (g' : Globals Net),
      siiPDO_entry mbx dtype2string sl mapoffset l g = Done (l', g') /\
      bitoffset l' = bitoffset l + bl /\
      totalsize l' = totalsize l + bl /\
      out g' = out g ++ sii_reads sl 6 (a l).
Proof.
  intros g sl mapoffset l nm dt bl Hbytes Hn Ho1 Ho2 Ht1 Ht2.
  cbn [sii_bytes] in Hbytes.
  destruct (ec_siigetbyte mbx sl (a l) (soem g)) as [v1 b1] eqn:E1.
  destruct (ec_siigetbyte mbx sl (CInt.uint16 (a l + 1)) b1) as [v2 b2] eqn:E2.
  destruct (ec_siigetbyte mbx sl (CInt.uint16 (CInt.uint16 (a l + 1) + 1)) b2)
    as [v3 b3] eqn:E3.
  destruct (ec_siigetbyte mbx sl
              (CInt.uint16 (CInt.uint16 (CInt.uint16 (a l + 1) + 1) + 1)) b3)
    as [v4 b4] eqn:E4.
  destruct (ec_siigetbyte mbx sl
              (CInt.uint16 (CInt.uint16 (CInt.uint16 (CInt.uint16 (a l + 1) + 1) + 1) + 1)) b4)
    as [v5 b5] eqn:E5.
  destruct (ec_siigetbyte mbx sl
              (CInt.uint16 (CInt.uint16 (CInt.uint16 (CInt.uint16
                 (CInt.uint16 (a l + 1) + 1) + 1) + 1) + 1)) b5)
    as [v6 b6] eqn:E6.
  cbn [fst] in Hbytes. injection Hbytes as H1 H2 H3 H4 H5 H6.
  pose proof (uint8_range v6) as Hbl. rewrite H6 in Hbl.
  unfold siiPDO_entry.
  unfold next_byte, do_siigetbyte, call, ebind, eret, add_c.
  cbn [a c PDO bitoffset totalsize soem out ODlist OElist].
  rewrite E1. cbn [a c PDO bitoffset totalsize soem out ODlist OElist].
  rewrite E2. cbn [a c PDO bitoffset totalsize soem out ODlist OElist].
  rewrite E3. cbn [a c PDO bitoffset totalsize soem out ODlist OElist].
  rewrite E4. cbn [a c PDO bitoffset totalsize soem out ODlist OElist].
  rewrite E5. cbn [a c PDO bitoffset totalsize soem out ODlist OElist].
  rewrite E6. cbn [a c PDO bitoffset totalsize soem out ODlist OElist].
  unfold load, store, fail, eret. rewrite (in_table EC_MAXEEPDO _ Hn).
  rewrite H1, H2, H3, H6.
  change (CInt.uint16 (0 + Z.shiftl 0 8) =? 0) with true.
  change (0 =? 0) with true. cbn [negb orb].
  unfold skip_a, set_PDO.
  cbn [a c PDO bitoffset totalsize soem out ODlist OElist].
  rewrite !int32_small by lia.
  eexists. eexists. split; [reflexivity|].
  cbn [a c PDO bitoffset totalsize soem out ODlist OElist sii_reads].
  repeat split. rewrite <- !app_assoc. reflexivity.
Qed.

(** A run of filler entries in the dictionary-driven strategy: [k] entries
    from sub-index [sub] on. *)
Lemma PDOassign_entries_fillers :
  forall (sl idx mapoffset n L : Z),
    n <= 255 ->
    (forall (s : Z) (b : Bus Net), 1 <= s <= n ->
       let w := CInt.int32 (snd (fst (ec_SDOread mbx sl idx s false 4 EC_TIMEOUTRXM b))) in
       word_obj_idx w = 0 /\ word_obj_subidx w = 0 /\ word_bitlen w = L) ->
    forall (k : nat) (sub bsize bo : Z) (g : Globals Net),
      1 <= sub -> sub + Z.of_nat k <= n + 1 ->
      CInt.INT_MIN <= bsize -> bsize + 255 * Z.of_nat k <= CInt.INT_MAX ->
      CInt.INT_MIN <= bo -> bo + 255 * Z.of_nat k <= CInt.INT_MAX ->
      exists g' : Globals Net,
        PDOassign_entries mbx dtype2string k sl idx sub mapoffset (bsize, bo) g
        = Done ((bsize + Z.of_nat k * L, bo + Z.of_nat k * L), g') /\
        Vocabulary.printed (out g')
        = Vocabulary.printed (out g) ++ filler_rows mapoffset bo L k /\
        lookups (out g') = lookups (out g).
Proof.
  intros sl idx mapoffset n L Hn Hfill.
  induction k as [|k IH]; intros sub bsize bo g Hsub Hlast Hb1 Hb2 Ho1 Ho2;
    cbn [PDOassign_entries filler_rows].
  - exists g. unfold eret. rewrite !Z.add_0_r, app_nil_r. repeat split.
  - assert (Hu : CInt.uint8 sub = sub)
      by (unfold CInt.uint8; apply Z.mod_small; change (2 ^ 8) with 256; lia).
    destruct (Hfill sub (soem g)) as [Hi [Hs Hl]]; [lia|].
    pose proof (word_bitlen_range
                  (CInt.int32 (snd (fst (ec_SDOread mbx sl idx sub false 4 EC_TIMEOUTRXM
                                           (soem g)))))) as HL.
    rewrite Hl in HL.
    destruct (PDOassign_filler_entry g sl idx sub mapoffset bsize bo)
      as [g1 [E1 Hout1]]; try (rewrite Hu; assumption); try lia.
    rewrite Hu, Hl in E1. rewrite Hu, Hl in Hout1.
    unfold ebind. rewrite E1.
    destruct (IH (sub + 1) (bsize + L) (bo + L) g1) as [g2 [E2 [Hp2 Hk2]]]; try lia.
    exists g2. split.
    + rewrite E2. f_equal. f_equal. f_equal; lia.
    + rewrite Hp2, Hk2, Hout1. unfold Vocabulary.printed, lookups.
      rewrite !filter_app. cbn [filter app]. rewrite <- !app_assoc, app_nil_r.
      split; reflexivity.
Qed.

(** The dictionary-driven strategy on an assignment of one PDO whose [n]
    entries are all fillers of [L] bits. *)
Lemma si_PDOassign_filler_pdo :
  forall (fuel : nat) (sl PDOassign mapoffset bo idx n L : Z) (g : Globals Net),
    (1 <= fuel)%nat ->
    fst (fst (ec_SDOread mbx sl PDOassign 0 false 2 EC_TIMEOUTRXM (soem g))) > 0 ->
    CInt.uint16 (snd (fst (ec_SDOread mbx sl PDOassign 0 false 2 EC_TIMEOUTRXM (soem g)))) = 1 ->
    (forall b : Bus Net,
       CInt.uint16 (snd (fst (ec_SDOread mbx sl PDOassign 1 false 2 EC_TIMEOUTRXM b))) = idx) ->
    idx > 0 ->
    (forall b : Bus Net,
       CInt.uint8 (snd (fst (ec_SDOread mbx sl idx 0 false 1 EC_TIMEOUTRXM b))) = n) ->
    (forall (s : Z) (b : Bus Net), 1 <= s <= n ->
       let w := CInt.int32 (snd (fst (ec_SDOread mbx sl idx s false 4 EC_TIMEOUTRXM b))) in
       word_obj_idx w = 0 /\ word_obj_subidx w = 0 /\ word_bitlen w = L) ->
    CInt.INT_MIN <= bo -> bo + 255 * n <= CInt.INT_MAX ->
    exists g' : Globals Net,
      si_PDOassign mbx dtype2string fuel sl PDOassign mapoffset bo g = Done (n * L, g') /\
      Vocabulary.printed (out g')
      = Vocabulary.printed (out g) ++ filler_rows mapoffset bo L (Z.to_nat n) /\
      lookups (out g') = lookups (out g).
Proof.
  intros fuel sl PDOassign mapoffset bo idx n L g Hfuel Hwkc Hcount Hidx Hpos Hn Hfill
         Ho1 Ho2.
  assert (Hn8 : 0 <= n <= 255) by (rewrite <- (Hn (soem g)); apply uint8_range).
  unfold si_PDOassign. unfold ebind at 1. unfold do_SDOread at 1, call.
  destruct (ec_SDOread mbx sl PDOassign 0 false 2 EC_TIMEOUTRXM (soem g)) as [[wkc v] b1].
  cbn [fst snd] in *. rewrite Hcount.
  replace (wkc >? 0) with true by (symmetry; apply Z.gtb_lt; lia).
  cbn [andb Z.gtb Z.compare]. unfold ebind at 1.
  destruct fuel as [|fuel]; [exfalso; lia|].
  cbn [PDOassign_pdos]. change (1 <=? 1) with true. cbn iota.
  unfold ebind at 1. unfold PDOassign_pdo. unfold ebind at 1.
  unfold do_SDOread at 1, call. cbn [soem ODlist OElist out].
  change (CInt.uint8 1) with 1.
  pose proof (Hidx b1) as Hidx1.
  destruct (ec_SDOread mbx sl PDOassign 1 false 2 EC_TIMEOUTRXM b1) as [[wkc2 v2] b2].
  cbn [fst snd] in *. rewrite Hidx1.
  replace (idx >? 0) with true by (symmetry; apply Z.gtb_lt; lia).
  unfold ebind at 1. unfold do_SDOread at 1, call. cbn [soem ODlist OElist out].
  pose proof (Hn b2) as Hn2.
  destruct (ec_SDOread mbx sl idx 0 false 1 EC_TIMEOUTRXM b2) as [[wkc3 v3] b3].
  cbn [fst snd] in *. rewrite Hn2.
  match goal with
  | |- context [PDOassign_entries mbx dtype2string ?k sl idx 1 mapoffset ?acc ?G] =>
      destruct (PDOassign_entries_fillers sl idx mapoffset n L (proj2 Hn8) Hfill
                  k 1 0 bo G) as [g4 [E4 [Hp4 Hk4]]];
      try (rewrite Z2Nat.id by lia); try (unfold CInt.INT_MIN, CInt.INT_MAX in *; lia);
      [ rewrite E4 ]
  end.
  rewrite Z2Nat.id by lia.
  change (CInt.uint16 (1 + 1)) with 2.
  destruct fuel; cbn [PDOassign_pdos]; change (2 <=? 1) with false; cbn iota;
    unfold eret; exists g4;
    (split; [cbn [fst]; f_equal; f_equal; lia|]);
    rewrite Hp4, Hk4; cbn [out]; unfold Vocabulary.printed, lookups;
    rewrite !filter_app; cbn [filter app]; rewrite !app_nil_r; split; reflexivity.
Qed.

(** A filler entry of [L] bits read from a memory [mem] at the cursor:
    the cursors move on by 8 bytes and 4 words. *)
Lemma siiPDO_filler_entry_mem :
  forall (sl mapoffset L : Z) (mem : Z -> Z) (l : sii_locals) (g : Globals Net),
    reads_memory mbx sl mem ->
    0 <= a l -> a l + 8 < 65536 ->
    mem (a l) = 0 -> mem (a l + 1) = 0 -> mem (a l + 2) = 0 -> mem (a l + 5) = L ->
    0 <= nPDO (PDO l) < EC_MAXEEPDO ->
    CInt.INT_MIN <= bitoffset l -> bitoffset l + 255 <= CInt.INT_MAX ->
    CInt.INT_MIN <= totalsize l -> totalsize l + 255 <= CInt.INT_MAX ->
    exists (l' : sii_locals) (g' : Globals Net),
      siiPDO_entry mbx dtype2string sl mapoffset l g = Done (l', g') /\
      a l' = a l + 8 /\
      c l' = CInt.uint16 (c l + 4) /\
      nPDO (PDO l') = nPDO (PDO l) /\
      Length (PDO l') = Length (PDO l) /\
      SMbitsize (PDO l') = SMbitsize (PDO l) /\
      bitoffset l' = bitoffset l + L /\
      totalsize l' = totalsize l + L /\
      Vocabulary.printed (out g') = Vocabulary.printed (out g).
Proof.
  intros sl mapoffset L mem l g Hmem Ha0 Ha8 M0 M1 M2 M5 Hn Ho1 Ho2 Ht1 Ht2.
  assert (HL : 0 <= L <= 255).
  { rewrite <- M5, <- (Hmem (a l + 5) (soem g)). apply uint8_range. }
  assert (A1 : CInt.uint16 (a l + 1) = a l + 1) by (unfold CInt.uint16; change (2 ^ 16) with 65536; rewrite Z.mod_small by lia; lia).
  assert (A2 : CInt.uint16 (a l + 1 + 1) = a l + 2) by (unfold CInt.uint16; change (2 ^ 16) with 65536; rewrite Z.mod_small by lia; lia).
  assert (A3 : CInt.uint16 (a l + 2 + 1) = a l + 3) by (unfold CInt.uint16; change (2 ^ 16) with 65536; rewrite Z.mod_small by lia; lia).
  assert (A4 : CInt.uint16 (a l + 3 + 1) = a l + 4) by (unfold CInt.uint16; change (2 ^ 16) with 65536; rewrite Z.mod_small by lia; lia).
  assert (A5 : CInt.uint16 (a l + 4 + 1) = a l + 5) by (unfold CInt.uint16; change (2 ^ 16) with 65536; rewrite Z.mod_small by lia; lia).
  assert (A6 : CInt.uint16 (a l + 5 + 1) = a l + 6) by (unfold CInt.uint16; change (2 ^ 16) with 65536; rewrite Z.mod_small by lia; lia).
  assert (A8 : CInt.uint16 (a l + 6 + 2) = a l + 8) by (unfold CInt.uint16; change (2 ^ 16) with 65536; rewrite Z.mod_small by lia; lia).
  unfold siiPDO_entry.
  unfold next_byte, do_siigetbyte, call, ebind, eret, add_c.
  sii_fields. rewrite ?A1, ?A2, ?A3, ?A4, ?A5, ?A6.
  sii_read_mem Hmem.
  rewrite ?A1, ?A2, ?A3, ?A4, ?A5, ?A6, ?M0, ?M1, ?M2, ?M5.
  unfold load, store, fail, eret. rewrite (in_table EC_MAXEEPDO _ Hn).
  change (CInt.uint16 (0 + Z.shiftl 0 8) =? 0) with true.
  change (0 =? 0) with true. cbn [negb orb].
  unfold skip_a, set_PDO. sii_fields. rewrite ?A8.
  rewrite !int32_small by lia.
  eexists. eexists. split; [reflexivity|]. sii_fields.
  split; [reflexivity|]. split; [reflexivity|]. split; [reflexivity|].
  split; [reflexivity|]. split; [reflexivity|]. split; [reflexivity|].
  split; [reflexivity|].
  unfold Vocabulary.printed. rewrite <- ?app_assoc, filter_app. cbn [filter app].
  apply app_nil_r.
Qed.

(** A run of [k] filler entries of [L] bits each from the cursor on. *)
Lemma siiPDO_entries_fillers :
  forall (sl mapoffset L : Z) (mem : Z -> Z),
    reads_memory mbx sl mem ->
    forall (k : nat) (l : sii_locals) (g : Globals Net),
      0 <= a l -> a l + 8 * Z.of_nat k < 65536 ->
      0 <= c l -> c l + 4 * Z.of_nat k < 65536 ->
      (forall j : Z, 0 <= j < Z.of_nat k ->
         mem (a l + 8 * j) = 0 /\ mem (a l + 8 * j + 1) = 0 /\
         mem (a l + 8 * j + 2) = 0 /\ mem (a l + 8 * j + 5) = L) ->
      0 <= nPDO (PDO l) < EC_MAXEEPDO ->
      CInt.INT_MIN <= bitoffset l -> bitoffset l + 255 * Z.of_nat k <= CInt.INT_MAX ->
      CInt.INT_MIN <= totalsize l -> totalsize l + 255 * Z.of_nat k <= CInt.INT_MAX ->
      exists (l' : sii_locals) (g' : Globals Net),
        siiPDO_entries mbx dtype2string k sl mapoffset l g = Done (l', g') /\
        c l' = c l + 4 * Z.of_nat k /\
        nPDO (PDO l') = nPDO (PDO l) /\
        Length (PDO l') = Length (PDO l) /\
        SMbitsize (PDO l') = SMbitsize (PDO l) /\
        bitoffset l' = bitoffset l + Z.of_nat k * L /\
        totalsize l' = totalsize l + Z.of_nat k * L /\
        Vocabulary.printed (out g') = Vocabulary.printed (out g).
Proof.
  intros sl mapoffset L mem Hmem.
  induction k as [|k IH]; intros l g Ha0 Ha8 Hc0 Hc4 Hfill Hn Ho1 Ho2 Ht1 Ht2;
    cbn [siiPDO_entries].
  - exists l, g. unfold eret. cbn [Z.of_nat].
    rewrite !Z.mul_0_r, !Z.mul_0_l, !Z.add_0_r. repeat split.
  - destruct (Hfill 0) as [M0 [M1 [M2 M5]]]; [lia|].
    rewrite Z.mul_0_r, !Z.add_0_r in M0. rewrite Z.mul_0_r, Z.add_0_r in M1, M2, M5.
    assert (HL : 0 <= L <= 255).
    { rewrite <- M5, <- (Hmem (a l + 5) (soem g)). apply uint8_range. }
    destruct (siiPDO_filler_entry_mem sl mapoffset L mem l g Hmem)
      as [l1 [g1 [E1 [Ha1 [Hc1 [Hn1 [Hl1 [Hs1 [Hb1 [Hz1 Hp1]]]]]]]]]]; try assumption; try lia.
    assert (Hc1' : c l1 = c l + 4).
    { rewrite Hc1. unfold CInt.uint16. change (2 ^ 16) with 65536.
      apply Z.mod_small. lia. }
    unfold ebind. rewrite E1.
    destruct (IH l1 g1) as [l2 [g2 [E2 [Hc2 [Hn2 [Hl2 [Hs2 [Hb2 [Hz2 Hp2]]]]]]]]]; try lia.
    { intros j Hj. rewrite Ha1.
      destruct (Hfill (j + 1)) as [N0 [N1 [N2 N5]]]; [lia|].
      replace (a l + 8 + 8 * j) with (a l + 8 * (j + 1)) by lia. auto. }
    exists l2, g2. split; [exact E2|].
    split; [lia|]. split; [congruence|]. split; [congruence|]. split; [congruence|].
    split; [lia|]. split; [lia|]. congruence.
Qed.

(** One PDO record of a memory [mem], for a sync manager below
    [EC_MAXSM], whose [e] entries are all fillers of [L] bits. *)
Lemma siiPDO_record_fillers :
  forall (sl t mapoffset L e sm : Z) (mem : Z -> Z) (l : sii_locals) (g : Globals Net),
    reads_memory mbx sl mem ->
    0 <= a l -> a l + 8 + 8 * e < 65536 ->
    0 <= c l -> c l + 4 + 4 * e < 65536 ->
    mem (a l + 2) = e -> mem (a l + 3) = sm -> sm < EC_MAXSM ->
    (forall j : Z, 0 <= j < e ->
       mem (a l + 8 + 8 * j) = 0 /\ mem (a l + 8 + 8 * j + 1) = 0 /\
       mem (a l + 8 + 8 * j + 2) = 0 /\ mem (a l + 8 + 8 * j + 5) = L) ->
    0 <= nPDO (PDO l) < EC_MAXEEPDO - 2 ->
    CInt.INT_MIN <= bitoffset l -> bitoffset l + 255 * e <= CInt.INT_MAX ->
    CInt.INT_MIN <= totalsize l -> totalsize l + 255 * e <= CInt.INT_MAX ->
    exists (l' : sii_locals) (g' : Globals Net) (name : string),
      siiPDO_record mbx dtype2string sl t mapoffset l g = Done (l', g') /\
      c l' = c l + 4 + 4 * e /\
      Length (PDO l') = Length (PDO l) /\
      bitoffset l' = bitoffset l + e * L /\
      totalsize l' = totalsize l + e * L /\
      Vocabulary.printed (out g')
      = Vocabulary.printed (out g)
        ++ [ev_printf (if negb (t =? 0) then "  SM%1d RXPDO 0x%4.4X %s\n"
                       else "  SM%1d TXPDO 0x%4.4X %s\n")
              [PInt sm; PInt (CInt.uint16 (mem (a l) + Z.shiftl (mem (a l + 1)) 8));
               PStr name];
            ev_printf "     addr b   index: sub bitl data_type    name\n" []].
Proof.
  intros sl t mapoffset L e sm mem l g Hmem Ha0 Ha8 Hc0 Hc4 Me Msm Hsm Hfill Hn
         Ho1 Ho2 Ht1 Ht2.
  assert (He : 0 <= e <= 255).
  { rewrite <- Me, <- (Hmem (a l + 2) (soem g)). apply uint8_range. }
  assert (Hsm0 : 0 <= sm).
  { rewrite <- Msm, <- (Hmem (a l + 3) (soem g)). apply uint8_range. }
  assert (A1 : CInt.uint16 (a l + 1) = a l + 1)
    by (unfold CInt.uint16; change (2 ^ 16) with 65536; rewrite Z.mod_small by lia; lia).
  assert (A2 : CInt.uint16 (a l + 1 + 1) = a l + 2)
    by (unfold CInt.uint16; change (2 ^ 16) with 65536; rewrite Z.mod_small by lia; lia).
  assert (A3 : CInt.uint16 (a l + 2 + 1) = a l + 3)
    by (unfold CInt.uint16; change (2 ^ 16) with 65536; rewrite Z.mod_small by lia; lia).
  assert (A4 : CInt.uint16 (a l + 3 + 1) = a l + 4)
    by (unfold CInt.uint16; change (2 ^ 16) with 65536; rewrite Z.mod_small by lia; lia).
  assert (A5 : CInt.uint16 (a l + 4 + 1) = a l + 5)
    by (unfold CInt.uint16; change (2 ^ 16) with 65536; rewrite Z.mod_small by lia; lia).
  assert (A6 : CInt.uint16 (a l + 5 + 1) = a l + 6)
    by (unfold CInt.uint16; change (2 ^ 16) with 65536; rewrite Z.mod_small by lia; lia).
  assert (A8 : CInt.uint16 (a l + 6 + 2) = a l + 8)
    by (unfold CInt.uint16; change (2 ^ 16) with 65536; rewrite Z.mod_small by lia; lia).
  assert (C1 : CInt.uint16 (c l + 1) = c l + 1)
    by (unfold CInt.uint16; change (2 ^ 16) with 65536; rewrite Z.mod_small by lia; lia).
  assert (C3 : CInt.uint16 (c l + 1 + 2) = c l + 3)
    by (unfold CInt.uint16; change (2 ^ 16) with 65536; rewrite Z.mod_small by lia; lia).
  unfold siiPDO_record.
  assert (En : CInt.uint16 (nPDO (PDO l) + 1) = nPDO (PDO l) + 1).
  { unfold CInt.uint16. apply Z.mod_small. unfold EC_MAXEEPDO in Hn. lia. }
  rewrite En. set (n := nPDO (PDO l) + 1).
  assert (Hin : (0 <=? n) && (n <? EC_MAXEEPDO) = true)
    by (apply in_table; subst n; unfold EC_MAXEEPDO in *; lia).
  unfold load, store, fail, next_byte, do_siigetbyte, call, ebind, eret, add_c,
    skip_a, set_PDO.
  sii_fields. rewrite ?Hin.
  rewrite ?A1, ?A2, ?A3, ?A4, ?A5, ?A6, ?A8, ?C1, ?C3.
  repeat (match goal with
          | |- context [ec_siigetbyte mbx ?s ?x ?b] =>
              let H := fresh "Hb" in
              pose proof (Hmem x b) as H;
              destruct (ec_siigetbyte mbx s x b) as [? ?];
              cbn [fst] in H; sii_fields; rewrite ?H; clear H
          end;
          rewrite ?Hin).
  rewrite ?A1, ?A2, ?A3, ?A4, ?A5, ?A6, ?A8, ?C1, ?C3.
  assert (Hupd : forall (f : Z -> Z) (v : Z), upd f n v n = v)
    by (intros f v; unfold upd; rewrite Z.eqb_refl; reflexivity).
  rewrite !Hupd. rewrite ?Me, ?Msm.
  replace (sm <? EC_MAXSM) with true by (symmetry; apply Z.ltb_lt; exact Hsm).
  replace (0 <=? sm) with true by (symmetry; apply Z.leb_le; exact Hsm0).
  cbn [andb].
  assert (Hname : forall (y : Z) (G : Globals Net),
            exists (str : string) (G' : Globals Net),
              (if negb (y =? 0)
               then do_siistring mbx sl y
               else fun s0 : Globals Net => Done (EmptyString, s0)) G = Done (str, G') /\
              Vocabulary.printed (out G') = Vocabulary.printed (out G)).
  { intros y G. destruct (negb (y =? 0)).
    - unfold do_siistring, call.
      destruct (ec_siistring mbx sl y (soem G)) as [str b']. eexists. eexists.
      split; [reflexivity|]. cbn [out]. unfold Vocabulary.printed.
      rewrite filter_app. cbn [filter]. apply app_nil_r.
    - eauto. }
  match goal with
  | |- context [(if negb (?z =? 0) then do_siistring mbx sl ?z else _) ?G] =>
      destruct (Hname z G) as [str [G1 [EG1 HpG1]]]; rewrite EG1
  end.
  cbn [out] in HpG1.
  assert (Hhead : forall (G : Globals Net) (x y : Z) (st : string),
            (if negb (t =? 0)
             then printf "  SM%1d RXPDO 0x%4.4X %s\n" [PInt x; PInt y; PStr st]
             else printf "  SM%1d TXPDO 0x%4.4X %s\n" [PInt x; PInt y; PStr st]) G
            = Done (tt, mk_globals (soem G) (ODlist G) (OElist G)
                          (out G ++ [ev_printf (if negb (t =? 0)
                                                then "  SM%1d RXPDO 0x%4.4X %s\n"
                                                else "  SM%1d TXPDO 0x%4.4X %s\n")
                                       [PInt x; PInt y; PStr st]]))).
  { intros G x y st. destruct (negb (t =? 0)); unfold printf, emodify; reflexivity. }
  rewrite Hhead.
  unfold printf at 1, emodify at 1. sii_fields.
  match goal with
  | |- context [siiPDO_entries mbx dtype2string (Z.to_nat e) sl mapoffset ?L0 ?G] =>
      destruct (siiPDO_entries_fillers sl mapoffset L mem Hmem (Z.to_nat e) L0 G)
        as [l2 [g2 [E2 [Hc2 [Hn2 [Hl2 [Hs2 [Hb2 [Hz2 Hp2]]]]]]]]];
      try solve [sii_fields; rewrite ?Z2Nat.id by lia; subst n;
                 unfold EC_MAXEEPDO in *; lia];
      [ sii_fields; rewrite Z2Nat.id by lia; exact Hfill | rewrite E2 ]
  end.
  sii_fields_in Hc2. sii_fields_in Hn2. sii_fields_in Hl2. sii_fields_in Hs2.
  sii_fields_in Hb2. sii_fields_in Hz2. cbn [out] in Hp2.
  rewrite Z2Nat.id in Hc2, Hb2, Hz2 by lia.
  sii_fields. rewrite Hn2.
  replace (n >=? EC_MAXEEPDO - 1) with false
    by (symmetry; rewrite Z.geb_leb; apply Z.leb_gt; subst n; unfold EC_MAXEEPDO in *; lia).
  eexists. eexists. exists str. split; [reflexivity|]. sii_fields.
  split.
  { rewrite Hc2. unfold CInt.uint16. change (2 ^ 16) with 65536.
    rewrite Z.mod_small by lia. lia. }
  split; [exact Hl2|]. split; [exact Hb2|]. split; [exact Hz2|].
  rewrite Hp2. unfold Vocabulary.printed in *. rewrite !filter_app. cbn [filter app].
  rewrite !filter_app in HpG1. cbn [filter app] in HpG1. rewrite !app_nil_r in HpG1.
  rewrite HpG1, <- !app_assoc. reflexivity.
Qed.

(** The descriptor-memory strategy on a section that holds one record, for
    a sync manager below [EC_MAXSM], whose entries are all fillers. *)
Lemma si_siiPDO_filler_section :
  forall (fuel : nat) (sl t mapoffset bo start len e sm L : Z) (mem : Z -> Z)
         (g : Globals Net),
    (1 <= fuel)%nat ->
    reads_memory mbx sl mem ->
    CInt.uint16 (fst (ec_siifind mbx sl (ECT_SII_PDO + (if t >? 1 then 1 else t)) (soem g)))
    = start ->
    0 < start -> start + 10 + 8 * e < 65536 ->
    filler_section mem start len e sm L ->
    sm < EC_MAXSM ->
    CInt.INT_MIN <= bo -> bo + 255 * e <= CInt.INT_MAX ->
    exists (g' : Globals Net) (name : string),
      si_siiPDO mbx dtype2string fuel sl t mapoffset bo g = Done (e * L, g') /\
      Vocabulary.printed (out g')
      = Vocabulary.printed (out g)
        ++ [ev_printf (if negb ((if t >? 1 then 1 else t) =? 0)
                       then "  SM%1d RXPDO 0x%4.4X %s\n"
                       else "  SM%1d TXPDO 0x%4.4X %s\n")
              [PInt sm;
               PInt (CInt.uint16 (mem (start + 2) + Z.shiftl (mem (start + 3)) 8));
               PStr name];
            ev_printf "     addr b   index: sub bitl data_type    name\n" []].
Proof.
  intros fuel sl t mapoffset bo start len e sm L mem g Hfuel Hmem Hfind Hpos Hend
         [Hlen [Hlast [Me [Msm Hfill]]]] Hsm Ho1 Ho2.
  assert (He : 0 <= e <= 255).
  { rewrite <- Me, <- (Hmem (start + 4) (soem g)). apply uint8_range. }
  assert (A1 : CInt.uint16 (start + 1) = start + 1)
    by (unfold CInt.uint16; change (2 ^ 16) with 65536; rewrite Z.mod_small by lia; lia).
  assert (A2 : CInt.uint16 (start + 1 + 1) = start + 2)
    by (unfold CInt.uint16; change (2 ^ 16) with 65536; rewrite Z.mod_small by lia; lia).
  unfold si_siiPDO. unfold ebind at 1. unfold egets at 1. unfold ebind at 1.
  unfold siiPDO_locals. unfold ebind at 1. unfold do_siifind, call.
  destruct (ec_siifind mbx sl (ECT_SII_PDO + (if t >? 1 then 1 else t)) (soem g))
    as [pos b1].
  cbn [fst] in Hfind. cbn [Startpos Index SyncM BitSize SMbitsize]. rewrite Hfind.
  replace (start >? 0) with true by (symmetry; apply Z.gtb_lt; lia).
  unfold next_byte, do_siigetbyte, call, ebind, eret.
  sii_fields. rewrite ?A1.
  sii_read_mem Hmem. rewrite ?A1, ?A2, ?Hlen.
  destruct fuel as [|fuel]; [exfalso; lia|]. cbn [siiPDO_walk]. unfold ebind.
  match goal with
  | |- context [siiPDO_record mbx dtype2string sl ?t' mapoffset ?L0 ?G] =>
      destruct (siiPDO_record_fillers sl t' mapoffset L e sm mem L0 G Hmem)
        as [l1 [g1 [name [E1 [Hc1 [Hl1 [Hb1 [Hz1 Hp1]]]]]]]];
      try solve [sii_fields; unfold EC_MAXEEPDO, CInt.INT_MIN, CInt.INT_MAX in *; lia];
      [ sii_fields; replace (start + 2 + 2) with (start + 4) by lia; exact Me
      | sii_fields; replace (start + 2 + 3) with (start + 5) by lia; exact Msm
      | sii_fields; intros j Hj;
        replace (start + 2 + 8 + 8 * j) with (start + 10 + 8 * j) by lia;
        apply Hfill; exact Hj
      | rewrite E1 ]
  end.
  sii_fields_in Hc1. sii_fields_in Hl1. sii_fields_in Hz1. sii_fields_in Hp1.
  replace (c l1 <? Length (PDO l1)) with false
    by (symmetry; apply Z.ltb_ge; rewrite Hc1, Hl1; lia).
  replace (start + 2 + 1) with (start + 3) in Hp1 by lia.
  unfold Vocabulary.printed in *.
  rewrite !filter_app in Hp1. cbn [filter app] in Hp1. rewrite !app_nil_r in Hp1.
  unfold eret at 1.
  destruct (negb (eep_pdi (ec_slave (soem g) sl) =? 0)).
  - unfold do_eeprom2pdi, call.
    destruct (ec_eeprom2pdi mbx sl (soem g1)) as [x b4].
    eexists. exists name. split; [unfold eret; rewrite Hz1; reflexivity|].
    cbn [out]. rewrite filter_app. cbn [filter]. rewrite app_nil_r. exact Hp1.
  - eexists. exists name. split; [unfold eret; rewrite Hz1; reflexivity|]. exact Hp1.
Qed.

(** A PDO record for a sync manager out of range is stepped over: no entry
    of it is read. *)
Lemma siiPDO_record_unassigned :
  forall (sl t mapoffset : Z) (l : sii_locals) (g : Globals Net) (lo hi e sm : Z),
    fst (sii_bytes mbx sl 4 (a l) (soem g)) = [lo; hi; e; sm] ->
    EC_MAXSM <= sm ->
    0 <= nPDO (PDO l) < EC_MAXEEPDO - 2 ->
    exists (l' : sii_locals) (g' : Globals Net),
      siiPDO_record mbx dtype2string sl t mapoffset l g = Done (l', g') /\
      Vocabulary.printed (out g') = Vocabulary.printed (out g) /\
      List.length (out g') = (List.length (out g) + 5)%nat /\
      totalsize l' = totalsize l /\
      bitoffset l' = bitoffset l /\
      SMbitsize (PDO l') = SMbitsize (PDO l) /\
      a l' = CInt.uint16 (a l + 8 + 8 * e) /\
      c l' = CInt.uint16 (c l + 4 + 4 * e).
Proof.
  intros sl t mapoffset l g lo hi e sm Hbytes Hsm Hn.
  cbn [sii_bytes] in Hbytes.
  destruct (ec_siigetbyte mbx sl (a l) (soem g)) as [v1 b1] eqn:E1.
  destruct (ec_siigetbyte mbx sl (CInt.uint16 (a l + 1)) b1) as [v2 b2] eqn:E2.
  destruct (ec_siigetbyte mbx sl (CInt.uint16 (CInt.uint16 (a l + 1) + 1)) b2)
    as [v3 b3] eqn:E3.
  destruct (ec_siigetbyte mbx sl
              (CInt.uint16 (CInt.uint16 (CInt.uint16 (a l + 1) + 1) + 1)) b3)
    as [v4 b4] eqn:E4.
  cbn [fst] in Hbytes. injection Hbytes as H1 H2 H3 H4.
  unfold siiPDO_record.
  assert (En : CInt.uint16 (nPDO (PDO l) + 1) = nPDO (PDO l) + 1).
  { unfold CInt.uint16. apply Z.mod_small. unfold EC_MAXEEPDO in Hn. lia. }
  rewrite En. set (n := nPDO (PDO l) + 1).
  assert (Hin : (0 <=? n) && (n <? EC_MAXEEPDO) = true)
    by (apply in_table; subst n; unfold EC_MAXEEPDO in *; lia).
  unfold load, store, fail, next_byte, do_siigetbyte, call, ebind, eret, add_c,
    skip_a, set_PDO.
  sii_fields. rewrite ?Hin.
  rewrite E1. sii_fields. rewrite ?Hin.
  rewrite E2. sii_fields. rewrite ?Hin.
  rewrite E3. sii_fields. rewrite ?Hin.
  rewrite E4. sii_fields. rewrite ?Hin.
  sii_read_bytes. rewrite ?Hin.
  assert (Hupd : forall (f : Z -> Z) (v : Z), upd f n v n = v)
    by (intros f v; unfold upd; rewrite Z.eqb_refl; reflexivity).
  rewrite !Hupd. rewrite H3, H4.
  replace (sm <? EC_MAXSM) with false by (symmetry; apply Z.ltb_ge; exact Hsm).
  sii_fields.
  replace (n >=? EC_MAXEEPDO - 1) with false
    by (symmetry; rewrite Z.geb_leb; apply Z.leb_gt; subst n; unfold EC_MAXEEPDO in *; lia).
  eexists. eexists. split; [reflexivity|]. sii_fields.
  split.
  { unfold Vocabulary.printed. rewrite <- !app_assoc, filter_app. cbn. apply app_nil_r. }
  split.
  { rewrite <- !app_assoc, length_app. reflexivity. }
  split; [reflexivity|]. split; [reflexivity|]. split; [reflexivity|].
  unfold CInt.uint16. change (2 ^ 16) with 65536.
  split.
  - Z.div_mod_to_equations. lia.
  - Z.div_mod_to_equations. lia.
Qed.

(** C7 (as amended).  A PDO sub-entry whose object index and sub-index are
    both zero is a filler.  Each filler entry a mapping strategy reads gives
    no named mapping row, and its bit length is added to the running bit
    offset and to the size: in the dictionary-driven strategy
    ([si_PDOassign]) the entry is not looked up in the dictionary and only
    its address line is printed, closed without a data type or a name; in the
    descriptor-memory strategy ([si_siiPDO]) nothing at all is printed for
    it.  So an assigned PDO of [n] fillers of [L] bits makes [si_PDOassign]
    return [n * L] with [n] address lines whose offsets advance by [L], and a
    record of [e] fillers of [L] bits for a sync manager below [EC_MAXSM]
    makes [si_siiPDO] return [e * L] with the two heading lines of the record
    only.  The descriptor-memory strategy reads the entries of a record only
    when its sync manager number is below [EC_MAXSM]: the entries of any
    other record, fillers or not, are stepped over unread and add nothing to
    offset and size. *)
Theorem filler_entry_maps_nothing_but_advances_offset :
  (forall (g : Globals Net) (sl idx subidxloop mapoffset bsize bitoffset0 : Z)
          (l : sii_locals) (nm dt bl : Z),
     let rd := ec_SDOread mbx sl idx (CInt.uint8 subidxloop) false 4 EC_TIMEOUTRXM (soem g) in
     let rdat2 := CInt.int32 (snd (fst rd)) in
     word_obj_idx rdat2 = 0 -> word_obj_subidx rdat2 = 0 ->
     fst (sii_bytes mbx sl 6 (a l) (soem g)) = [0; 0; 0; nm; dt; bl] ->
     0 <= nPDO (PDO l) < EC_MAXEEPDO ->
     CInt.INT_MIN <= bsize -> bsize + 255 <= CInt.INT_MAX ->
     CInt.INT_MIN <= bitoffset0 -> bitoffset0 + 255 <= CInt.INT_MAX ->
     CInt.INT_MIN <= bitoffset l -> bitoffset l + 255 <= CInt.INT_MAX ->
     CInt.INT_MIN <= totalsize l -> totalsize l + 255 <= CInt.INT_MAX ->
     (exists g' : Globals Net,
        PDOassign_entry mbx dtype2string sl idx subidxloop mapoffset (bsize, bitoffset0) g
        = Done ((bsize + word_bitlen rdat2, bitoffset0 + word_bitlen rdat2), g') /\
        out g'
        = out g ++
          [ev_SDOread sl idx (CInt.uint8 subidxloop) false 4 EC_TIMEOUTRXM;
           ev_printf "  [0x%4.4X.%1d] 0x%4.4X:0x%2.2X 0x%2.2X"
             [PInt (CInt.int32 (mapoffset + Z.quot bitoffset0 8));
              PInt (Z.rem bitoffset0 8); PInt 0; PInt 0; PInt (word_bitlen rdat2)];
           ev_printf "\n" []]) /\
     (exists (l' : sii_locals) (g' : Globals Net),
        siiPDO_entry mbx dtype2string sl mapoffset l g = Done (l', g') /\
        bitoffset l' = bitoffset l + bl /\
        totalsize l' = totalsize l + bl /\
        out g' = out g ++ sii_reads sl 6 (a l))) /\
  (forall (fuel : nat) (sl PDOassign mapoffset bo idx n L : Z) (g : Globals Net),
     (1 <= fuel)%nat ->
     fst (fst (ec_SDOread mbx sl PDOassign 0 false 2 EC_TIMEOUTRXM (soem g))) > 0 ->
     CInt.uint16 (snd (fst (ec_SDOread mbx sl PDOassign 0 false 2 EC_TIMEOUTRXM (soem g))))
     = 1 ->
     (forall b : Bus Net,
        CInt.uint16 (snd (fst (ec_SDOread mbx sl PDOassign 1 false 2 EC_TIMEOUTRXM b)))
        = idx) ->
     idx > 0 ->
     (forall b : Bus Net,
        CInt.uint8 (snd (fst (ec_SDOread mbx sl idx 0 false 1 EC_TIMEOUTRXM b))) = n) ->
     (forall (s : Z) (b : Bus Net), 1 <= s <= n ->
        let w := CInt.int32 (snd (fst (ec_SDOread mbx sl idx s false 4 EC_TIMEOUTRXM b))) in
        word_obj_idx w = 0 /\ word_obj_subidx w = 0 /\ word_bitlen w = L) ->
     CInt.INT_MIN <= bo -> bo + 255 * n <= CInt.INT_MAX ->
     exists g' : Globals Net,
       si_PDOassign mbx dtype2string fuel sl PDOassign mapoffset bo g = Done (n * L, g') /\
       Vocabulary.printed (out g')
       = Vocabulary.printed (out g) ++ filler_rows mapoffset bo L (Z.to_nat n) /\
       lookups (out g') = lookups (out g)) /\
  (forall (fuel : nat) (sl t mapoffset bo start len e sm L : Z) (mem : Z -> Z)
          (g : Globals Net),
     (1 <= fuel)%nat ->
     reads_memory mbx sl mem ->
     CInt.uint16 (fst (ec_siifind mbx sl (ECT_SII_PDO + (if t >? 1 then 1 else t)) (soem g)))
     = start ->
     0 < start -> start + 10 + 8 * e < 65536 ->
     filler_section mem start len e sm L ->
     sm < EC_MAXSM ->
     CInt.INT_MIN <= bo -> bo + 255 * e <= CInt.INT_MAX ->
     exists (g' : Globals Net) (name : string),
       si_siiPDO mbx dtype2string fuel sl t mapoffset bo g = Done (e * L, g') /\
       Vocabulary.printed (out g')
       = Vocabulary.printed (out g)
         ++ [ev_printf (if negb ((if t >? 1 then 1 else t) =? 0)
                        then "  SM%1d RXPDO 0x%4.4X %s\n"
                        else "  SM%1d TXPDO 0x%4.4X %s\n")
               [PInt sm;
                PInt (CInt.uint16 (mem (start + 2) + Z.shiftl (mem (start + 3)) 8));
                PStr name];
             ev_printf "     addr b   index: sub bitl data_type    name\n" []]) /\
  (forall (sl t mapoffset : Z) (l : sii_locals) (g : Globals Net) (lo hi e sm : Z),
     fst (sii_bytes mbx sl 4 (a l) (soem g)) = [lo; hi; e; sm] ->
     EC_MAXSM <= sm ->
     0 <= nPDO (PDO l) < EC_MAXEEPDO - 2 ->
     exists (l' : sii_locals) (g' : Globals Net),
       siiPDO_record mbx dtype2string sl t mapoffset l g = Done (l', g') /\
       Vocabulary.printed (out g') = Vocabulary.printed (out g) /\
       List.length (out g') = (List.length (out g) + 5)%nat /\
       totalsize l' = totalsize l /\
       bitoffset l' = bitoffset l /\
       a l' = CInt.uint16 (a l + 8 + 8 * e) /\
       c l' = CInt.uint16 (c l + 4 + 4 * e)).
Proof.
  split; [|split; [|split]].
  - intros g sl idx subidxloop mapoffset bsize bitoffset0 l nm dt bl rd rdat2
           Hidx Hsub Hbytes Hn Hb1 Hb2 Ho1 Ho2 Hl1 Hl2 Ht1 Ht2.
    split.
    + apply PDOassign_filler_entry; assumption.
    + apply (siiPDO_filler_entry g sl mapoffset l nm dt bl); assumption.
  - intros fuel sl PDOassign mapoffset bo idx n L g. apply si_PDOassign_filler_pdo.
  - intros fuel sl t mapoffset bo start len e sm L mem g.
    apply si_siiPDO_filler_section.
  - intros sl t mapoffset l g lo hi e sm Hbytes Hsm Hn.
    destruct (siiPDO_record_unassigned sl t mapoffset l g lo hi e sm Hbytes Hsm Hn)
      as [l' [g' [E [Hp [Hlen [Ht [Hb [_ [Ha Hc]]]]]]]]].
    exists l', g'. repeat split; assumption.
Qed.

(** An entry of a PDO record whose number is inside the table is read
    without a fault and leaves the record count and the section length
    alone. *)
Lemma siiPDO_entry_ok :
  forall (sl mapoffset : Z) (l : sii_locals) (g : Globals Net),
    0 <= nPDO (PDO l) < EC_MAXEEPDO ->
    exists (l' : sii_locals) (g' : Globals Net),
      siiPDO_entry mbx dtype2string sl mapoffset l g = Done (l', g') /\
      nPDO (PDO l') = nPDO (PDO l) /\
      Length (PDO l') = Length (PDO l).
Proof.
  intros sl mapoffset l g Hn.
  unfold siiPDO_entry.
  unfold next_byte, do_siigetbyte, call, ebind, eret, add_c.
  cbn [a c PDO bitoffset totalsize soem out ODlist OElist].
  repeat (match goal with
          | |- context [ec_siigetbyte mbx ?s ?x ?b] =>
              destruct (ec_siigetbyte mbx s x b) as [? ?]
          end;
          cbn [a c PDO bitoffset totalsize soem out ODlist OElist]).
  unfold load, store, fail, eret. rewrite (in_table EC_MAXEEPDO _ Hn).
  unfold skip_a, set_PDO.
  cbn [a c PDO bitoffset totalsize soem out ODlist OElist].
  destruct (negb (CInt.uint16 _ =? 0) || negb (CInt.uint8 _ =? 0)).
  - destruct (negb (CInt.uint8 _ =? 0)).
    + unfold do_siistring, call. cbn [soem out ODlist OElist].
      match goal with
      | |- context [ec_siistring mbx ?s ?x ?b] =>
          destruct (ec_siistring mbx s x b) as [? ?]
      end.
      unfold printf, emodify. cbn. eexists. eexists. split; [reflexivity|]. split; reflexivity.
    + unfold printf, emodify. cbn. eexists. eexists. split; [reflexivity|]. split; reflexivity.
  - eexists. eexists. split; [reflexivity|]. split; reflexivity.
Qed.

Lemma siiPDO_entries_ok :
  forall (n : nat) (sl mapoffset : Z) (l : sii_locals) (g : Globals Net),
    0 <= nPDO (PDO l) < EC_MAXEEPDO ->
    exists (l' : sii_locals) (g' : Globals Net),
      siiPDO_entries mbx dtype2string n sl mapoffset l g = Done (l', g') /\
      nPDO (PDO l') = nPDO (PDO l) /\
      Length (PDO l') = Length (PDO l).
Proof.
  induction n as [|n IH]; intros sl mapoffset l g Hn; cbn [siiPDO_entries].
  - exists l, g. repeat split.
  - unfold ebind.
    destruct (siiPDO_entry_ok sl mapoffset l g Hn) as [l1 [g1 [E1 [Hn1 Hl1]]]].
    rewrite E1.
    destruct (IH sl mapoffset l1 g1) as [l2 [g2 [E2 [Hn2 Hl2]]]]; [rewrite Hn1; exact Hn|].
    exists l2, g2. rewrite E2. repeat split; congruence.
Qed.

(** One PDO record, read while the table still has a free cell beyond it:
    no fault, one more record counted, and the walk is told to stop once the
    count reaches [EC_MAXEEPDO - 1]. *)
Lemma siiPDO_record_ok :
  forall (sl t mapoffset : Z) (l : sii_locals) (g : Globals Net),
    0 <= nPDO (PDO l) < EC_MAXEEPDO - 1 ->
    exists (l' : sii_locals) (g' : Globals Net),
      siiPDO_record mbx dtype2string sl t mapoffset l g = Done (l', g') /\
      nPDO (PDO l') = nPDO (PDO l) + 1 /\
      Length (PDO l') = Length (PDO l) /\
      (EC_MAXEEPDO - 1 <= nPDO (PDO l') -> c l' = Length (PDO l')).
Proof.
  intros sl t mapoffset l g Hn.
  unfold siiPDO_record.
  assert (En : CInt.uint16 (nPDO (PDO l) + 1) = nPDO (PDO l) + 1).
  { unfold CInt.uint16. apply Z.mod_small. unfold EC_MAXEEPDO in Hn. lia. }
  rewrite En. set (n := nPDO (PDO l) + 1).
  assert (Hin : (0 <=? n) && (n <? EC_MAXEEPDO) = true) by (apply in_table; subst n; lia).
  unfold load, store, fail, next_byte, do_siigetbyte, call, ebind, eret, add_c,
    skip_a, set_PDO.
  cbn [a c PDO bitoffset totalsize soem out ODlist OElist
       Startpos Length nPDO Index SyncM BitSize SMbitsize
       with_PDO_nPDO with_PDO_Index with_PDO_SyncM with_PDO_BitSize].
  rewrite ?Hin.
  repeat (match goal with
          | |- context [ec_siigetbyte mbx ?s ?x ?b] =>
              destruct (ec_siigetbyte mbx s x b) as [? ?]
          end;
          cbn [a c PDO bitoffset totalsize soem out ODlist OElist
               Startpos Length nPDO Index SyncM BitSize SMbitsize
               with_PDO_nPDO with_PDO_Index with_PDO_SyncM with_PDO_BitSize];
          rewrite ?Hin).
  assert (Hupd : forall (f : Z -> Z) (v : Z), upd f n v n = v)
    by (intros f v; unfold upd; rewrite Z.eqb_refl; reflexivity).
  rewrite !Hupd.
  match goal with
  | |- context [CInt.uint8 ?z <? EC_MAXSM] =>
      assert (Hsm0 : (0 <=? CInt.uint8 z) = true)
        by (apply Z.leb_le; pose proof (uint8_range z); lia);
      rewrite ?Hsm0;
      destruct (CInt.uint8 z <? EC_MAXSM)
  end.
  - cbn [andb].
    assert (Hname : forall (y : Z) (G : Globals Net),
              exists (str : string) (G' : Globals Net),
                (if negb (CInt.uint8 y =? 0)
                 then do_siistring mbx sl (CInt.uint8 y)
                 else fun s0 : Globals Net => Done (EmptyString, s0)) G = Done (str, G')).
    { intros y G. destruct (negb (CInt.uint8 y =? 0)).
      - unfold do_siistring, call.
        destruct (ec_siistring mbx sl (CInt.uint8 y) (soem G)) as [str b']. eauto.
      - eauto. }
    match goal with
    | |- context [(if negb (CInt.uint8 ?z =? 0) then _ else _) ?G] =>
        destruct (Hname z G) as [str [G1 EG1]]; rewrite EG1
    end.
    assert (Hhead : forall (G : Globals Net) (x y : Z) (st : string),
              exists G' : Globals Net,
                (if negb (t =? 0)
                 then printf "  SM%1d RXPDO 0x%4.4X %s\n" [PInt x; PInt y; PStr st]
                 else printf "  SM%1d TXPDO 0x%4.4X %s\n" [PInt x; PInt y; PStr st]) G
                = Done (tt, G')).
    { intros G x y st. destruct (negb (t =? 0)); unfold printf, emodify; eauto. }
    match goal with
    | |- context [(if negb (t =? 0) then printf _ [PInt ?x; PInt ?y; PStr ?st] else _) ?G] =>
        destruct (Hhead G x y st) as [G2 EG2]; rewrite EG2
    end.
    unfold printf at 1, emodify at 1.
    match goal with
    | |- context [siiPDO_entries mbx dtype2string ?k sl mapoffset ?L ?G] =>
        destruct (siiPDO_entries_ok k sl mapoffset L G) as [l2 [g2 [E2 [Hn2 Hl2]]]];
        [ cbn; subst n; lia | rewrite E2 ]
    end.
    cbn in Hn2, Hl2.
    cbn [a c PDO bitoffset totalsize soem out ODlist OElist
         Startpos Length nPDO Index SyncM BitSize SMbitsize
         with_PDO_nPDO with_PDO_Index with_PDO_SyncM with_PDO_BitSize
         with_PDO_SMbitsize].
    rewrite Hn2, Hl2.
    destruct (Z.geb_spec n (EC_MAXEEPDO - 1)) as [Hcap|Hcap].
    + eexists. eexists. split; [reflexivity|].
      cbn. rewrite Hn2, Hl2. repeat split; auto.
    + eexists. eexists. split; [reflexivity|].
      cbn. rewrite Hn2, Hl2. repeat split; auto. intros; unfold EC_MAXEEPDO in *; subst n; lia.
  - cbn [a c PDO bitoffset totalsize soem out ODlist OElist
         Startpos Length nPDO Index SyncM BitSize SMbitsize
         with_PDO_nPDO with_PDO_Index with_PDO_SyncM with_PDO_BitSize
         with_PDO_SMbitsize].
    destruct (Z.geb_spec n (EC_MAXEEPDO - 1)) as [Hcap|Hcap].
    + eexists. eexists. split; [reflexivity|].
      cbn. repeat split; auto.
    + eexists. eexists. split; [reflexivity|].
      cbn. repeat split; auto. intros; unfold EC_MAXEEPDO in *; subst n; lia.
Qed.

(** The walk, entered with room in the table and fuel for the records that
    are left, ends without a fault. *)
Lemma siiPDO_walk_ok :
  forall (fuel : nat) (sl t mapoffset : Z) (l : sii_locals) (g : Globals Net),
    0 <= nPDO (PDO l) < EC_MAXEEPDO - 1 ->
    (Z.to_nat (EC_MAXEEPDO - 1 - nPDO (PDO l)) <= fuel)%nat ->
    exists (l' : sii_locals) (g' : Globals Net),
      siiPDO_walk mbx dtype2string fuel sl t mapoffset l g = Done (l', g') /\
      nPDO (PDO l) < nPDO (PDO l') <= EC_MAXEEPDO - 1.
Proof.
  induction fuel as [|fuel IH]; intros sl t mapoffset l g Hn Hfuel.
  - exfalso. lia.
  - cbn [siiPDO_walk]. unfold ebind.
    destruct (siiPDO_record_ok sl t mapoffset l g Hn) as [l1 [g1 [E1 [Hn1 [Hl1 Hcap]]]]].
    rewrite E1.
    destruct (Z.ltb_spec (c l1) (Length (PDO l1))) as [Hmore|Hdone].
    + assert (Hroom : nPDO (PDO l1) < EC_MAXEEPDO - 1).
      { destruct (Z_lt_le_dec (nPDO (PDO l1)) (EC_MAXEEPDO - 1)) as [H|H]; [exact H|].
        apply Hcap in H. lia. }
      destruct (IH sl t mapoffset l1 g1) as [l2 [g2 [E2 Hn2]]]; [lia | lia |].
      exists l2, g2. split; [exact E2 | lia].
    + exists l1, g1. split; [reflexivity | lia].
Qed.

(** C6.  Whatever the descriptor memory of the slave holds, and so whatever
    section length it declares, the walk of [si_siiPDO] over the PDO records
    ends once it is given fuel for [EC_MAXEEPDO - 1] records: it returns, no
    cell outside the record table or the per-manager table is read or
    written, and the record count [nPDO], which starts at zero and goes up by
    one with every record processed, is at most [EC_MAXEEPDO - 1]. *)
Theorem siiPDO_walk_ends_within_record_table :
  forall (fuel : nat) (sl t mapoffset bitoffset0 : Z) (g : Globals Net),
    (Z.to_nat (EC_MAXEEPDO - 1) <= fuel)%nat ->
    exists (l : sii_locals) (g' g'' : Globals Net),
      siiPDO_locals mbx dtype2string fuel sl t mapoffset bitoffset0 g = Done (l, g') /\
      si_siiPDO mbx dtype2string fuel sl t mapoffset bitoffset0 g
      = Done (totalsize l, g'') /\
      0 <= nPDO (PDO l) <= EC_MAXEEPDO - 1.
Proof.
  intros fuel sl t mapoffset bitoffset0 g Hfuel.
  assert (Hlocals : exists (l : sii_locals) (g' : Globals Net),
            siiPDO_locals mbx dtype2string fuel sl t mapoffset bitoffset0 g = Done (l, g') /\
            0 <= nPDO (PDO l) <= EC_MAXEEPDO - 1).
  { unfold siiPDO_locals. unfold ebind at 1. unfold do_siifind, call.
    destruct (ec_siifind mbx sl _ (soem g)) as [pos b1].
    cbn [Startpos Index SyncM BitSize SMbitsize].
    destruct (CInt.uint16 pos >? 0).
    - unfold next_byte, do_siigetbyte, call, ebind, eret.
      cbn [a c PDO bitoffset totalsize soem out ODlist OElist].
      repeat (match goal with
              | |- context [ec_siigetbyte mbx ?s ?x ?b] =>
                  destruct (ec_siigetbyte mbx s x b) as [? ?]
              end;
              cbn [a c PDO bitoffset totalsize soem out ODlist OElist]).
      match goal with
      | |- context [siiPDO_walk mbx dtype2string fuel sl ?t' mapoffset ?L ?G] =>
          destruct (siiPDO_walk_ok fuel sl t' mapoffset L G) as [l2 [g2 [E2 Hn2]]];
          [ cbn; unfold EC_MAXEEPDO; lia | cbn [PDO nPDO]; unfold EC_MAXEEPDO in *; lia | ]
      end.
      exists l2, g2. split; [exact E2|]. cbn [PDO nPDO] in Hn2. unfold EC_MAXEEPDO in *. lia.
    - eexists. eexists. split; [reflexivity|]. cbn. unfold EC_MAXEEPDO. lia. }
  destruct Hlocals as [l [g' [E Hn]]].
  unfold si_siiPDO. unfold ebind at 1. unfold egets at 1.
  unfold ebind at 1. rewrite E.
  destruct (negb (eep_pdi (ec_slave (soem g) sl) =? 0)).
  - unfold ebind, do_eeprom2pdi, call, eret.
    destruct (ec_eeprom2pdi mbx sl (soem g')) as [x b2].
    exists l, g'. eexists. split; [reflexivity|]. split; [reflexivity | exact Hn].
  - unfold ebind, eret. exists l, g', g'. split; [reflexivity|]. split; [reflexivity | exact Hn].
Qed.

End Facts.

(** C5 on a slave whose four synchronization managers report the types
    0, 1, 2, 3 where 1, 2, 3, 4 are meant: manager 2 is mapped as outputs and
    manager 3 as inputs. *)
Example workaround_maps_shifted_types :
  let dict := fun index sub : Z =>
                if index =? ECT_SDO_SMCOMMTYPE
                then (if sub =? 0 then 4 else sub - 1)
                else 0 in
  match si_map_sdo (Bench.rom (fun _ => 0) dict) Bench.plain_dtype2string 10 1
          Bench.tool_start with
  | Done (_, g') =>
      filter (fun e => match e with ev_printf _ _ => true | _ => false end) (out g')
      = [ev_printf "PDO mapping according to CoE :\n" [];
         ev_printf "Activated SM type workaround, possible incorrect mapping.\n" [];
         ev_printf "  SM%1d outputs\n     addr b   index: sub bitl data_type    name\n" [PInt 2];
         ev_printf "  SM%1d inputs\n     addr b   index: sub bitl data_type    name\n" [PInt 3]]
  | Fault _ => False
  end.
Proof.
  vm_compute. reflexivity.
Qed.

(** C6 on a descriptor memory that reads 0xff everywhere: the section
    declares 65535 words and every record names a manager out of range; the
    walk stops at record 511. *)
Example walk_stops_at_the_cap :
  match siiPDO_locals (Bench.rom (fun _ => 255) (fun _ _ => 0)) Bench.plain_dtype2string
          511 1 1 0 0 Bench.tool_start with
  | Done (l, _) => Length (PDO l) = 65535 /\ nPDO (PDO l) = EC_MAXEEPDO - 1
  | Fault _ => False
  end.
Proof.
  vm_compute. split; reflexivity.
Qed.

(** The walk on the memory that reads 0xff everywhere, with fuel for 511
    records. *)
Lemma siiPDO_walk_ends_witness :
  let mbx := Bench.rom (fun _ => 255) (fun _ _ => 0) in
  (Z.to_nat (EC_MAXEEPDO - 1) <= 511)%nat /\
  exists (l : sii_locals) (g' g'' : Globals unit),
    siiPDO_locals mbx Bench.plain_dtype2string 511 1 1 0 0 Bench.tool_start = Done (l, g') /\
    si_siiPDO mbx Bench.plain_dtype2string 511 1 1 0 0 Bench.tool_start
    = Done (totalsize l, g'') /\
    0 <= nPDO (PDO l) <= EC_MAXEEPDO - 1.
Proof.
  intros mbx.
  assert (H : (Z.to_nat (EC_MAXEEPDO - 1) <= 511)%nat) by (vm_compute; lia).
  split; [exact H|].
  apply (siiPDO_walk_ends_within_record_table unit mbx Bench.plain_dtype2string
           511%nat 1 1 0 0 Bench.tool_start H).
Defined.

(** C7, refuted as the specification words it.  A section of the descriptor
    memory that holds one record of one entry, a filler of 16 bits, walked
    from bit offset 5.  When the record names sync manager 255 the entry is
    never read: the walk ends with the bit offset still at 5 and the size
    at 0, and [si_siiPDO] returns 0.  The same section with the record naming
    sync manager 2 ends at bit offset 21 with size 16. *)
Lemma filler_entry_of_unassigned_pdo_advances_nothing :
  let mem (sm : Z) : Z -> Z :=
    fun x => if x =? 64 then 8 else if x =? 68 then 1 else if x =? 69 then sm
             else if x =? 79 then 16 else 0 in
  let slave (sm : Z) := Bench.rom (mem sm) (fun _ _ => 0) in
  let walk (sm : Z) :=
    siiPDO_locals (slave sm) Bench.plain_dtype2string 1 1 1 0 5 Bench.tool_start in
  let size (sm : Z) :=
    si_siiPDO (slave sm) Bench.plain_dtype2string 1 1 1 0 5 Bench.tool_start in
  fst (sii_bytes (slave 255) 1 6 74 (soem Bench.tool_start)) = [0; 0; 0; 0; 0; 16] /\
  (exists (l : sii_locals) (g g' : Globals unit),
     walk 255 = Done (l, g) /\ bitoffset l = 5 /\ totalsize l = 0 /\
     Vocabulary.printed (out g) = [] /\
     size 255 = Done (0, g')) /\
  (exists (l : sii_locals) (g g' : Globals unit),
     walk 2 = Done (l, g) /\ bitoffset l = 21 /\ totalsize l = 16 /\
     size 2 = Done (16, g')).
Proof.
  vm_compute. split; [reflexivity|]. split.
  - eexists. eexists. eexists. repeat split.
  - eexists. eexists. eexists. repeat split.
Qed.

(** The amended statement at work: one filler entry read by each strategy; a
    PDO of two fillers of 8 bits in the dictionary; a record of one filler of
    16 bits for sync manager 2, and the same record for sync manager 255, in
    the descriptor memory. *)
Lemma filler_entry_witness :
  let mbx := Bench.rom (fun x => if x =? 105 then 16 else 0) (fun _ _ => 8) in
  let g := Bench.tool_start in
  let l := mk_sii_locals 100 1
             (mk_eepromPDO 64 20 1 (fun _ => 0) (fun _ => 0) (fun _ => 0) (fun _ => 0))
             5 5 in
  let dict := Bench.rom (fun _ => 0)
                (fun index sub =>
                   if index =? 7184 then (if sub =? 0 then 1 else 5632)
                   else if sub =? 0 then 2 else 8) in
  let mem (sm : Z) : Z -> Z :=
    fun x => if x =? 64 then 8 else if x =? 68 then 1 else if x =? 69 then sm
             else if x =? 79 then 16 else 0 in
  (fst (sii_bytes mbx 1 6 (a l) (soem g)) = [0; 0; 0; 0; 0; 16] /\
   (exists g' : Globals unit,
      PDOassign_entry mbx Bench.plain_dtype2string 1 5632 1 0 (0, 3) g
      = Done ((8, 11), g') /\
      out g'
      = [ev_SDOread 1 5632 1 false 4 EC_TIMEOUTRXM;
         ev_printf "  [0x%4.4X.%1d] 0x%4.4X:0x%2.2X 0x%2.2X"
           [PInt 0; PInt 3; PInt 0; PInt 0; PInt 8];
         ev_printf "\n" []]) /\
   (exists (l' : sii_locals) (g' : Globals unit),
      siiPDO_entry mbx Bench.plain_dtype2string 1 0 l g = Done (l', g') /\
      bitoffset l' = 21 /\
      totalsize l' = 21 /\
      out g' = sii_reads 1 6 100)) /\
  (exists g' : Globals unit,
     si_PDOassign dict Bench.plain_dtype2string 1 1 7184 0 3 g = Done (16, g') /\
     Vocabulary.printed (out g') = filler_rows 0 3 8 2 /\
     lookups (out g') = []) /\
  (exists (g' : Globals unit) (name : string),
     si_siiPDO (Bench.rom (mem 2) (fun _ _ => 0)) Bench.plain_dtype2string 1 1 1 0 5 g
     = Done (16, g') /\
     Vocabulary.printed (out g')
     = [ev_printf "  SM%1d RXPDO 0x%4.4X %s\n" [PInt 2; PInt 0; PStr name];
        ev_printf "     addr b   index: sub bitl data_type    name\n" []]) /\
  (exists (l' : sii_locals) (g' : Globals unit),
     siiPDO_record (Bench.rom (mem 255) (fun _ _ => 0)) Bench.plain_dtype2string 1 1 0
       (mk_sii_locals 66 1
          (mk_eepromPDO 64 8 0 (fun _ => 0) (fun _ => 0) (fun _ => 0) (fun _ => 0)) 5 0)
       g
     = Done (l', g') /\
     totalsize l' = 0 /\ bitoffset l' = 5 /\ a l' = 82).
Proof.
  intros mbx g l dict mem.
  split; [|split; [|split]].
  - assert (Hbytes : fst (sii_bytes mbx 1 6 (a l) (soem g)) = [0; 0; 0; 0; 0; 16])
      by reflexivity.
    split; [exact Hbytes|].
    apply (proj1 (filler_entry_maps_nothing_but_advances_offset unit mbx
                    Bench.plain_dtype2string)
             g 1 5632 1 0 0 3 l 0 0 16);
      try reflexivity; try exact Hbytes;
      try (unfold CInt.INT_MIN, CInt.INT_MAX, EC_MAXEEPDO; cbn; lia).
  - destruct (proj1 (proj2 (filler_entry_maps_nothing_but_advances_offset unit dict
                              Bench.plain_dtype2string))
                1%nat 1 7184 0 3 5632 2 8 g) as [g' [E [Hp Hk]]];
      try reflexivity; try lia;
      try (unfold CInt.INT_MIN, CInt.INT_MAX; lia).
    + intros s b Hs. cbn.
      assert (Hs0 : (s =? 0) = false) by (apply Z.eqb_neq; lia).
      rewrite Hs0. repeat split.
    + exists g'. split; [exact E|]. split; [exact Hp | exact Hk].
  - destruct (proj1 (proj2 (proj2 (filler_entry_maps_nothing_but_advances_offset unit
                                     (Bench.rom (mem 2) (fun _ _ => 0))
                                     Bench.plain_dtype2string)))
                1%nat 1 1 0 5 64 8 1 2 16 (mem 2) g) as [g' [name [E Hp]]];
      try reflexivity; try lia;
      try (unfold CInt.INT_MIN, CInt.INT_MAX, EC_MAXSM; lia).
    + intros x b. cbn. unfold mem, CInt.uint8.
      repeat (destruct (x =? _); [reflexivity|]). reflexivity.
    + unfold filler_section. split; [reflexivity|]. split; [lia|].
      split; [reflexivity|]. split; [reflexivity|].
      intros k Hk. assert (k = 0) by lia. subst k. repeat split.
    + exists g', name. split; [exact E | exact Hp].
  - destruct (proj2 (proj2 (proj2 (filler_entry_maps_nothing_but_advances_offset unit
                                     (Bench.rom (mem 255) (fun _ _ => 0))
                                     Bench.plain_dtype2string)))
                1 1 0
                (mk_sii_locals 66 1
                   (mk_eepromPDO 64 8 0 (fun _ => 0) (fun _ => 0) (fun _ => 0)
                      (fun _ => 0)) 5 0)
                g 0 0 1 255) as [l' [g' [E [_ [_ [Ht [Hb [Ha _]]]]]]]];
      try reflexivity;
      try (unfold EC_MAXSM, EC_MAXEEPDO; cbn; lia).
    exists l', g'. split; [exact E|]. split; [exact Ht|]. split; [exact Hb | exact Ha].
Defined.

End MappingFacts.

(** * Further properties of the session class *)

Module SessionMore.

Import Session Vocabulary SessionVocabulary SessionFacts.

Lemma count_statechecks_app :
  forall l1 l2 : list event,
    count_statechecks (l1 ++ l2) = (count_statechecks l1 + count_statechecks l2)%nat.
Proof.
  intros l1 l2. unfold count_statechecks. rewrite filter_app, length_app. reflexivity.
Qed.

Section Facts.

Variable Net : Type.
Variable drv : Driver Net.
Variable sprintf : string -> list parg -> string.

(** The polling loop keeps what its body keeps. *)
Lemma poll_until_keeps :
  forall (body : M (St Net) unit) (P : St Net -> Prop),
    (forall s, P s -> P (snd (body s))) ->
    forall (target : Z) (chk : nat) (s : St Net),
      P s -> P (snd (poll_until body target chk s)).
Proof.
  intros body P Hbody target chk.
  induction chk as [|chk IH]; intros s Hs; cbn [poll_until]; unfold bind at 1;
    specialize (Hbody s Hs); destruct (body s) as [u s1]; cbn [snd] in Hbody.
  - exact Hbody.
  - unfold bind, slave, gets.
    destruct (negb (state (ec_slave (bus (soem s1)) 0) =? target)).
    + apply IH. exact Hbody.
    + exact Hbody.
Qed.

(** The polling loop of [setOperationalState] makes one state check per
    round, in at least one and at most [chk + 1] rounds. *)
Lemma poll_until_statechecks :
  forall (body : M (St Net) unit),
    (forall s, count_statechecks (out (snd (body s)))
               = S (count_statechecks (out s))) ->
    forall (target : Z) (chk : nat) (s : St Net),
      exists k : nat,
        (1 <= k <= S chk)%nat /\
        count_statechecks (out (snd (poll_until body target chk s)))
        = (count_statechecks (out s) + k)%nat.
Proof.
  intros body Hbody target chk.
  induction chk as [|chk IH]; intros s; cbn [poll_until]; unfold bind at 1;
    specialize (Hbody s); destruct (body s) as [u s1]; cbn [snd] in Hbody.
  - exists 1%nat. unfold ret. cbn [snd]. split; lia.
  - unfold bind, slave, gets.
    destruct (negb (state (ec_slave (bus (soem s1)) 0) =? target)).
    + destruct (IH s1) as [k [Hk Hc]]. exists (S k). split; [lia|].
      rewrite Hc, Hbody. lia.
    + exists 1%nat. unfold ret. cbn [snd]. split; lia.
Qed.

Lemma printed_app :
  forall l1 l2 : list event, printed (l1 ++ l2) = printed l1 ++ printed l2.
Proof.
  intros l1 l2. unfold printed. apply filter_app.
Qed.

(** What the request part of [setOperationalState] leaves behind: the object
    and the slave count as they were, nothing printed, and two state checks
    before the polling loop, one after the request, and one per polling
    round, of which there are at most 201. *)
Lemma request_operational_run :
  forall s : St Net,
    exists (k : nat) (s9 : St Net),
      (1 <= k <= 201)%nat /\
      request_operational drv s = (tt, s9) /\
      self s9 = self s /\
      ec_slavecount (soem s9) = ec_slavecount (soem s) /\
      printed (out s9) = printed (out s) /\
      count_statechecks (out s9) = (count_statechecks (out s) + 2 + k)%nat.
Proof.
  intros s. unfold request_operational.
  unfold bind at 1. unfold do_statecheck at 1, call.
  destruct (ec_statecheck drv 0 EC_STATE_OPERATIONAL 50000 (bus (soem s))) as [x1 b1].
  unfold bind at 1. unfold do_readstate at 1, call. cbn [soem bus self out].
  destruct (ec_readstate drv b1) as [x2 b2].
  unfold bind at 1. unfold set_bus, modify. cbn [soem bus self out ec_slavecount].
  unfold bind at 1. unfold do_send_processdata at 1, call. cbn [soem bus self out].
  destruct (ec_send_processdata drv _) as [x3 b3].
  unfold bind at 1. unfold do_receive_processdata at 1, call. cbn [soem bus self out].
  destruct (ec_receive_processdata drv EC_TIMEOUTRET b3) as [x4 b4].
  unfold bind at 1. unfold do_writestate at 1, call at 1, slave at 1, gets at 1.
  unfold bind at 1. cbn [soem bus self out].
  destruct (ec_writestate drv 0 b4) as [x5 b5].
  unfold bind at 1. unfold do_statecheck at 1, call at 1.
  cbn [soem bus self out ec_slavecount].
  destruct (ec_statecheck drv 0 EC_STATE_OPERATIONAL (EC_TIMEOUTSTATE * 4) b5) as [x6 b6].
  unfold bind at 1.
  match goal with
  | |- context [poll_until ?body ?t ?c ?st] =>
      assert (Hcount : forall s0, count_statechecks (out (snd (body s0)))
                                  = S (count_statechecks (out s0)));
      [ | assert (Hkeep : forall s0 : St Net,
                    (self s0 = self s /\
                     ec_slavecount (soem s0) = ec_slavecount (soem s) /\
                     printed (out s0) = printed (out s)) ->
                    (self (snd (body s0)) = self s /\
                     ec_slavecount (soem (snd (body s0))) = ec_slavecount (soem s) /\
                     printed (out (snd (body s0))) = printed (out s)));
        [ | destruct (poll_until_statechecks body Hcount t c st) as [k [Hk Hc]];
            pose proof (poll_until_keeps body _ Hkeep t c st) as Hk3;
            destruct (poll_until body t c st) as [u s7] ] ]
  end.
  - intros s0. unfold do_writestate, do_statecheck, call, slave, gets, bind, ret.
    destruct (ec_writestate drv 0 (bus (soem s0))) as [y1 c1]. cbn [soem bus self out].
    destruct (ec_statecheck drv 0 EC_STATE_OPERATIONAL 50000 c1) as [y2 c2].
    cbn [snd out]. rewrite !count_statechecks_app. cbn. lia.
  - intros s0 [H1 [H2 H3]].
    unfold do_writestate, do_statecheck, call, slave, gets, bind, ret.
    destruct (ec_writestate drv 0 (bus (soem s0))) as [y1 c1]. cbn [soem bus self out].
    destruct (ec_statecheck drv 0 EC_STATE_OPERATIONAL 50000 c1) as [y2 c2].
    cbn [snd out self soem ec_slavecount]. rewrite !printed_app. cbn.
    rewrite !app_nil_r. auto.
  - cbn [snd] in Hc, Hk3.
    destruct Hk3 as [H1 [H2 H3]];
      [ cbn [self soem ec_slavecount out]; rewrite !printed_app; cbn;
        rewrite !app_nil_r; auto | ].
    unfold bind at 1. unfold do_readstate, call.
    destruct (ec_readstate drv (bus (soem s7))) as [x8 b8].
    unfold bind, ret. exists k. eexists.
    split; [exact Hk|]. split; [reflexivity|].
    cbn [self soem ec_slavecount out]. cbn [out] in Hc.
    rewrite !count_statechecks_app in Hc. cbn in Hc.
    rewrite printed_app, count_statechecks_app, Hc. cbn.
    rewrite app_nil_r.
    repeat split; auto; lia.
Qed.

Lemma not_in_state_nil :
  forall (st : Z) (w : World Net),
    not_in_state st w = [] <->
    (forall i, 1 <= i <= ec_slavecount w -> state (ec_slave (bus w) i) = st).
Proof.
  intros st w. unfold not_in_state. split.
  - intros Hnil i Hi.
    destruct (Z.eqb_spec (state (ec_slave (bus w) i)) st) as [E|E]; [exact E|].
    exfalso.
    assert (Hin : In i (filter (fun i => negb (state (ec_slave (bus w) i) =? st))
                               (slave_numbers w))).
    { apply filter_In. split; [apply slave_numbers_In; exact Hi|].
      apply negb_true_iff, Z.eqb_neq. exact E. }
    rewrite Hnil in Hin. exact Hin.
  - intros Hall.
    destruct (filter _ _) as [|i l] eqn:Hf; [reflexivity|].
    exfalso.
    assert (Hin : In i (filter (fun i => negb (state (ec_slave (bus w) i) =? st))
                               (slave_numbers w)))
      by (rewrite Hf; left; reflexivity).
    apply filter_In in Hin. destruct Hin as [Hi Hne].
    apply slave_numbers_In in Hi. apply negb_true_iff, Z.eqb_neq in Hne.
    apply Hne, Hall, Hi.
Qed.

Lemma not_in_state_head :
  forall (st : Z) (w : World Net) (i : Z) (l : list Z),
    not_in_state st w = i :: l ->
    1 <= i <= ec_slavecount w /\ state (ec_slave (bus w) i) <> st.
Proof.
  intros st w i l Hf.
  assert (Hin : In i (not_in_state st w)) by (rewrite Hf; left; reflexivity).
  unfold not_in_state in Hin. apply filter_In in Hin. destruct Hin as [Hi Hne].
  apply slave_numbers_In in Hi. apply negb_true_iff, Z.eqb_neq in Hne. auto.
Qed.

(** X1.  [setOperationalState] answers [true] exactly when every slave
    1 .. [ec_slavecount] reads OPERATIONAL in the tables it leaves; the group
    record [ec_slave[0]] the polling loop watched plays no part in the
    answer.  With [true] the session state becomes OPERATIONAL, nothing is
    printed and the message is left alone; with [false] the session state is
    left alone, the message is set and one line is printed. *)
Theorem setOperationalState_verdict :
  forall s : St Net,
    let r := setOperationalState drv s in
    (fst r = true <->
     (forall i, 1 <= i <= ec_slavecount (soem (snd r)) ->
                state (ec_slave (bus (soem (snd r))) i) = EC_STATE_OPERATIONAL)) /\
    (if fst r
     then _state (self (snd r)) = EC_STATE_OPERATIONAL /\
          errorMessage (self (snd r)) = errorMessage (self s) /\
          printed (out (snd r)) = printed (out s)
     else _state (self (snd r)) = _state (self s) /\
          errorMessage (self (snd r))
          = "Slaves state can not set to operational state."%string /\
          exists i : Z,
            1 <= i <= ec_slavecount (soem (snd r)) /\
            state (ec_slave (bus (soem (snd r))) i) <> EC_STATE_OPERATIONAL /\
            printed (out (snd r))
            = printed (out s) ++ [not_operational_row drv (bus (soem (snd r))) i]).
Proof.
  intros s r. subst r.
  rewrite setOperationalState_report.
  destruct (request_operational_run s) as [k [s9 [Hk [Hrun [Hself [Hcnt [Hpr Hc]]]]]]].
  rewrite Hrun. cbn [snd].
  change (not_operational (soem s9)) with (not_in_state EC_STATE_OPERATIONAL (soem s9)).
  destruct (not_in_state EC_STATE_OPERATIONAL (soem s9)) as [|i l] eqn:Hbad.
  - cbn [fst snd self soem out _state errorMessage with_session_state].
    split.
    + split; [intros _; apply not_in_state_nil; exact Hbad | reflexivity].
    + rewrite Hself, Hpr. auto.
  - cbn [fst snd self soem out _state errorMessage with_errorMessage].
    destruct (not_in_state_head _ _ _ _ Hbad) as [Hi Hne].
    split.
    + split; [discriminate|].
      intros Hall. exfalso. apply Hne, Hall, Hi.
    + rewrite Hself. split; [reflexivity|]. split; [reflexivity|].
      exists i. split; [exact Hi|]. split; [exact Hne|].
      rewrite printed_app, Hpr. reflexivity.
Qed.

(** X2.  [setOperationalState] always comes back, after at least 3 and at
    most 203 state checks: one before and one after the request, and one in
    each of at most 201 polling rounds. *)
Theorem setOperationalState_bounded_polling :
  forall s : St Net,
    exists k : nat,
      (1 <= k <= 201)%nat /\
      count_statechecks (out (snd (setOperationalState drv s)))
      = (count_statechecks (out s) + 2 + k)%nat.
Proof.
  intros s. rewrite setOperationalState_report.
  destruct (request_operational_run s) as [k [s9 [Hk [Hrun [Hself [Hcnt [Hpr Hc]]]]]]].
  rewrite Hrun. cbn [snd]. exists k. split; [exact Hk|].
  destruct (not_operational (soem s9)); cbn [snd out].
  - exact Hc.
  - rewrite count_statechecks_app, Hc. cbn. lia.
Qed.

(** A polling loop whose body never sees the target confirmed runs all its
    [chk + 1] rounds; one whose first round sees it confirmed runs that round
    only. *)
Lemma poll_until_exhausts :
  forall (body : M (St Net) unit) (evs : list event) (target : Z),
    (forall s, out (snd (body s)) = out s ++ evs /\
               self (snd (body s)) = self s /\
               state (ec_slave (bus (soem (snd (body s)))) 0) <> target) ->
    forall (chk : nat) (s : St Net),
      exists s' : St Net,
        poll_until body target chk s = (tt, s') /\
        out s' = out s ++ List.concat (repeat evs (S chk)) /\
        self s' = self s.
Proof.
  intros body evs target Hbody chk.
  induction chk as [|chk IH]; intros s; cbn [poll_until]; unfold bind at 1;
    destruct (Hbody s) as [Ho [Hs Hne]]; destruct (body s) as [u s1];
    cbn [snd] in Ho, Hs, Hne.
  - exists s1. unfold ret. cbn [repeat List.concat]. rewrite app_nil_r. auto.
  - unfold bind, slave, gets.
    replace (state (ec_slave (bus (soem s1)) 0) =? target) with false
      by (symmetry; apply Z.eqb_neq; exact Hne).
    cbn [negb].
    destruct (IH s1) as [s' [Heq [Hok Hsk]]].
    exists s'. split; [exact Heq|]. rewrite Hok, Hsk, Ho, Hs.
    cbn [repeat List.concat]. rewrite <- !app_assoc. auto.
Qed.

Lemma poll_until_once :
  forall (body : M (St Net) unit) (target : Z) (chk : nat) (s : St Net),
    state (ec_slave (bus (soem (snd (body s)))) 0) = target ->
    poll_until body target chk s = (tt, snd (body s)).
Proof.
  intros body target chk s Hconf. destruct chk as [|chk]; cbn [poll_until];
    unfold bind at 1; destruct (body s) as [[] s1]; cbn [snd] in *.
  - reflexivity.
  - unfold bind, slave, gets. rewrite Hconf, Z.eqb_refl. reflexivity.
Qed.

Lemma poll_body_calls :
  forall (target : Z) (s : St Net),
    let body := (do_send_processdata drv ;;;
                 do_receive_processdata drv EC_TIMEOUTRET ;;;
                 do_statecheck drv 0 target 50000 ;;; ret tt)%monad in
    exists b : Bus Net,
      out (snd (body s)) = out s ++ poll_round target /\
      self (snd (body s)) = self s /\
      bus (soem (snd (body s))) = snd (ec_statecheck drv 0 target 50000 b).
Proof.
  intros target s body. subst body.
  unfold do_send_processdata, do_receive_processdata, do_statecheck, call, bind, ret.
  destruct (ec_send_processdata drv (bus (soem s))) as [x1 b1]. cbn [soem bus self out].
  destruct (ec_receive_processdata drv EC_TIMEOUTRET b1) as [x2 b2]. cbn [soem bus self out].
  exists b2.
  destruct (ec_statecheck drv 0 target 50000 b2) as [x3 b3]. cbn [snd soem bus self out].
  unfold poll_round. rewrite <- !app_assoc. cbn [app]. auto.
Qed.

Lemma setPreOperationalState_exhausts :
  forall s : St Net,
    (forall b, state (ec_slave (snd (ec_statecheck drv 0 EC_STATE_PRE_OP 50000 b)) 0)
               <> EC_STATE_PRE_OP) ->
    exists req : Z,
      out (snd (setPreOperationalState drv s)) = out s ++ request_calls EC_STATE_PRE_OP req 201.
Proof.
  intros s Hdrv. unfold setPreOperationalState.
  unfold bind at 1. unfold do_statecheck at 1, call.
  destruct (ec_statecheck drv 0 EC_STATE_PRE_OP 50000 (bus (soem s))) as [x1 b1].
  unfold bind at 1. unfold do_readstate, call. cbn [soem bus self out].
  destruct (ec_readstate drv b1) as [x2 b2].
  unfold bind at 1. unfold set_bus, modify. cbn [soem bus self out ec_slavecount].
  unfold bind at 1. unfold do_send_processdata at 1, call. cbn [soem bus self out].
  destruct (ec_send_processdata drv _) as [x3 b3].
  unfold bind at 1. unfold do_receive_processdata at 1, call. cbn [soem bus self out].
  destruct (ec_receive_processdata drv EC_TIMEOUTRET b3) as [x4 b4].
  unfold bind at 1. unfold do_writestate, call, slave, gets. unfold bind at 1.
  cbn [soem bus self out].
  destruct (ec_writestate drv 0 b4) as [x5 b5].
  unfold bind at 1.
  match goal with
  | |- context [poll_until ?body ?t ?c ?st] =>
      destruct (poll_until_exhausts body (poll_round EC_STATE_PRE_OP) t) with (chk := c) (s := st)
        as [s6 [Heq [Ho Hs]]];
      [ intros s0; destruct (poll_body_calls EC_STATE_PRE_OP s0) as [b [H1 [H2 H3]]];
        split; [exact H1|]; split; [exact H2|]; rewrite H3; apply Hdrv
      | rewrite Heq ]
  end.
  exists (state (ec_slave b4 0)). unfold bind, set_self, modify, ret. cbn [snd out].
  rewrite Ho. cbn [out]. unfold request_calls. rewrite <- !app_assoc. reflexivity.
Qed.

Lemma setPreOperationalState_once :
  forall s : St Net,
    (forall b, state (ec_slave (snd (ec_statecheck drv 0 EC_STATE_PRE_OP 50000 b)) 0)
               = EC_STATE_PRE_OP) ->
    exists req : Z,
      out (snd (setPreOperationalState drv s)) = out s ++ request_calls EC_STATE_PRE_OP req 1.
Proof.
  intros s Hdrv. unfold setPreOperationalState.
  unfold bind at 1. unfold do_statecheck at 1, call.
  destruct (ec_statecheck drv 0 EC_STATE_PRE_OP 50000 (bus (soem s))) as [x1 b1].
  unfold bind at 1. unfold do_readstate, call. cbn [soem bus self out].
  destruct (ec_readstate drv b1) as [x2 b2].
  unfold bind at 1. unfold set_bus, modify. cbn [soem bus self out ec_slavecount].
  unfold bind at 1. unfold do_send_processdata at 1, call. cbn [soem bus self out].
  destruct (ec_send_processdata drv _) as [x3 b3].
  unfold bind at 1. unfold do_receive_processdata at 1, call. cbn [soem bus self out].
  destruct (ec_receive_processdata drv EC_TIMEOUTRET b3) as [x4 b4].
  unfold bind at 1. unfold do_writestate, call, slave, gets. unfold bind at 1.
  cbn [soem bus self out].
  destruct (ec_writestate drv 0 b4) as [x5 b5].
  unfold bind at 1.
  match goal with
  | |- context [poll_until ?body ?t ?c ?st] =>
      rewrite (poll_until_once body t c st);
      [ | destruct (poll_body_calls EC_STATE_PRE_OP st) as [b [_ [_ H3]]]; rewrite H3; apply Hdrv ];
      destruct (poll_body_calls EC_STATE_PRE_OP st) as [b [H1 [H2 H3]]];
      destruct (body st) as [u sb]; cbn [snd] in H1, H2, H3 |- *
  end.
  exists (state (ec_slave b4 0)). unfold bind, set_self, modify, ret. cbn [snd out].
  rewrite H1. cbn [out]. unfold request_calls. cbn [repeat List.concat].
  rewrite app_nil_r, <- !app_assoc. reflexivity.
Qed.

Lemma setInitState_exhausts :
  forall s : St Net,
    (forall b, state (ec_slave (snd (ec_statecheck drv 0 EC_STATE_INIT 50000 b)) 0)
               <> EC_STATE_INIT) ->
    exists req : Z,
      out (snd (setInitState drv s)) = out s ++ request_calls EC_STATE_INIT req 201.
Proof.
  intros s Hdrv. unfold setInitState.
  unfold bind at 1. unfold do_statecheck at 1, call.
  destruct (ec_statecheck drv 0 EC_STATE_INIT 50000 (bus (soem s))) as [x1 b1].
  unfold bind at 1. unfold do_readstate, call. cbn [soem bus self out].
  destruct (ec_readstate drv b1) as [x2 b2].
  unfold bind at 1. unfold set_bus, modify. cbn [soem bus self out ec_slavecount].
  unfold bind at 1. unfold do_send_processdata at 1, call. cbn [soem bus self out].
  destruct (ec_send_processdata drv _) as [x3 b3].
  unfold bind at 1. unfold do_receive_processdata at 1, call. cbn [soem bus self out].
  destruct (ec_receive_processdata drv EC_TIMEOUTRET b3) as [x4 b4].
  unfold bind at 1. unfold do_writestate, call, slave, gets. unfold bind at 1.
  cbn [soem bus self out].
  destruct (ec_writestate drv 0 b4) as [x5 b5].
  unfold bind at 1.
  match goal with
  | |- context [poll_until ?body ?t ?c ?st] =>
      destruct (poll_until_exhausts body (poll_round EC_STATE_INIT) t) with (chk := c) (s := st)
        as [s6 [Heq [Ho Hs]]];
      [ intros s0; destruct (poll_body_calls EC_STATE_INIT s0) as [b [H1 [H2 H3]]];
        split; [exact H1|]; split; [exact H2|]; rewrite H3; apply Hdrv
      | rewrite Heq ]
  end.
  exists (state (ec_slave b4 0)). unfold set_self, modify. cbn [snd out].
  rewrite Ho. cbn [out]. unfold request_calls. rewrite <- !app_assoc. reflexivity.
Qed.

Lemma setInitState_once :
  forall s : St Net,
    (forall b, state (ec_slave (snd (ec_statecheck drv 0 EC_STATE_INIT 50000 b)) 0)
               = EC_STATE_INIT) ->
    exists req : Z,
      out (snd (setInitState drv s)) = out s ++ request_calls EC_STATE_INIT req 1.
Proof.
  intros s Hdrv. unfold setInitState.
  unfold bind at 1. unfold do_statecheck at 1, call.
  destruct (ec_statecheck drv 0 EC_STATE_INIT 50000 (bus (soem s))) as [x1 b1].
  unfold bind at 1. unfold do_readstate, call. cbn [soem bus self out].
  destruct (ec_readstate drv b1) as [x2 b2].
  unfold bind at 1. unfold set_bus, modify. cbn [soem bus self out ec_slavecount].
  unfold bind at 1. unfold do_send_processdata at 1, call. cbn [soem bus self out].
  destruct (ec_send_processdata drv _) as [x3 b3].
  unfold bind at 1. unfold do_receive_processdata at 1, call. cbn [soem bus self out].
  destruct (ec_receive_processdata drv EC_TIMEOUTRET b3) as [x4 b4].
  unfold bind at 1. unfold do_writestate, call, slave, gets. unfold bind at 1.
  cbn [soem bus self out].
  destruct (ec_writestate drv 0 b4) as [x5 b5].
  unfold bind at 1.
  match goal with
  | |- context [poll_until ?body ?t ?c ?st] =>
      rewrite (poll_until_once body t c st);
      [ | destruct (poll_body_calls EC_STATE_INIT st) as [b [_ [_ H3]]]; rewrite H3; apply Hdrv ];
      destruct (poll_body_calls EC_STATE_INIT st) as [b [H1 [H2 H3]]];
      destruct (body st) as [u sb]; cbn [snd] in H1, H2, H3 |- *
  end.
  exists (state (ec_slave b4 0)). unfold set_self, modify. cbn [snd out].
  rewrite H1. cbn [out]. unfold request_calls. cbn [repeat List.concat].
  rewrite app_nil_r, <- !app_assoc. reflexivity.
Qed.

(** X3.  A request for PRE_OP or INIT that no state check ever confirms in
    the group record polls exactly 201 rounds (the [chk = 200] of the source
    is tested after the first round) and then returns. *)
Theorem unconfirmed_request_polls_201_rounds :
  forall s : St Net,
    (forall b, state (ec_slave (snd (ec_statecheck drv 0 EC_STATE_PRE_OP 50000 b)) 0)
               <> EC_STATE_PRE_OP) ->
    (forall b, state (ec_slave (snd (ec_statecheck drv 0 EC_STATE_INIT 50000 b)) 0)
               <> EC_STATE_INIT) ->
    (exists req : Z,
       out (snd (setPreOperationalState drv s))
       = out s ++ request_calls EC_STATE_PRE_OP req 201) /\
    (exists req : Z,
       out (snd (setInitState drv s))
       = out s ++ request_calls EC_STATE_INIT req 201).
Proof.
  intros s Hpre Hinit. split.
  - apply setPreOperationalState_exhausts. exact Hpre.
  - apply setInitState_exhausts. exact Hinit.
Qed.

(** X4.  A request for PRE_OP or INIT whose state checks leave the target
    in the group record stops polling after the first round. *)
Theorem confirmed_request_polls_once :
  forall s : St Net,
    (forall b, state (ec_slave (snd (ec_statecheck drv 0 EC_STATE_PRE_OP 50000 b)) 0)
               = EC_STATE_PRE_OP) ->
    (forall b, state (ec_slave (snd (ec_statecheck drv 0 EC_STATE_INIT 50000 b)) 0)
               = EC_STATE_INIT) ->
    (exists req : Z,
       out (snd (setPreOperationalState drv s))
       = out s ++ request_calls EC_STATE_PRE_OP req 1) /\
    (exists req : Z,
       out (snd (setInitState drv s))
       = out s ++ request_calls EC_STATE_INIT req 1).
Proof.
  intros s Hpre Hinit. split.
  - apply setPreOperationalState_once. exact Hpre.
  - apply setInitState_once. exact Hinit.
Qed.

(** A loop that leaves at the first slave its test [p] picks, doing [f]
    there, and does nothing at the others. *)
Lemma for_upto_first :
  forall (body : Z -> M (St Net) (option bool)) (p : St Net -> Z -> bool)
         (f : St Net -> St Net),
    (forall i s, body i s = if p s i then (Some false, f s) else (None, s)) ->
    forall (n : nat) (i : Z) (s : St Net),
      for_upto n i body s
      = match filter (p s) (zseq i n) with
        | [] => (None, s)
        | _ :: _ => (Some false, f s)
        end.
Proof.
  intros body p f Hbody n.
  induction n as [|n IH]; intros i s; cbn [for_upto zseq filter].
  - reflexivity.
  - unfold bind at 1. rewrite Hbody.
    destruct (p s i); [reflexivity|]. apply IH.
Qed.

(** What a call of [isAllStatesOPT] comes to: one state read, then the
    verdict on the slaves not OPERATIONAL in the tables just read. *)
Lemma isAllStatesOPT_run :
  forall s : St Net,
    isAllStatesOPT drv s
    = match not_in_state EC_STATE_OPERATIONAL
              (mk_world (ec_slavecount (soem s))
                        (snd (ec_readstate drv (bus (soem s))))) with
      | [] => (true,
               mk_st (self s)
                     (mk_world (ec_slavecount (soem s))
                               (snd (ec_readstate drv (bus (soem s)))))
                     (out s ++ [ev_readstate]))
      | _ :: _ =>
          (false,
           mk_st (with_errorMessage (self s)
                    "Not all slaves reached operational state.")
                 (mk_world (ec_slavecount (soem s))
                           (snd (ec_readstate drv (bus (soem s)))))
                 (out s ++ [ev_readstate]))
      end.
Proof.
  intros s. unfold isAllStatesOPT, _readStates, do_readstate, call.
  unfold bind at 1. unfold bind at 1.
  destruct (ec_readstate drv (bus (soem s))) as [x b]. cbn [snd].
  unfold ret at 1. unfold bind at 1. unfold for_slaves, slavecount, gets.
  unfold bind at 1. cbn [soem ec_slavecount].
  rewrite (for_upto_first _
             (fun s0 i => negb (state (ec_slave (bus (soem s0)) i) =? EC_STATE_OPERATIONAL))
             (fun s0 => mk_st (with_errorMessage (self s0)
                                 "Not all slaves reached operational state.")
                              (soem s0) (out s0))).
  - unfold not_in_state, slave_numbers. cbn [soem bus ec_slavecount].
    destruct (filter _ _); reflexivity.
  - intros i s0. unfold bind, slave, gets, set_self, modify, ret.
    destruct (negb _); reflexivity.
Qed.

(** A [true] from [setOperationalState] means no slave of the tables it
    leaves is out of OPERATIONAL. *)
Lemma setOperationalState_true_inv :
  forall s : St Net,
    fst (setOperationalState drv s) = true ->
    not_in_state EC_STATE_OPERATIONAL (soem (snd (setOperationalState drv s))) = [].
Proof.
  intros s. rewrite setOperationalState_report.
  destruct (request_operational_run s) as [k [s9 [Hk [Hrun _]]]].
  rewrite Hrun. cbn [snd].
  change (not_operational (soem s9)) with (not_in_state EC_STATE_OPERATIONAL (soem s9)).
  destruct (not_in_state EC_STATE_OPERATIONAL (soem s9)) as [|i l] eqn:Hbad.
  - intros _. cbn [snd soem]. exact Hbad.
  - cbn [fst]. discriminate.
Qed.

(** X8.  [isAllStatesOPT] reads the states once and answers [true] exactly
    when every slave 1 .. [ec_slavecount] then reads OPERATIONAL; it makes no
    other call, prints nothing, never changes the session state, and writes
    its message only when it answers [false]. *)
Theorem isAllStatesOPT_verdict :
  forall s : St Net,
    let r := isAllStatesOPT drv s in
    out (snd r) = out s ++ [ev_readstate] /\
    soem (snd r)
    = mk_world (ec_slavecount (soem s)) (snd (ec_readstate drv (bus (soem s)))) /\
    (fst r = true <->
     (forall i, 1 <= i <= ec_slavecount (soem s) ->
                state (ec_slave (bus (soem (snd r))) i) = EC_STATE_OPERATIONAL)) /\
    _state (self (snd r)) = _state (self s) /\
    errorMessage (self (snd r))
    = (if fst r then errorMessage (self s)
       else "Not all slaves reached operational state."%string).
Proof.
  intros s r. subst r. rewrite isAllStatesOPT_run.
  destruct (not_in_state _ _) as [|i l] eqn:Hbad;
    cbn [fst snd self soem out bus ec_slavecount _state errorMessage with_errorMessage].
  - repeat split; auto. intros _. apply (proj1 (not_in_state_nil _ _) Hbad).
  - destruct (not_in_state_head _ _ _ _ Hbad) as [Hi Hne]. cbn [bus ec_slavecount] in Hi, Hne.
    split; [reflexivity|]. split; [reflexivity|]. split; [|auto].
    split; [discriminate|].
    intros Hall. exfalso. apply Hne, Hall, Hi.
Qed.

(** X9.  After [setOperationalState] has answered [true], a call of
    [isAllStatesOPT] answers [true] too, provided the state read it starts
    with leaves the slave states of the tables as they are. *)
Theorem isAllStatesOPT_after_setOperationalState :
  forall s : St Net,
    let r := setOperationalState drv s in
    let b := bus (soem (snd r)) in
    fst r = true ->
    (forall i, state (ec_slave (snd (ec_readstate drv b)) i) = state (ec_slave b i)) ->
    fst (isAllStatesOPT drv (snd r)) = true.
Proof.
  intros s r b Hok Hsteady.
  pose proof (setOperationalState_true_inv s Hok) as Hnone. fold r in Hnone.
  rewrite isAllStatesOPT_run.
  destruct (not_in_state _ (mk_world _ _)) as [|i l] eqn:Hbad; [reflexivity|].
  exfalso. destruct (not_in_state_head _ _ _ _ Hbad) as [Hi Hne].
  cbn [bus ec_slavecount] in Hi, Hne. apply Hne. fold b. rewrite Hsteady.
  apply (proj1 (not_in_state_nil _ _) Hnone). exact Hi.
Qed.

Lemma with_states_other :
  forall (st : Z) (l : list Z) (b : Bus Net) (j : Z),
    ~ In j l -> ec_slave (with_states st l b) j = ec_slave b j.
Proof.
  intros st l. unfold with_states.
  induction l as [|i l IH]; intros b j Hj; cbn [fold_left].
  - reflexivity.
  - rewrite IH by (intros H; apply Hj; right; exact H).
    unfold set_slave_state, upd. cbn [ec_slave].
    destruct (Z.eqb_spec j i) as [E|E]; [|reflexivity].
    exfalso. apply Hj. left. symmetry. exact E.
Qed.

(** The first loop of [setSafeOperationalState]. *)
Lemma request_safe_op_loop :
  forall (n : nat) (i : Z) (s : St Net),
    for_upto (R := unit) n i
      (fun i => set_bus (fun b => set_slave_state b i EC_STATE_SAFE_OP) ;;; ret None)%monad s
    = (None,
       mk_st (self s)
             (mk_world (ec_slavecount (soem s))
                       (with_states EC_STATE_SAFE_OP (zseq i n) (bus (soem s))))
             (out s)).
Proof.
  induction n as [|n IH]; intros i s; cbn [for_upto zseq].
  - unfold ret, with_states. cbn [fold_left]. destruct s as [t [c b] o]. reflexivity.
  - unfold bind at 1. unfold bind at 1. unfold set_bus at 1, modify at 1. unfold ret at 1.
    rewrite IH. reflexivity.
Qed.

(** A loop that only rewrites the object, from SOEM's tables. *)
Lemma for_upto_fold :
  forall (body : Z -> M (St Net) (option unit))
         (h : World Net -> Z -> SimpleEthercat -> SimpleEthercat),
    (forall i s, body i s = (None, mk_st (h (soem s) i (self s)) (soem s) (out s))) ->
    forall (n : nat) (i : Z) (s : St Net),
      for_upto n i body s
      = (None, mk_st (fold_left (fun t k => h (soem s) k t) (zseq i n) (self s))
                     (soem s) (out s)).
Proof.
  intros body h Hbody n.
  induction n as [|n IH]; intros i s; cbn [for_upto zseq fold_left].
  - destruct s; reflexivity.
  - unfold bind at 1. rewrite Hbody. rewrite IH. reflexivity.
Qed.

(** The message the last of the picked slaves leaves wins. *)
Lemma last_message_wins :
  forall (p : Z -> bool) (msg : Z -> string) (l : list Z) (t : SimpleEthercat),
    let t' := fold_left (fun t k => if p k then with_errorMessage t (msg k) else t) l t in
    _state t' = _state t /\
    _expectedWKC t' = _expectedWKC t /\
    errorMessage t'
    = match rev (filter p l) with
      | [] => errorMessage t
      | k :: _ => msg k
      end.
Proof.
  intros p msg l. induction l as [|x l IH]; intros t; cbn [fold_left filter].
  - cbn. auto.
  - destruct (IH (if p x then with_errorMessage t (msg x) else t)) as [H1 [H2 H3]].
    cbv zeta. rewrite H1, H2, H3.
    destruct (p x); cbn [rev _state _expectedWKC errorMessage with_errorMessage].
    + destruct (rev (filter p l)); cbn; auto.
    + auto.
Qed.

(** What [setSafeOperationalState] does, whatever the slaves answer. *)
Lemma setSafeOperationalState_run :
  forall s : St Net,
    exists (flag : bool) (s' : St Net),
      setSafeOperationalState drv sprintf s = (flag, s') /\
      out s'
      = out s ++ [ev_writestate 0 (state (ec_slave (bus (soem s)) 0));
                  ev_statecheck 0 EC_STATE_SAFE_OP (EC_TIMEOUTSTATE * 4);
                  ev_readstate] /\
      ec_slavecount (soem s') = ec_slavecount (soem s) /\
      (if flag
       then _state (self s') = EC_STATE_SAFE_OP /\
            errorMessage (self s') = errorMessage (self s)
       else _state (self s') = _state (self s) /\
            errorMessage (self s')
            = match rev (not_in_state EC_STATE_SAFE_OP (soem s')) with
              | [] => errorMessage (self s)
              | i :: _ => safe_op_message drv sprintf (bus (soem s')) i
              end).
Proof.
  intros s. unfold setSafeOperationalState.
  unfold bind at 1. unfold for_slaves at 1, slavecount, gets. unfold bind at 1.
  rewrite request_safe_op_loop.
  unfold bind at 1. unfold do_writestate, slave, gets, call. unfold bind at 1.
  cbn [soem bus self out ec_slavecount].
  rewrite with_states_other by (intros H; apply zseq_In in H; lia).
  destruct (ec_writestate drv 0 _) as [x b2]. clear x.
  unfold bind at 1. unfold do_statecheck, call. cbn [soem bus self out].
  destruct (ec_statecheck drv 0 EC_STATE_SAFE_OP (EC_TIMEOUTSTATE * 4) b2) as [flag b3].
  unfold bind at 1. unfold do_readstate, call. cbn [soem bus self out].
  destruct (ec_readstate drv b3) as [x b4]. clear x.
  unfold bind at 1. unfold grp, gets. cbn [soem bus self out].
  unfold bind at 1. unfold set_self at 1, modify at 1. cbn [soem bus self out].
  unfold bind at 1.
  destruct (flag =? EC_STATE_SAFE_OP).
  - unfold set_self, modify, ret. exists true. eexists. split; [reflexivity|].
    cbn [self soem out ec_slavecount]. rewrite <- !app_assoc. cbn. auto.
  - unfold bind at 1. unfold for_slaves, slavecount, gets. unfold bind at 1.
    cbn [soem ec_slavecount].
    rewrite (for_upto_fold _
               (fun w k t =>
                  if negb (state (ec_slave (bus w) k) =? EC_STATE_SAFE_OP)
                  then with_errorMessage t (safe_op_message drv sprintf (bus w) k)
                  else t)).
    + unfold ret. exists false. eexists. split; [reflexivity|].
      cbn [self soem out ec_slavecount bus].
      split; [rewrite <- !app_assoc; reflexivity|]. split; [reflexivity|].
      match goal with
      | |- context [fold_left ?f ?l ?t] =>
          destruct (last_message_wins
                      (fun k => negb (state (ec_slave b4 k) =? EC_STATE_SAFE_OP))
                      (fun k => safe_op_message drv sprintf b4 k) l t) as [H1 [H2 H3]]
      end.
      cbv zeta in H1, H2, H3. rewrite H1, H3. split; reflexivity.
    + intros i s0. unfold bind, slave, gets, set_self, modify, ret, safe_op_message.
      destruct (negb _); [reflexivity|]. destruct s0; reflexivity.
Qed.

(** X5.  [setSafeOperationalState] makes three calls: the broadcast state
    write, one state check and one state read, and prints nothing.  What the
    broadcast sends is the state the group record [ec_slave[0]] held when the
    function was called: the function writes SAFE_OP into the records of the
    slaves 1 .. [ec_slavecount], not into the group record. *)
Theorem setSafeOperationalState_calls :
  forall s : St Net,
    out (snd (setSafeOperationalState drv sprintf s))
    = out s ++ [ev_writestate 0 (state (ec_slave (bus (soem s)) 0));
                ev_statecheck 0 EC_STATE_SAFE_OP (EC_TIMEOUTSTATE * 4);
                ev_readstate].
Proof.
  intros s. destruct (setSafeOperationalState_run s) as [flag [s' [Heq [Ho _]]]].
  rewrite Heq. exact Ho.
Qed.

(** X6.  When [setSafeOperationalState] answers [true] the session state is
    SAFE_OP and the message is left alone.  When it answers [false] the
    session state is left alone, and the message is the one built for the
    last slave that does not read SAFE_OP, the messages of the slaves before
    it being overwritten; if every slave reads SAFE_OP the message is left as
    it was. *)
Theorem setSafeOperationalState_verdict :
  forall s : St Net,
    let r := setSafeOperationalState drv sprintf s in
    if fst r
    then _state (self (snd r)) = EC_STATE_SAFE_OP /\
         errorMessage (self (snd r)) = errorMessage (self s)
    else _state (self (snd r)) = _state (self s) /\
         errorMessage (self (snd r))
         = match rev (not_in_state EC_STATE_SAFE_OP (soem (snd r))) with
           | [] => errorMessage (self s)
           | i :: _ => safe_op_message drv sprintf (bus (soem (snd r))) i
           end.
Proof.
  intros s r. subst r.
  destruct (setSafeOperationalState_run s) as [flag [s' [Heq [_ [_ H]]]]].
  rewrite Heq. cbn [fst snd]. exact H.
Qed.

Lemma setPreOperationalState_keeps_count :
  forall s : St Net,
    ec_slavecount (soem (snd (setPreOperationalState drv s))) = ec_slavecount (soem s).
Proof.
  intros s. unfold setPreOperationalState.
  unfold bind at 1. unfold do_statecheck at 1, call.
  destruct (ec_statecheck drv 0 EC_STATE_PRE_OP 50000 (bus (soem s))) as [x1 b1].
  unfold bind at 1. unfold do_readstate, call. cbn [soem bus self out].
  destruct (ec_readstate drv b1) as [x2 b2].
  unfold bind at 1. unfold set_bus, modify. cbn [soem bus self out ec_slavecount].
  unfold bind at 1. unfold do_send_processdata at 1, call. cbn [soem bus self out].
  destruct (ec_send_processdata drv _) as [x3 b3].
  unfold bind at 1. unfold do_receive_processdata at 1, call. cbn [soem bus self out].
  destruct (ec_receive_processdata drv EC_TIMEOUTRET b3) as [x4 b4].
  unfold bind at 1. unfold do_writestate, call, slave, gets. unfold bind at 1.
  cbn [soem bus self out].
  destruct (ec_writestate drv 0 b4) as [x5 b5].
  unfold bind at 1.
  match goal with
  | |- context [poll_until ?body ?t ?c ?st] =>
      pose proof (poll_until_keeps body
                    (fun s0 => ec_slavecount (soem s0) = ec_slavecount (soem s))) as Hk;
      specialize (Hk
        ltac:(intros s0 H0;
              unfold do_send_processdata, do_receive_processdata, do_statecheck,
                call, bind, ret;
              destruct (ec_send_processdata drv (bus (soem s0))) as [y1 c1];
              cbn [soem bus self out];
              destruct (ec_receive_processdata drv EC_TIMEOUTRET c1) as [y2 c2];
              cbn [soem bus self out];
              destruct (ec_statecheck drv 0 EC_STATE_PRE_OP 50000 c2) as [y3 c3];
              cbn [snd soem ec_slavecount]; exact H0)
        t c st eq_refl);
      destruct (poll_until body t c st) as [u s6]
  end.
  cbn [snd] in Hk. unfold bind, set_self, modify, ret. cbn [snd soem]. exact Hk.
Qed.

(** X7.  When discovery has found slaves, [configSlaves] records their
    number, requests PRE_OP and answers [true] exactly when every slave then
    reads PRE_OP.  Its calls are the discovery, the calls of
    [setPreOperationalState] (the broadcast carrying the state of the group
    record after the assignment of PRE_OP and one exchange cycle, which is
    PRE_OP when the exchange cycle leaves that state alone) and one state
    read; nothing is printed.  Whatever the answer, the session state is
    PRE_OP when it returns: on the failing path only the message tells. *)
Theorem configSlaves_after_discovery :
  forall s : St Net,
    let w := snd (ec_config_init drv false (soem s)) in
    fst (ec_config_init drv false (soem s)) > 0 ->
    let r := configSlaves drv s in
    _slaveCount (self (snd r)) = ec_slavecount w /\
    ec_slavecount (soem (snd r)) = ec_slavecount w /\
    _state (self (snd r)) = EC_STATE_PRE_OP /\
    (exists k : nat,
       (1 <= k <= 201)%nat /\
       out (snd r)
       = out s ++ [ev_config_init false]
               ++ request_calls EC_STATE_PRE_OP
                    (state (ec_slave (tables_at_broadcast drv EC_STATE_PRE_OP (bus w)) 0)) k
               ++ [ev_readstate] /\
       (exchange_keeps_group_state drv ->
        out (snd r)
        = out s ++ [ev_config_init false]
                ++ request_calls EC_STATE_PRE_OP EC_STATE_PRE_OP k
                ++ [ev_readstate])) /\
    (fst r = true <->
     (forall i, 1 <= i <= ec_slavecount w ->
                state (ec_slave (bus (soem (snd r))) i) = EC_STATE_PRE_OP)) /\
    errorMessage (self (snd r))
    = (if fst r then errorMessage (self s)
       else "Error SimpleEthercat: Ethercat state can not switch to Pre Operational."%string).
Proof.
  intros s w Hfound r.
  assert (Hr : exists (res : bool) (s' : St Net),
             r = (res, s') /\
             _slaveCount (self s') = ec_slavecount w /\
             ec_slavecount (soem s') = ec_slavecount w /\
             _state (self s') = EC_STATE_PRE_OP /\
             (exists k : nat,
                (1 <= k <= 201)%nat /\
                out s'
                = out s ++ [ev_config_init false]
                        ++ request_calls EC_STATE_PRE_OP
                             (state (ec_slave (tables_at_broadcast drv EC_STATE_PRE_OP
                                                 (bus w)) 0)) k
                        ++ [ev_readstate]) /\
             (if res
              then not_in_state EC_STATE_PRE_OP (soem s') = [] /\
                   errorMessage (self s') = errorMessage (self s)
              else not_in_state EC_STATE_PRE_OP (soem s') <> [] /\
                   errorMessage (self s')
                   = "Error SimpleEthercat: Ethercat state can not switch to Pre Operational."%string)).
  { subst r w. unfold configSlaves, do_config_init. unfold bind at 1.
    destruct (ec_config_init drv false (soem s)) as [found w]. cbn [fst snd] in *.
    replace (found >? 0) with true by (symmetry; apply Z.gtb_lt; lia).
    unfold bind at 1. unfold slavecount at 1, gets at 1. cbn [soem].
    unfold bind at 1. unfold set_self at 1, modify at 1. cbn [soem self out].
    unfold bind at 1.
    match goal with
    | |- context [setPreOperationalState drv ?st] =>
        destruct (setPreOperationalState_calls Net drv st)
          as [k [s1 [Hk [Heq [Ho Hs]]]]];
        pose proof (setPreOperationalState_keeps_count st) as Hc;
        rewrite Heq in *
    end.
    cbn [snd soem self out bus] in Hc, Hs, Ho.
    unfold bind at 1. unfold _readStates, do_readstate, call. unfold bind at 1.
    destruct (ec_readstate drv (bus (soem s1))) as [x b2]. unfold ret at 1.
    unfold bind at 1. unfold for_slaves, slavecount, gets. unfold bind at 1.
    cbn [soem ec_slavecount].
    rewrite (for_upto_first _
               (fun s0 i => negb (state (ec_slave (bus (soem s0)) i) =? EC_STATE_PRE_OP))
               (fun s0 => mk_st (with_errorMessage (self s0)
                  "Error SimpleEthercat: Ethercat state can not switch to Pre Operational.")
                  (soem s0) (out s0))).
    - unfold not_in_state, slave_numbers. cbn [soem bus ec_slavecount self].
      rewrite Hc.
      assert (Hlog : out s1 ++ [ev_readstate]
                     = out s ++ [ev_config_init false]
                         ++ request_calls EC_STATE_PRE_OP
                              (state (ec_slave (tables_at_broadcast drv EC_STATE_PRE_OP
                                                  (bus w)) 0)) k
                         ++ [ev_readstate])
        by (rewrite Ho, <- !app_assoc; reflexivity).
      destruct (filter _ _) as [|i l] eqn:Hf.
      + unfold bind, set_self, modify, ret. exists true. eexists.
        split; [reflexivity|]. cbn [self soem ec_slavecount bus out]. rewrite Hs.
        split; [reflexivity|]. split; [reflexivity|]. split; [reflexivity|].
        split; [exists k; split; [exact Hk | exact Hlog]|].
        cbn. auto.
      + unfold ret. exists false. eexists.
        split; [reflexivity|]. cbn [self soem ec_slavecount bus out]. rewrite Hs.
        split; [reflexivity|]. split; [reflexivity|]. split; [reflexivity|].
        split; [exists k; split; [exact Hk | exact Hlog]|].
        cbn. rewrite Hf. split; [discriminate | reflexivity].
    - intros i s0. unfold bind, slave, gets, set_self, modify, ret.
      destruct (negb _); reflexivity. }
  clearbody r. destruct Hr as [res [s' [Hr [H1 [H2 [H3 [[k [Hk Hlog]] H4]]]]]]]. subst r.
  cbn [fst snd]. split; [exact H1|]. split; [exact H2|]. split; [exact H3|].
  split.
  { exists k. split; [exact Hk|]. split; [exact Hlog|].
    intros Hkeep. rewrite Hlog, (target_at_broadcast Net drv) by exact Hkeep. reflexivity. }
  destruct res; destruct H4 as [Hbad Hmsg].
  - split; [|exact Hmsg]. split; [intros _|reflexivity].
    intros i Hi. apply (proj1 (not_in_state_nil _ _) Hbad). rewrite H2. exact Hi.
  - split; [|exact Hmsg]. split; [discriminate|].
    intros Hall. exfalso. apply Hbad. apply not_in_state_nil.
    intros i Hi. apply Hall. rewrite <- H2. exact Hi.
Qed.

(** The loop body of the monitor at a slave that reads OPERATIONAL and is
    not flagged lost. *)
Lemma check_slave_operational :
  forall (s : St Net) (sl : Z),
    state (ec_slave (bus (soem s)) sl) = EC_STATE_OPERATIONAL ->
    islost (ec_slave (bus (soem s)) sl) = false ->
    check_slave drv sl s = (tt, s).
Proof.
  intros s sl Hst Hlost.
  unfold check_slave. unfold bind at 1. unfold this, gets at 1.
  unfold bind at 1. unfold slave at 1, gets at 1. unfold bind at 1.
  rewrite Hst. change (EC_STATE_OPERATIONAL =? EC_STATE_OPERATIONAL) with true.
  rewrite andb_false_r.
  unfold ret at 1. unfold offer_recovery, bind, slave, gets. rewrite Hlost. reflexivity.
Qed.

(** X10.  The monitor leaves a healthy slave alone: for a slave that reads
    OPERATIONAL and is not flagged lost, and for a slave of another group
    that is not flagged lost, the loop body makes no call, prints nothing
    and changes nothing. *)
Theorem check_slave_leaves_healthy_slave_alone :
  forall (s : St Net) (sl : Z),
    let sv := ec_slave (bus (soem s)) sl in
    state sv = EC_STATE_OPERATIONAL \/ group sv <> _currentgroup (self s) ->
    islost sv = false ->
    check_slave drv sl s = (tt, s).
Proof.
  intros s sl sv Hok Hlost. subst sv.
  unfold check_slave. unfold bind at 1. unfold this, gets at 1.
  unfold bind at 1. unfold slave at 1, gets at 1. unfold bind at 1.
  replace ((group (ec_slave (bus (soem s)) sl) =? _currentgroup (self s))
           && negb (state (ec_slave (bus (soem s)) sl) =? EC_STATE_OPERATIONAL))
    with false.
  - unfold ret at 1. unfold offer_recovery, bind, slave, gets. rewrite Hlost. reflexivity.
  - symmetry. apply andb_false_iff. destruct Hok as [H|H].
    + right. rewrite H. reflexivity.
    + left. apply Z.eqb_neq. exact H.
Qed.

Lemma visit_healthy :
  forall (l : list Z) (s : St Net),
    (forall i, In i l ->
       state (ec_slave (bus (soem s)) i) = EC_STATE_OPERATIONAL /\
       islost (ec_slave (bus (soem s)) i) = false) ->
    visit drv l s = s.
Proof.
  unfold visit. induction l as [|i l IH]; intros s Hall; cbn [fold_left].
  - reflexivity.
  - destruct (Hall i (or_introl eq_refl)) as [Hst Hlost].
    rewrite check_slave_operational by assumption.
    cbn [snd]. apply IH. intros j Hj. apply Hall. right. exact Hj.
Qed.

(** X11.  A sweep that finds every slave OPERATIONAL and none flagged lost
    after its state read makes that one call only, prints its two closing
    lines (after the pending line feed, if one is due), and leaves the check
    flag of the group clear and the slave table as the state read left
    it. *)
Theorem sweep_of_healthy_slaves :
  forall s : St Net,
    let cg := _currentgroup (self s) in
    let b1 := snd (ec_readstate drv (set_docheckstate (bus (soem s)) cg false)) in
    (forall i, 1 <= i <= ec_slavecount (soem s) ->
       state (ec_slave b1 i) = EC_STATE_OPERATIONAL /\ islost (ec_slave b1 i) = false) ->
    docheckstate (ec_group b1 cg) = false ->
    let s' := snd (sweep drv s) in
    out s'
    = out s ++ (if _needlf (self s) then [ev_printf "\n" []] else [])
            ++ [ev_readstate;
                ev_printf "SDCSDC\n" [];
                ev_printf "OK : all slaves resumed OPERATIONAL.\n" []] /\
    docheckstate (ec_group (bus (soem s')) cg) = false /\
    ec_slave (bus (soem s')) = ec_slave b1 /\
    _state (self s') = _state (self s).
Proof.
  intros s cg b1 Hall Hflag s'.
  assert (Hrun : sweep drv s
                 = (tt,
                    mk_st (if _needlf (self s) then with_needlf (self s) false else self s)
                          (mk_world (ec_slavecount (soem s)) (set_docheckstate b1 cg false))
                          (out s ++ (if _needlf (self s) then [ev_printf "\n" []] else [])
                             ++ [ev_readstate;
                                 ev_printf "SDCSDC\n" [];
                                 ev_printf "OK : all slaves resumed OPERATIONAL.\n" []]))).
  { subst b1 cg. unfold sweep. unfold bind at 1. unfold sweep_begin.
    unfold bind at 1. unfold this at 1, gets at 1. unfold bind at 1.
    destruct (_needlf (self s)) eqn:Hlf.
    - unfold bind at 1. unfold set_self at 1, modify at 1. unfold printf at 1, emit, modify.
      unfold bind at 1. unfold set_bus at 1, modify at 1.
      cbn [self soem out bus ec_slavecount].
      unfold bind at 1. unfold do_readstate, call. cbn [self soem out bus ec_slavecount].
      destruct (ec_readstate drv _) as [x b1]. cbn [snd] in *. unfold ret at 1.
      unfold bind at 1. unfold for_slaves, slavecount, gets. unfold bind at 1.
      rewrite for_upto_visit. cbn [soem ec_slavecount].
      rewrite visit_healthy
        by (intros i Hi; apply zseq_In in Hi; cbn [soem bus]; apply Hall; lia).
      unfold sweep_end, bind, this, grp, gets, printf, emit, set_bus, modify, ret.
      cbn [self soem out bus ec_slavecount _currentgroup with_needlf].
      rewrite Hflag. cbn [negb self soem out bus ec_slavecount _currentgroup with_needlf].
      rewrite <- !app_assoc. reflexivity.
    - unfold ret at 1.
      unfold bind at 1. unfold set_bus at 1, modify at 1.
      cbn [self soem out bus ec_slavecount].
      unfold bind at 1. unfold do_readstate, call. cbn [self soem out bus ec_slavecount].
      destruct (ec_readstate drv _) as [x b1]. cbn [snd] in *. unfold ret at 1.
      unfold bind at 1. unfold for_slaves, slavecount, gets. unfold bind at 1.
      rewrite for_upto_visit. cbn [soem ec_slavecount].
      rewrite visit_healthy
        by (intros i Hi; apply zseq_In in Hi; cbn [soem bus]; apply Hall; lia).
      unfold sweep_end, bind, this, grp, gets, printf, emit, set_bus, modify, ret.
      cbn [self soem out bus ec_slavecount _currentgroup].
      rewrite Hflag. cbn [negb self soem out bus ec_slavecount _currentgroup with_needlf].
      rewrite <- !app_assoc. reflexivity. }
  subst s'. rewrite Hrun. cbn [snd self soem out bus].
  split; [reflexivity|].
  split; [unfold set_docheckstate, upd; cbn; rewrite Z.eqb_refl; reflexivity|].
  split; [reflexivity|].
  destruct (_needlf (self s)); reflexivity.
Qed.

(** X12.  Until the session state is OPERATIONAL the monitor thread does
    nothing but sleep: whatever the work counters and the check flag of the
    group say, [n] rounds of its loop make no call on the bus, print nothing
    and change nothing; the log grows by [n] sleeps of 10 ms. *)
Theorem monitor_idles_until_operational :
  forall (n : nat) (s : St Net),
    _state (self s) <> EC_STATE_OPERATIONAL ->
    _ecatcheck drv n s
    = (tt, mk_st (self s) (soem s) (out s ++ repeat (ev_usleep 10000) n)).
Proof.
  induction n as [|n IH]; intros s Hst.
  - cbn [_ecatcheck repeat]. unfold ret. rewrite app_nil_r. destruct s; reflexivity.
  - cbn [_ecatcheck]. unfold bind at 1. unfold ecatcheck_round.
    unfold bind at 1. unfold gets at 1. unfold sweep_due.
    apply Z.eqb_neq in Hst. rewrite Hst. cbn [andb].
    unfold bind at 1. unfold ret at 1. unfold emit, modify.
    rewrite IH by (cbn [self]; apply Z.eqb_neq; exact Hst).
    cbn [self soem out repeat]. rewrite <- app_assoc. reflexivity.
Qed.

(** The ladder and the recovery offer, each with its outcome on the bus. *)
Lemma repair_ladder_outcome :
  forall (s : St Net) (sl : Z),
    0 <= state (ec_slave (bus (soem s)) sl) ->
    repair_ladder drv sl s
    = (tt, mk_st (self s)
             (mk_world (ec_slavecount (soem s)) (fst (ladder_outcome drv sl (bus (soem s)))))
             (out s ++ snd (ladder_outcome drv sl (bus (soem s))))).
Proof.
  intros s sl Hst. rewrite repair_ladder_first_applicable by exact Hst.
  unfold ladder_outcome.
  destruct (first_applicable _ _); unfold apply_rule.
  - unfold do_writestate, printf, emit, set_bus, modify, slave, gets, call, bind, ret.
    cbn [self soem out bus ec_slavecount].
    destruct (ec_writestate drv sl _) as [x b1]. cbn [fst snd].
    unfold set_slave_state, upd. cbn [ec_slave]. rewrite Z.eqb_refl. cbn [state with_state].
    rewrite <- app_assoc. reflexivity.
  - unfold do_writestate, printf, emit, set_bus, modify, slave, gets, call, bind, ret.
    cbn [self soem out bus ec_slavecount].
    destruct (ec_writestate drv sl _) as [x b1]. cbn [fst snd].
    unfold set_slave_state, upd. cbn [ec_slave]. rewrite Z.eqb_refl. cbn [state with_state].
    rewrite <- app_assoc. reflexivity.
  - unfold bind at 1. unfold do_reconfig_slave, call.
    destruct (ec_reconfig_slave drv sl EC_TIMEOUTMON (bus (soem s))) as [x b1]. cbn [fst snd].
    destruct (x =? 0); cbn [negb].
    + unfold ret. reflexivity.
    + unfold printf, emit, set_bus, modify, bind.
      cbn [self soem out bus ec_slavecount fst snd].
      rewrite <- ?app_assoc. reflexivity.
  - unfold bind at 1. unfold do_statecheck, call.
    destruct (ec_statecheck drv sl EC_STATE_OPERATIONAL EC_TIMEOUTRET (bus (soem s)))
      as [x b1].
    cbn [fst snd]. unfold bind at 1. unfold slave, gets. cbn [self soem out bus].
    destruct (state (ec_slave b1 sl) =? EC_STATE_NONE).
    + unfold printf, emit, set_bus, modify, bind.
      cbn [self soem out bus ec_slavecount fst snd].
      rewrite <- ?app_assoc. reflexivity.
    + unfold ret. reflexivity.
  - unfold ret. cbn [fst snd]. rewrite app_nil_r. destruct s as [t w o]. destruct w.
    reflexivity.
Qed.

Lemma offer_recovery_outcome :
  forall (s : St Net) (sl : Z),
    offer_recovery drv sl s
    = (tt, mk_st (self s)
             (mk_world (ec_slavecount (soem s)) (fst (recovery_outcome drv sl (bus (soem s)))))
             (out s ++ snd (recovery_outcome drv sl (bus (soem s))))).
Proof.
  intros s sl. rewrite offer_recovery_for. unfold recovery_outcome.
  destruct (recovery_for _ _); unfold apply_recovery.
  - unfold bind at 1. unfold do_recover_slave, call.
    destruct (ec_recover_slave drv sl EC_TIMEOUTMON (bus (soem s))) as [x b1]. cbn [fst snd].
    destruct (x =? 0); cbn [negb].
    + unfold ret. reflexivity.
    + unfold printf, emit, set_bus, modify, bind.
      cbn [self soem out bus ec_slavecount fst snd].
      rewrite <- ?app_assoc. reflexivity.
  - unfold printf, emit, set_bus, modify, bind.
    cbn [self soem out bus ec_slavecount fst snd]. reflexivity.
  - unfold ret. cbn [fst snd]. rewrite app_nil_r. destruct s as [t w o]. destruct w.
    reflexivity.
Qed.

(** X22.  What a sweep does for one slave.  For a slave of the current group
    that is not OPERATIONAL the check flag of the group is set and exactly the
    first applicable rule of the ladder is applied: (a) SAFE_OP + ERROR has
    the ACK state written to it; (b) SAFE_OP has OPERATIONAL written to it;
    (c) any other state above NONE has the slave reconfigured, its lost flag
    cleared on success; (d) NONE with the lost flag clear gets one short
    state check, and the slave is flagged lost if it still reads NONE.  Then,
    whatever came before, a slave flagged lost is offered device recovery if
    it reads NONE, and has its flag cleared without any call if it reports
    another state.  No other call is made and nothing else is printed. *)
Theorem check_slave_applies_first_rule_then_recovery :
  forall (s : St Net) (sl : Z),
    0 <= state (ec_slave (bus (soem s)) sl) <= CInt.UINT16_MAX ->
    let repaired :=
      if needs_repair s sl
      then ladder_outcome drv sl
             (set_docheckstate (bus (soem s)) (_currentgroup (self s)) true)
      else (bus (soem s), []) in
    let recovered := recovery_outcome drv sl (fst repaired) in
    check_slave drv sl s
    = (tt, mk_st (self s)
             (mk_world (ec_slavecount (soem s)) (fst recovered))
             (out s ++ snd repaired ++ snd recovered)).
Proof.
  intros s sl Hst repaired recovered. subst recovered repaired.
  unfold check_slave. unfold bind at 1. unfold this, gets at 1.
  unfold bind at 1. unfold slave at 1, gets at 1.
  unfold bind at 1. unfold needs_repair.
  destruct ((group (ec_slave (bus (soem s)) sl) =? _currentgroup (self s))
            && negb (state (ec_slave (bus (soem s)) sl) =? EC_STATE_OPERATIONAL)).
  - unfold bind at 1. unfold set_bus at 1, modify at 1.
    rewrite repair_ladder_outcome by (cbn; lia).
    cbn [snd self soem out bus ec_slavecount].
    rewrite offer_recovery_outcome. cbn [self soem out bus ec_slavecount].
    rewrite <- app_assoc. reflexivity.
  - unfold ret at 1. rewrite offer_recovery_outcome. cbn [fst snd app]. reflexivity.
Qed.

End Facts.

(** *** The theorems at work on concrete buses *)

Lemma unconfirmed_request_witness :
  (exists req : Z,
     out (snd (setPreOperationalState (Bench.stuck EC_STATE_SAFE_OP 2 3)
                 (Bench.start EC_STATE_SAFE_OP 2)))
     = out (Bench.start EC_STATE_SAFE_OP 2) ++ request_calls EC_STATE_PRE_OP req 201) /\
  (exists req : Z,
     out (snd (setInitState (Bench.stuck EC_STATE_SAFE_OP 2 3)
                 (Bench.start EC_STATE_SAFE_OP 2)))
     = out (Bench.start EC_STATE_SAFE_OP 2) ++ request_calls EC_STATE_INIT req 201).
Proof.
  apply (unconfirmed_request_polls_201_rounds unit (Bench.stuck EC_STATE_SAFE_OP 2 3)
           (Bench.start EC_STATE_SAFE_OP 2)).
  - intros b. cbn. discriminate.
  - intros b. cbn. discriminate.
Defined.

Lemma confirmed_request_witness :
  (exists req : Z,
     out (snd (setPreOperationalState MoreBench.obedient (Bench.start EC_STATE_SAFE_OP 2)))
     = out (Bench.start EC_STATE_SAFE_OP 2) ++ request_calls EC_STATE_PRE_OP req 1) /\
  (exists req : Z,
     out (snd (setInitState MoreBench.obedient (Bench.start EC_STATE_SAFE_OP 2)))
     = out (Bench.start EC_STATE_SAFE_OP 2) ++ request_calls EC_STATE_INIT req 1).
Proof.
  apply (confirmed_request_polls_once unit MoreBench.obedient
           (Bench.start EC_STATE_SAFE_OP 2)).
  - intros b. reflexivity.
  - intros b. reflexivity.
Defined.

Lemma configSlaves_after_discovery_witness :
  let drv := Bench.stuck EC_STATE_PRE_OP 2 3 in
  let s := Bench.start EC_STATE_INIT 0 in
  let r := configSlaves drv s in
  fst (ec_config_init drv false (soem s)) > 0 /\
  _slaveCount (self (snd r)) = 2 /\
  _state (self (snd r)) = EC_STATE_PRE_OP /\
  fst r = true.
Proof.
  intros drv s r.
  assert (Hfound : fst (ec_config_init drv false (soem s)) > 0) by (cbn; lia).
  split; [exact Hfound|].
  destruct (configSlaves_after_discovery unit drv s Hfound) as [Hc [_ [Hs _]]].
  split; [exact Hc|]. split; [exact Hs|]. reflexivity.
Defined.

Lemma isAllStatesOPT_after_setOperationalState_witness :
  let drv := Bench.stuck EC_STATE_OPERATIONAL 2 3 in
  let s := Bench.start EC_STATE_OPERATIONAL 2 in
  fst (setOperationalState drv s) = true /\
  fst (isAllStatesOPT drv (snd (setOperationalState drv s))) = true.
Proof.
  intros drv s.
  assert (Hok : fst (setOperationalState drv s) = true) by reflexivity.
  split; [exact Hok|].
  apply (isAllStatesOPT_after_setOperationalState unit drv s Hok).
  intros i. cbn. unfold upd. destruct (i =? 0); reflexivity.
Defined.

Lemma check_slave_witness :
  let drv := Bench.stuck EC_STATE_SAFE_OP 2 3 in
  let s := Bench.start EC_STATE_OPERATIONAL 2 in
  state (ec_slave (bus (soem s)) 1) = EC_STATE_OPERATIONAL /\
  check_slave drv 1 s = (tt, s).
Proof.
  intros drv s. split; [reflexivity|].
  apply (check_slave_leaves_healthy_slave_alone unit drv s 1).
  - left. reflexivity.
  - reflexivity.
Defined.

Lemma sweep_of_healthy_slaves_witness :
  let drv := Bench.stuck EC_STATE_OPERATIONAL 2 3 in
  let s := mk_st (mk_session EmptyString 0 2 true 3 EC_STATE_OPERATIONAL 0 0 true)
                 (mk_world 2 (Bench.quiet_bus EC_STATE_SAFE_OP)) [] in
  out (snd (sweep drv s))
  = [ev_printf "\n" []; ev_readstate; ev_printf "SDCSDC\n" [];
     ev_printf "OK : all slaves resumed OPERATIONAL.\n" []] /\
  _state (self (snd (sweep drv s))) = EC_STATE_OPERATIONAL.
Proof.
  intros drv s.
  destruct (sweep_of_healthy_slaves unit drv s) as [Hout [_ [_ Hst]]].
  - intros i _. split; reflexivity.
  - reflexivity.
  - split; [exact Hout | exact Hst].
Defined.

Lemma monitor_idles_witness :
  let drv := Bench.stuck EC_STATE_SAFE_OP 2 3 in
  let s := mk_st (mk_session EmptyString 0 2 true 3 EC_STATE_SAFE_OP 0 0 false)
                 (mk_world 2 (Bench.quiet_bus EC_STATE_SAFE_OP)) [] in
  _state (self s) <> EC_STATE_OPERATIONAL /\
  out (snd (_ecatcheck drv 3 s)) = [ev_usleep 10000; ev_usleep 10000; ev_usleep 10000].
Proof.
  intros drv s.
  assert (Hst : _state (self s) <> EC_STATE_OPERATIONAL) by (cbn; discriminate).
  split; [exact Hst|].
  rewrite (monitor_idles_until_operational unit drv 3 s Hst). reflexivity.
Defined.

Lemma check_slave_ladder_witness :
  let session := mk_session EmptyString 0 2 true 3 EC_STATE_OPERATIONAL 0 0 false in
  let s_ack := mk_st session
                 (mk_world 2 (Bench.quiet_bus (EC_STATE_SAFE_OP + EC_STATE_ERROR))) [] in
  let s_init := mk_st session (mk_world 2 (Bench.quiet_bus EC_STATE_INIT)) [] in
  let s_lost := mk_st session
                  (mk_world 2
                     (mk_bus (fun _ => mk_slave EC_STATE_NONE 0 0 true false "EK1100"
                                         16 8 0 0 0 0)
                             (fun _ => mk_group false 1 1) tt)) [] in
  out (snd (check_slave (Bench.stuck (EC_STATE_SAFE_OP + EC_STATE_ERROR) 2 3) 1 s_ack))
  = [ev_printf "ERROR : slave %d is in SAFE_OP + ERROR, attempting ack.\n" [PInt 1];
     ev_writestate 1 (EC_STATE_SAFE_OP + EC_STATE_ACK)] /\
  out (snd (check_slave (Bench.stuck EC_STATE_INIT 2 3) 1 s_init))
  = [ev_reconfig_slave 1 EC_TIMEOUTMON] /\
  out (snd (check_slave (Bench.stuck EC_STATE_NONE 2 3) 1 s_lost))
  = [ev_recover_slave 1 EC_TIMEOUTMON].
Proof.
  intros session s_ack s_init s_lost.
  split; [|split].
  - rewrite (check_slave_applies_first_rule_then_recovery unit
               (Bench.stuck (EC_STATE_SAFE_OP + EC_STATE_ERROR) 2 3) s_ack 1)
      by (vm_compute; split; discriminate).
    reflexivity.
  - rewrite (check_slave_applies_first_rule_then_recovery unit
               (Bench.stuck EC_STATE_INIT 2 3) s_init 1)
      by (vm_compute; split; discriminate).
    reflexivity.
  - rewrite (check_slave_applies_first_rule_then_recovery unit
               (Bench.stuck EC_STATE_NONE 2 3) s_lost 1)
      by (vm_compute; split; discriminate).
    reflexivity.
Defined.

End SessionMore.

(** * More facts about the mapping printers *)

Module MappingMore.

Import Ascii.
Import ErrorMonad SlaveInfo SlaveInfoMore MappingVocabulary MappingMoreVocabulary MappingTactics
  MappingFacts.

Local Open Scope error_scope.

(** ** The fields of a mapping word *)

(** X13.  The three field extractions of [si_PDOassign] undo the packing of
    a CoE mapping word: for every object index, sub-index and bit length in
    range they give back the three fields, also when the index has its top
    bit set and the word, read into an [int32], is negative. *)
Theorem mapping_word_fields :
  forall idx sub len : Z,
    0 <= idx < 65536 -> 0 <= sub < 256 -> 0 <= len < 256 ->
    word_obj_idx (mapping_word idx sub len) = idx /\
    word_obj_subidx (mapping_word idx sub len) = sub /\
    word_bitlen (mapping_word idx sub len) = len.
Proof.
  intros idx sub len Hidx Hsub Hlen.
  unfold word_obj_idx, word_obj_subidx, word_bitlen, mapping_word,
    CInt.LO_BYTE, CInt.uint16, CInt.uint8, CInt.int32.
  change 255 with (Z.ones 8).
  rewrite !Z.shiftr_div_pow2 by lia. rewrite !Z.land_ones by lia.
  change (2 ^ 8) with 256. change (2 ^ 16) with 65536.
  change (2 ^ 31) with 2147483648. change (2 ^ 32) with 4294967296.
  set (W := idx * 65536 + sub * 256 + len).
  assert (HW : 0 <= W < 4294967296) by (subst W; lia).
  destruct (Z_lt_le_dec W 2147483648) as [Hlow|Hhigh].
  - assert (E : (W + 2147483648) mod 4294967296 - 2147483648 = W)
      by (rewrite Z.mod_small by lia; lia).
    rewrite E. subst W. repeat split; Z.div_mod_to_equations; lia.
  - assert (E : (W + 2147483648) mod 4294967296 - 2147483648 = W - 4294967296).
    { replace (W + 2147483648) with (W - 2147483648 + 1 * 4294967296) by lia.
      rewrite Z.mod_add by lia. rewrite Z.mod_small by lia. lia. }
    rewrite E. subst W. repeat split; Z.div_mod_to_equations; lia.
Qed.

(** ** The access letters *)

Lemma sel_append_inj :
  forall (x y : bool) (letter : Ascii.ascii) (s t : string),
    letter <> "_"%char ->
    ((if x then String letter EmptyString else "_") ++ s
     = (if y then String letter EmptyString else "_") ++ t)%string ->
    x = y /\ s = t.
Proof.
  intros x y letter s t Hne H.
  destruct x, y; cbn in H.
  - injection H as Hs. auto.
  - injection H as Hc Hs. exfalso. auto.
  - injection H as Hc Hs. exfalso. auto.
  - injection H as Hs. auto.
Qed.

Lemma land_pow2 :
  forall (x : Z) (n : Z), 0 <= n ->
    negb (Z.land x (2 ^ n) =? 0) = Z.testbit x n.
Proof.
  intros x n Hn.
  assert (E : Z.land x (2 ^ n) = if Z.testbit x n then 2 ^ n else 0).
  { apply Z.bits_inj'. intros k Hk. rewrite Z.land_spec, Z.pow2_bits_eqb by lia.
    destruct (Z.eqb_spec n k) as [->|Hnk].
    - destruct (Z.testbit x k) eqn:Hb.
      + rewrite Z.pow2_bits_true by lia. reflexivity.
      + rewrite Z.bits_0. reflexivity.
    - rewrite andb_false_r. destruct (Z.testbit x n).
      + rewrite Z.pow2_bits_false by lia. reflexivity.
      + rewrite Z.bits_0. reflexivity. }
  rewrite E. destruct (Z.testbit x n).
  - assert (0 < 2 ^ n) by (apply Z.pow_pos_nonneg; lia).
    destruct (Z.eqb_spec (2 ^ n) 0); [lia | reflexivity].
  - reflexivity.
Qed.

Lemma access2string_bits :
  forall access : Z,
    access2string access
    = ((if Z.testbit access 0 then "R" else "_") ++
       (if Z.testbit access 3 then "W" else "_") ++
       (if Z.testbit access 1 then "R" else "_") ++
       (if Z.testbit access 4 then "W" else "_") ++
       (if Z.testbit access 2 then "R" else "_") ++
       (if Z.testbit access 5 then "W" else "_"))%string.
Proof.
  intros access. unfold access2string. cbv beta zeta.
  unfold ATYPE_Rpre, ATYPE_Wpre, ATYPE_Rsafe, ATYPE_Wsafe, ATYPE_Rop, ATYPE_Wop.
  change 1 with (2 ^ 0) at 1. change 8 with (2 ^ 3). change 2 with (2 ^ 1) at 3.
  change 16 with (2 ^ 4). change 4 with (2 ^ 2). change 32 with (2 ^ 5).
  rewrite !land_pow2 by lia. reflexivity.
Qed.

(** X14.  [access2string] always writes six characters, and two access
    words are written alike exactly when they agree on their six lowest
    bits: the letters show each of the six access rights and nothing else of
    the word. *)
Theorem access2string_shows_six_rights :
  forall a b : Z,
    String.length (access2string a) = 6%nat /\
    (access2string a = access2string b <-> Z.land a 63 = Z.land b 63).
Proof.
  intros a b. rewrite !access2string_bits. split.
  - destruct (Z.testbit a 0), (Z.testbit a 1), (Z.testbit a 2),
      (Z.testbit a 3), (Z.testbit a 4), (Z.testbit a 5); reflexivity.
  - split.
    + intros H.
      apply sel_append_inj in H; [|discriminate]. destruct H as [H0 H].
      apply sel_append_inj in H; [|discriminate]. destruct H as [H3 H].
      apply sel_append_inj in H; [|discriminate]. destruct H as [H1 H].
      apply sel_append_inj in H; [|discriminate]. destruct H as [H4 H].
      apply sel_append_inj in H; [|discriminate]. destruct H as [H2 H].
      assert (H5 : Z.testbit a 5 = Z.testbit b 5)
        by (destruct (Z.testbit a 5), (Z.testbit b 5); (reflexivity || discriminate H)).
      apply Z.bits_inj'. intros n Hn. rewrite !Z.land_spec.
      destruct (Z_lt_le_dec n 6) as [Hlt|Hge].
      * assert (Hcases : n = 0 \/ n = 1 \/ n = 2 \/ n = 3 \/ n = 4 \/ n = 5) by lia.
        destruct Hcases as [->|[->|[->|[->|[->| ->]]]]]; congruence.
      * change 63 with (Z.ones 6). rewrite Z.ones_spec_high by lia.
        rewrite !andb_false_r. reflexivity.
    + intros H.
      assert (Hbit : forall n, 0 <= n < 6 -> Z.testbit a n = Z.testbit b n).
      { intros n Hn.
        assert (E : Z.testbit (Z.land a 63) n = Z.testbit (Z.land b 63) n) by (rewrite H; reflexivity).
        rewrite !Z.land_spec in E. change 63 with (Z.ones 6) in E.
        rewrite Z.ones_spec_low in E by lia. rewrite !andb_true_r in E. exact E. }
      rewrite !(Hbit 0), !(Hbit 1), !(Hbit 2), !(Hbit 3), !(Hbit 4), !(Hbit 5) by lia.
      reflexivity.
Qed.

(** ** The dictionary-driven printer *)

Section Facts.

Variable Net : Type.
Variable mbx : Mailbox Net.
Variable dtype2string : Z -> Z -> string.

(** Reading the entries of one PDO cannot go wrong. *)
Lemma PDOassign_entry_done :
  forall (sl idx subidxloop mapoffset : Z) (acc : Z * Z) (g : Globals Net),
    exists (acc' : Z * Z) (g' : Globals Net),
      PDOassign_entry mbx dtype2string sl idx subidxloop mapoffset acc g = Done (acc', g').
Proof.
  intros sl idx subidxloop mapoffset [bsize bo] g.
  unfold PDOassign_entry. unfold ebind at 1. unfold do_SDOread, call.
  destruct (ec_SDOread mbx sl idx (CInt.uint8 subidxloop) false 4 EC_TIMEOUTRXM (soem g))
    as [[wkc v] b1].
  cbn [fst snd]. unfold ebind at 1. unfold emodify at 1. unfold ebind at 1.
  destruct (negb (word_obj_idx (CInt.int32 v) =? 0)
            || negb (word_obj_subidx (CInt.int32 v) =? 0)).
  - unfold do_readOEsingle. cbn [soem ODlist OElist out].
    destruct (ec_readOEsingle mbx 0 _ _ _ b1) as [[w oe] b2].
    unfold ebind, printf, emodify, egets, eret. cbn [soem ODlist OElist out].
    destruct ((w >? 0) && negb (Entries oe =? 0)); eauto.
  - unfold ebind, printf, emodify, egets, eret. cbn [soem ODlist OElist out].
    destruct ((0 >? 0) && negb (Entries _ =? 0)); eauto.
Qed.

Lemma PDOassign_entries_done :
  forall (n : nat) (sl idx subidxloop mapoffset : Z) (acc : Z * Z) (g : Globals Net),
    exists (acc' : Z * Z) (g' : Globals Net),
      PDOassign_entries mbx dtype2string n sl idx subidxloop mapoffset acc g
      = Done (acc', g').
Proof.
  induction n as [|n IH]; intros sl idx subidxloop mapoffset acc g; cbn [PDOassign_entries].
  - unfold eret. eauto.
  - unfold ebind.
    destruct (PDOassign_entry_done sl idx subidxloop mapoffset acc g) as [acc1 [g1 E1]].
    rewrite E1. apply IH.
Qed.

Lemma PDOassign_pdo_done :
  forall (sl PDOassign idxloop mapoffset : Z) (acc : Z * Z) (g : Globals Net),
    exists (acc' : Z * Z) (g' : Globals Net),
      PDOassign_pdo mbx dtype2string sl PDOassign idxloop mapoffset acc g = Done (acc', g').
Proof.
  intros sl PDOassign idxloop mapoffset acc g.
  unfold PDOassign_pdo. unfold ebind at 1. unfold do_SDOread at 1, call.
  destruct (ec_SDOread mbx sl PDOassign (CInt.uint8 idxloop) false 2 EC_TIMEOUTRXM (soem g))
    as [[wkc v] b1].
  cbn [fst snd]. destruct (CInt.uint16 v >? 0).
  - unfold ebind at 1. unfold do_SDOread, call. cbn [soem ODlist OElist out].
    destruct (ec_SDOread mbx sl (CInt.uint16 v) 0 false 1 EC_TIMEOUTRXM b1) as [[wkc' v'] b2].
    cbn [fst snd]. apply PDOassign_entries_done.
  - unfold eret. eauto.
Qed.

(** The loop over the PDOs, entered with a count below [0xffff] and fuel for
    the rounds that are left, comes to its end. *)
Lemma PDOassign_pdos_done :
  forall (fuel : nat) (sl PDOassign idxloop nidx mapoffset : Z) (acc : Z * Z)
         (g : Globals Net),
    0 <= idxloop -> nidx < 65535 ->
    (Z.to_nat (nidx + 1 - idxloop) <= fuel)%nat ->
    exists (acc' : Z * Z) (g' : Globals Net),
      PDOassign_pdos mbx dtype2string fuel sl PDOassign idxloop nidx mapoffset acc g
      = Done (acc', g').
Proof.
  induction fuel as [|fuel IH]; intros sl PDOassign idxloop nidx mapoffset acc g Hlo Hhi Hfuel.
  - cbn [PDOassign_pdos].
    destruct (Z.leb_spec idxloop nidx) as [Hle|Hgt]; [exfalso; lia|].
    unfold eret. eauto.
  - cbn [PDOassign_pdos].
    destruct (Z.leb_spec idxloop nidx) as [Hle|Hgt]; [|unfold eret; eauto].
    unfold ebind.
    destruct (PDOassign_pdo_done sl PDOassign idxloop mapoffset acc g) as [acc1 [g1 E1]].
    rewrite E1.
    assert (Enext : CInt.uint16 (idxloop + 1) = idxloop + 1)
      by (unfold CInt.uint16; apply Z.mod_small; change (2 ^ 16) with 65536; lia).
    rewrite Enext. apply IH; lia.
Qed.

(** With a count of [0xffff] the test [idxloop <= nidx] holds for every
    value the 16-bit counter can take, so no amount of fuel is enough. *)
Lemma PDOassign_pdos_full_count :
  forall (fuel : nat) (sl PDOassign idxloop mapoffset : Z) (acc : Z * Z) (g : Globals Net),
    0 <= idxloop <= 65535 ->
    PDOassign_pdos mbx dtype2string fuel sl PDOassign idxloop 65535 mapoffset acc g
    = Fault out_of_fuel.
Proof.
  induction fuel as [|fuel IH]; intros sl PDOassign idxloop mapoffset acc g Hr;
    cbn [PDOassign_pdos];
    (destruct (Z.leb_spec idxloop 65535) as [Hle|Hgt]; [|exfalso; lia]).
  - reflexivity.
  - unfold ebind.
    destruct (PDOassign_pdo_done sl PDOassign idxloop mapoffset acc g) as [acc1 [g1 E1]].
    rewrite E1. apply IH.
    unfold CInt.uint16. change (2 ^ 16) with 65536.
    pose proof (Z.mod_pos_bound (idxloop + 1) 65536 eq_refl). lia.
Qed.

(** X15.  [si_PDOassign] comes back whenever the PDO count it reads first is
    not [0xffff], given fuel for that many rounds; and when the first read
    fails or reports no PDO it comes back at once with size 0, having made
    that one read and printed nothing. *)
Theorem si_PDOassign_returns :
  forall (fuel : nat) (sl PDOassign mapoffset bitoffset : Z) (g : Globals Net),
    let rd := ec_SDOread mbx sl PDOassign 0 false 2 EC_TIMEOUTRXM (soem g) in
    let wkc := fst (fst rd) in
    let rdat := CInt.uint16 (snd (fst rd)) in
    rdat <> 65535 ->
    (Z.to_nat rdat <= fuel)%nat ->
    (exists (size : Z) (g' : Globals Net),
       si_PDOassign mbx dtype2string fuel sl PDOassign mapoffset bitoffset g
       = Done (size, g')) /\
    (wkc <= 0 \/ rdat = 0 ->
     si_PDOassign mbx dtype2string fuel sl PDOassign mapoffset bitoffset g
     = Done (0, mk_globals (snd rd) (ODlist g) (OElist g)
                  (out g ++ [ev_SDOread sl PDOassign 0 false 2 EC_TIMEOUTRXM]))).
Proof.
  intros fuel sl PDOassign mapoffset bitoffset g rd wkc rdat Hcount Hfuel.
  subst wkc rdat rd.
  unfold si_PDOassign. unfold ebind at 1 3. unfold do_SDOread, call.
  destruct (ec_SDOread mbx sl PDOassign 0 false 2 EC_TIMEOUTRXM (soem g)) as [[wkc v] b1].
  cbn [fst snd] in *.
  assert (Hrange : 0 <= CInt.uint16 v < 65536)
    by (unfold CInt.uint16; change (2 ^ 16) with 65536; apply Z.mod_pos_bound; lia).
  split.
  - destruct ((wkc >? 0) && (CInt.uint16 v >? 0)); [|unfold eret; eauto].
    unfold ebind.
    match goal with
    | |- context [PDOassign_pdos mbx dtype2string fuel sl PDOassign 1 ?n mapoffset ?a ?G] =>
        destruct (PDOassign_pdos_done fuel sl PDOassign 1 n mapoffset a G)
          as [acc1 [g1 E1]]; [lia | lia | lia | rewrite E1]
    end.
    unfold eret. eauto.
  - intros Hnone.
    replace ((wkc >? 0) && (CInt.uint16 v >? 0)) with false; [reflexivity|].
    symmetry. apply andb_false_iff.
    destruct Hnone as [H|H]; [left | right]; rewrite Z.gtb_ltb; apply Z.ltb_ge; lia.
Qed.

(** X16.  When the first read succeeds and reports [0xffff] PDOs,
    [si_PDOassign] never comes back: the 16-bit loop counter wraps to zero
    before it can pass the count, so the run is out of fuel however much it
    is given. *)
Theorem si_PDOassign_never_returns_on_full_count :
  forall (fuel : nat) (sl PDOassign mapoffset bitoffset : Z) (g : Globals Net),
    let rd := ec_SDOread mbx sl PDOassign 0 false 2 EC_TIMEOUTRXM (soem g) in
    fst (fst rd) > 0 ->
    CInt.uint16 (snd (fst rd)) = 65535 ->
    si_PDOassign mbx dtype2string fuel sl PDOassign mapoffset bitoffset g
    = Fault out_of_fuel.
Proof.
  intros fuel sl PDOassign mapoffset bitoffset g rd Hwkc Hcount. subst rd.
  unfold si_PDOassign. unfold ebind at 1. unfold do_SDOread, call.
  destruct (ec_SDOread mbx sl PDOassign 0 false 2 EC_TIMEOUTRXM (soem g)) as [[wkc v] b1].
  cbn [fst snd] in *. rewrite Hcount.
  replace (wkc >? 0) with true by (symmetry; apply Z.gtb_lt; lia).
  cbn [andb Z.gtb Z.compare]. unfold ebind.
  rewrite PDOassign_pdos_full_count by lia. reflexivity.
Qed.

(** X17.  When the read of the sync manager count fails, or fewer than three
    sync managers are reported, [si_map_sdo] prints its heading, reads no
    communication type and answers 0. *)
Theorem si_map_sdo_without_process_sync_managers :
  forall (fuel : nat) (sl : Z) (g : Globals Net),
    let rd := ec_SDOread mbx sl ECT_SDO_SMCOMMTYPE 0 false 1 EC_TIMEOUTRXM (soem g) in
    fst (fst rd) <= 0 \/ CInt.uint8 (snd (fst rd)) <= 2 ->
    si_map_sdo mbx dtype2string fuel sl g
    = Done (0, mk_globals (snd rd) (ODlist g) (OElist g)
                 (out g ++ [ev_printf "PDO mapping according to CoE :\n" [];
                            ev_SDOread sl ECT_SDO_SMCOMMTYPE 0 false 1 EC_TIMEOUTRXM])).
Proof.
  intros fuel sl g rd Hnone. subst rd.
  unfold si_map_sdo. unfold ebind at 1. unfold printf at 1, emodify at 1.
  unfold ebind at 1. unfold do_SDOread, call. cbn [soem ODlist OElist out].
  destruct (ec_SDOread mbx sl ECT_SDO_SMCOMMTYPE 0 false 1 EC_TIMEOUTRXM (soem g))
    as [[wkc v] b1].
  cbn [fst snd] in *.
  replace ((wkc >? 0) && (CInt.uint8 v >? 2)) with false.
  - unfold ebind, eret. cbn. rewrite <- app_assoc. reflexivity.
  - symmetry. apply andb_false_iff.
    destruct Hnone as [H|H]; [left | right]; rewrite Z.gtb_ltb; apply Z.ltb_ge; lia.
Qed.

(** ** The descriptor-memory printer *)

(** An entry adds the length it reads, a [uint8], to the running size. *)
Lemma siiPDO_entry_size :
  forall (sl mapoffset : Z) (l : sii_locals) (g : Globals Net),
    0 <= nPDO (PDO l) < EC_MAXEEPDO ->
    exists (l' : sii_locals) (g' : Globals Net) (bl : Z),
      siiPDO_entry mbx dtype2string sl mapoffset l g = Done (l', g') /\
      nPDO (PDO l') = nPDO (PDO l) /\
      Length (PDO l') = Length (PDO l) /\
      totalsize l' = CInt.int32 (totalsize l + bl) /\
      0 <= bl <= 255.
Proof.
  intros sl mapoffset l g Hn.
  unfold siiPDO_entry.
  unfold next_byte, do_siigetbyte, call, ebind, eret, add_c.
  sii_fields. sii_read_bytes.
  unfold load, store, fail, eret. rewrite (in_table EC_MAXEEPDO _ Hn).
  unfold skip_a, set_PDO. sii_fields.
  destruct (negb (CInt.uint16 _ =? 0) || negb (CInt.uint8 _ =? 0)).
  - destruct (negb (CInt.uint8 _ =? 0)).
    + unfold do_siistring, call. cbn [soem out ODlist OElist].
      match goal with
      | |- context [ec_siistring mbx ?s ?x ?b] =>
          destruct (ec_siistring mbx s x b) as [? ?]
      end.
      unfold printf, emodify. sii_fields. eexists. eexists. eexists.
      split; [reflexivity|]. sii_fields.
      split; [reflexivity|]. split; [reflexivity|].
      split; [reflexivity | apply uint8_range].
    + unfold printf, emodify. sii_fields. eexists. eexists. eexists.
      split; [reflexivity|]. sii_fields.
      split; [reflexivity|]. split; [reflexivity|].
      split; [reflexivity | apply uint8_range].
  - eexists. eexists. eexists.
    split; [reflexivity|]. sii_fields.
    split; [reflexivity|]. split; [reflexivity|].
    split; [reflexivity | apply uint8_range].
Qed.

Lemma siiPDO_entries_size :
  forall (n : nat) (sl mapoffset : Z) (l : sii_locals) (g : Globals Net),
    0 <= nPDO (PDO l) < EC_MAXEEPDO ->
    0 <= totalsize l -> totalsize l + 255 * Z.of_nat n <= CInt.INT_MAX ->
    exists (l' : sii_locals) (g' : Globals Net),
      siiPDO_entries mbx dtype2string n sl mapoffset l g = Done (l', g') /\
      nPDO (PDO l') = nPDO (PDO l) /\
      Length (PDO l') = Length (PDO l) /\
      totalsize l <= totalsize l' <= totalsize l + 255 * Z.of_nat n.
Proof.
  induction n as [|n IH]; intros sl mapoffset l g Hn Hlo Hhi; cbn [siiPDO_entries].
  - exists l, g. repeat split; lia.
  - unfold ebind.
    destruct (siiPDO_entry_size sl mapoffset l g Hn) as [l1 [g1 [bl [E1 [Hn1 [Hl1 [Ht1 Hbl]]]]]]].
    rewrite E1.
    rewrite int32_small in Ht1 by (unfold CInt.INT_MIN, CInt.INT_MAX in *; lia).
    destruct (IH sl mapoffset l1 g1) as [l2 [g2 [E2 [Hn2 [Hl2 Ht2]]]]];
      [rewrite Hn1; exact Hn | lia | lia |].
    exists l2, g2. rewrite E2.
    split; [reflexivity|]. split; [congruence|]. split; [congruence | lia].
Qed.

(** One PDO record: no fault, one more record counted, and at most
    255 entries of at most 255 bits added to the running size. *)
Lemma siiPDO_record_size :
  forall (sl t mapoffset : Z) (l : sii_locals) (g : Globals Net),
    0 <= nPDO (PDO l) < EC_MAXEEPDO - 1 ->
    0 <= totalsize l -> totalsize l + 255 * 255 <= CInt.INT_MAX ->
    exists (l' : sii_locals) (g' : Globals Net),
      siiPDO_record mbx dtype2string sl t mapoffset l g = Done (l', g') /\
      nPDO (PDO l') = nPDO (PDO l) + 1 /\
      Length (PDO l') = Length (PDO l) /\
      (EC_MAXEEPDO - 1 <= nPDO (PDO l') -> c l' = Length (PDO l')) /\
      totalsize l <= totalsize l' <= totalsize l + 255 * 255.
Proof.
  intros sl t mapoffset l g Hn Hlo Hhi.
  unfold siiPDO_record.
  assert (En : CInt.uint16 (nPDO (PDO l) + 1) = nPDO (PDO l) + 1).
  { unfold CInt.uint16. apply Z.mod_small. unfold EC_MAXEEPDO in Hn. lia. }
  rewrite En. set (n := nPDO (PDO l) + 1).
  assert (Hin : (0 <=? n) && (n <? EC_MAXEEPDO) = true) by (apply in_table; subst n; lia).
  unfold load, store, fail, next_byte, do_siigetbyte, call, ebind, eret, add_c,
    skip_a, set_PDO.
  sii_fields. rewrite ?Hin.
  repeat (match goal with
          | |- context [ec_siigetbyte mbx ?s ?x ?b] =>
              destruct (ec_siigetbyte mbx s x b) as [? ?]
          end;
          sii_fields; rewrite ?Hin).
  assert (Hupd : forall (f : Z -> Z) (v : Z), upd f n v n = v)
    by (intros f v; unfold upd; rewrite Z.eqb_refl; reflexivity).
  rewrite !Hupd.
  match goal with
  | |- context [CInt.uint8 ?z <? EC_MAXSM] =>
      assert (Hsm0 : (0 <=? CInt.uint8 z) = true)
        by (apply Z.leb_le; pose proof (uint8_range z); lia);
      rewrite ?Hsm0;
      destruct (CInt.uint8 z <? EC_MAXSM)
  end.
  - cbn [andb].
    assert (Hname : forall (y : Z) (G : Globals Net),
              exists (str : string) (G' : Globals Net),
                (if negb (CInt.uint8 y =? 0)
                 then do_siistring mbx sl (CInt.uint8 y)
                 else fun s0 : Globals Net => Done (EmptyString, s0)) G = Done (str, G')).
    { intros y G. destruct (negb (CInt.uint8 y =? 0)).
      - unfold do_siistring, call.
        destruct (ec_siistring mbx sl (CInt.uint8 y) (soem G)) as [str b']. eauto.
      - eauto. }
    match goal with
    | |- context [(if negb (CInt.uint8 ?z =? 0) then _ else _) ?G] =>
        destruct (Hname z G) as [str [G1 EG1]]; rewrite EG1
    end.
    assert (Hhead : forall (G : Globals Net) (x y : Z) (st : string),
              exists G' : Globals Net,
                (if negb (t =? 0)
                 then printf "  SM%1d RXPDO 0x%4.4X %s\n" [PInt x; PInt y; PStr st]
                 else printf "  SM%1d TXPDO 0x%4.4X %s\n" [PInt x; PInt y; PStr st]) G
                = Done (tt, G')).
    { intros G x y st. destruct (negb (t =? 0)); unfold printf, emodify; eauto. }
    match goal with
    | |- context [(if negb (t =? 0) then printf _ [PInt ?x; PInt ?y; PStr ?st] else _) ?G] =>
        destruct (Hhead G x y st) as [G2 EG2]; rewrite EG2
    end.
    unfold printf at 1, emodify at 1.
    match goal with
    | |- context [siiPDO_entries mbx dtype2string (Z.to_nat (CInt.uint8 ?e)) sl mapoffset ?L ?G] =>
        pose proof (uint8_range e) as He;
        destruct (siiPDO_entries_size (Z.to_nat (CInt.uint8 e)) sl mapoffset L G)
          as [l2 [g2 [E2 [Hn2 [Hl2 Ht2]]]]];
        [ cbn; subst n; lia
        | sii_fields; lia
        | sii_fields; rewrite Z2Nat.id by lia; lia
        | rewrite E2 ]
    end.
    sii_fields. sii_fields_in Hn2. sii_fields_in Hl2. sii_fields_in Ht2.
    rewrite Z2Nat.id in Ht2 by lia.
    rewrite Hn2, Hl2.
    destruct (Z.geb_spec n (EC_MAXEEPDO - 1)) as [Hcap|Hcap].
    + eexists. eexists. split; [reflexivity|].
      sii_fields. rewrite Hn2, Hl2.
      split; [reflexivity|]. split; [reflexivity|]. split; [reflexivity | lia].
    + eexists. eexists. split; [reflexivity|].
      sii_fields. rewrite Hn2, Hl2.
      split; [reflexivity|]. split; [reflexivity|].
      split; [intros; unfold EC_MAXEEPDO in *; subst n; lia | lia].
  - sii_fields.
    destruct (Z.geb_spec n (EC_MAXEEPDO - 1)) as [Hcap|Hcap].
    + eexists. eexists. split; [reflexivity|].
      sii_fields. split; [reflexivity|]. split; [reflexivity|]. split; [reflexivity | lia].
    + eexists. eexists. split; [reflexivity|].
      sii_fields. split; [reflexivity|]. split; [reflexivity|].
      split; [intros; unfold EC_MAXEEPDO in *; subst n; lia | lia].
Qed.

(** The walk adds at most [255 * 255] bits for each record it counts. *)
Lemma siiPDO_walk_size :
  forall (fuel : nat) (sl t mapoffset : Z) (l : sii_locals) (g : Globals Net),
    0 <= nPDO (PDO l) < EC_MAXEEPDO - 1 ->
    (Z.to_nat (EC_MAXEEPDO - 1 - nPDO (PDO l)) <= fuel)%nat ->
    0 <= totalsize l ->
    totalsize l + 255 * 255 * (EC_MAXEEPDO - 1 - nPDO (PDO l)) <= CInt.INT_MAX ->
    exists (l' : sii_locals) (g' : Globals Net),
      siiPDO_walk mbx dtype2string fuel sl t mapoffset l g = Done (l', g') /\
      nPDO (PDO l) < nPDO (PDO l') <= EC_MAXEEPDO - 1 /\
      totalsize l <= totalsize l'
      <= totalsize l + 255 * 255 * (nPDO (PDO l') - nPDO (PDO l)).
Proof.
  induction fuel as [|fuel IH]; intros sl t mapoffset l g Hn Hfuel Hlo Hhi.
  - exfalso. lia.
  - cbn [siiPDO_walk]. unfold ebind.
    destruct (siiPDO_record_size sl t mapoffset l g Hn Hlo)
      as [l1 [g1 [E1 [Hn1 [Hl1 [Hcap Ht1]]]]]]; [unfold EC_MAXEEPDO in *; lia|].
    rewrite E1.
    destruct (Z.ltb_spec (c l1) (Length (PDO l1))) as [Hmore|Hdone].
    + assert (Hroom : nPDO (PDO l1) < EC_MAXEEPDO - 1).
      { destruct (Z_lt_le_dec (nPDO (PDO l1)) (EC_MAXEEPDO - 1)) as [H|H]; [exact H|].
        apply Hcap in H. lia. }
      destruct (IH sl t mapoffset l1 g1) as [l2 [g2 [E2 [Hn2 Ht2]]]]; [lia | lia | lia | lia |].
      exists l2, g2. split; [exact E2|]. split; lia.
    + exists l1, g1. split; [reflexivity|]. split; lia.
Qed.

(** The part of [si_siiPDO] up to the end of the walk ends without a fault,
    with a size inside the cap. *)
Lemma siiPDO_locals_size :
  forall (fuel : nat) (sl t mapoffset bitoffset0 : Z) (g : Globals Net),
    (Z.to_nat (EC_MAXEEPDO - 1) <= fuel)%nat ->
    exists (l : sii_locals) (g' : Globals Net),
      siiPDO_locals mbx dtype2string fuel sl t mapoffset bitoffset0 g = Done (l, g') /\
      0 <= totalsize l <= sii_size_cap.
Proof.
  intros fuel sl t mapoffset bitoffset0 g Hfuel.
  unfold siiPDO_locals. unfold ebind at 1. unfold do_siifind, call.
  destruct (ec_siifind mbx sl _ (soem g)) as [pos b1].
  cbn [Startpos Index SyncM BitSize SMbitsize].
  destruct (CInt.uint16 pos >? 0).
  - unfold next_byte, do_siigetbyte, call, ebind, eret.
    sii_fields. sii_read_bytes.
    match goal with
    | |- context [siiPDO_walk mbx dtype2string fuel sl ?t' mapoffset ?L ?G] =>
        destruct (siiPDO_walk_size fuel sl t' mapoffset L G) as [l2 [g2 [E2 [Hn2 Ht2]]]];
        [ cbn; unfold EC_MAXEEPDO; lia
        | cbn [PDO nPDO]; unfold EC_MAXEEPDO in *; lia
        | cbn; lia
        | cbn; unfold EC_MAXEEPDO, CInt.INT_MAX; lia
        | ]
    end.
    exists l2, g2. split; [exact E2|].
    cbn [PDO nPDO totalsize] in Hn2, Ht2.
    unfold sii_size_cap, EC_MAXEEPDO in *. lia.
  - eexists. eexists. split; [reflexivity|]. cbn. unfold sii_size_cap, EC_MAXEEPDO. lia.
Qed.

Lemma si_siiPDO_size :
  forall (fuel : nat) (sl t mapoffset bitoffset0 : Z) (g : Globals Net),
    (Z.to_nat (EC_MAXEEPDO - 1) <= fuel)%nat ->
    exists (size : Z) (g' : Globals Net),
      si_siiPDO mbx dtype2string fuel sl t mapoffset bitoffset0 g = Done (size, g') /\
      0 <= size <= sii_size_cap.
Proof.
  intros fuel sl t mapoffset bitoffset0 g Hfuel.
  destruct (siiPDO_locals_size fuel sl t mapoffset bitoffset0 g Hfuel) as [l [g1 [E Hsize]]].
  unfold si_siiPDO. unfold ebind at 1. unfold egets at 1.
  unfold ebind at 1. rewrite E.
  destruct (negb (eep_pdi (ec_slave (soem g) sl) =? 0)).
  - unfold ebind, do_eeprom2pdi, call, eret.
    destruct (ec_eeprom2pdi mbx sl (soem g1)) as [x b2].
    eexists. eexists. split; [reflexivity | exact Hsize].
  - unfold ebind, eret. eexists. eexists. split; [reflexivity | exact Hsize].
Qed.

(** X18.  Whatever the descriptor memory holds, the size [si_siiPDO] returns
    is the plain sum of the bit lengths it read: at most [EC_MAXEEPDO - 1]
    records of at most 255 entries of at most 255 bits, so the [int] it is
    added up in never wraps and the result is never negative. *)
Theorem si_siiPDO_size_never_wraps :
  forall (fuel : nat) (sl t mapoffset bitoffset0 : Z) (g : Globals Net),
    (Z.to_nat (EC_MAXEEPDO - 1) <= fuel)%nat ->
    exists (size : Z) (g' : Globals Net),
      si_siiPDO mbx dtype2string fuel sl t mapoffset bitoffset0 g = Done (size, g') /\
      0 <= size <= sii_size_cap /\ sii_size_cap < CInt.INT_MAX.
Proof.
  intros fuel sl t mapoffset bitoffset0 g Hfuel.
  destruct (si_siiPDO_size fuel sl t mapoffset bitoffset0 g Hfuel) as [size [g' [E Hsize]]].
  exists size, g'. split; [exact E|]. split; [exact Hsize|].
  unfold sii_size_cap, EC_MAXEEPDO, CInt.INT_MAX. lia.
Qed.

(** X19.  [si_map_sii] always comes back: it prints its heading, runs the
    pass over the RXPDO section and then, on the tables that pass left, the
    pass over the TXPDO section, both from bit offset zero, and answers 1
    exactly when the two passes found some bits. *)
Theorem si_map_sii_verdict :
  forall (fuel : nat) (sl : Z) (g : Globals Net),
    (Z.to_nat (EC_MAXEEPDO - 1) <= fuel)%nat ->
    let g0 := mk_globals (soem g) (ODlist g) (OElist g)
                (out g ++ [ev_printf "PDO mapping according to SII :\n" []]) in
    exists (n_out n_in : Z) (g1 g2 : Globals Net),
      si_siiPDO mbx dtype2string fuel sl 1
        (CInt.int32 (outputs (ec_slave (soem g) sl))) 0 g0 = Done (n_out, g1) /\
      si_siiPDO mbx dtype2string fuel sl 0
        (CInt.int32 (inputs (ec_slave (soem g1) sl))) 0 g1 = Done (n_in, g2) /\
      si_map_sii mbx dtype2string fuel sl g
      = Done ((if 0 <? n_out + n_in then 1 else 0), g2).
Proof.
  intros fuel sl g Hfuel g0.
  destruct (si_siiPDO_size fuel sl 1 (CInt.int32 (outputs (ec_slave (soem g) sl))) 0 g0 Hfuel)
    as [n_out [g1 [E1 H1]]].
  destruct (si_siiPDO_size fuel sl 0 (CInt.int32 (inputs (ec_slave (soem g1) sl))) 0 g1 Hfuel)
    as [n_in [g2 [E2 H2]]].
  exists n_out, n_in, g1, g2. split; [exact E1|]. split; [exact E2|].
  unfold si_map_sii. unfold ebind at 1. unfold printf at 1, emodify at 1.
  fold g0. unfold ebind at 1. unfold egets at 1.
  change (outputs (ec_slave (soem g0) sl)) with (outputs (ec_slave (soem g) sl)).
  unfold ebind at 1. rewrite E1.
  unfold ebind at 1. unfold egets at 1.
  unfold ebind at 1. rewrite E2.
  assert (Hcap : sii_size_cap < CInt.INT_MAX)
    by (unfold sii_size_cap, EC_MAXEEPDO, CInt.INT_MAX; lia).
  rewrite !int32_small by (unfold CInt.INT_MIN, CInt.INT_MAX in *; lia).
  cbn [Z.add].
  replace ((n_out >? 0) || (n_in >? 0)) with (0 <? n_out + n_in); [destruct (0 <? _); reflexivity|].
  rewrite !Z.gtb_ltb.
  destruct (Z.ltb_spec 0 (n_out + n_in)), (Z.ltb_spec 0 n_out), (Z.ltb_spec 0 n_in);
    cbn [orb]; (reflexivity || lia).
Qed.

(** X20.  A PDO record whose sync manager byte is [EC_MAXSM] or more (a PDO
    assigned to no sync manager) is stepped over: nothing is printed, no
    entry is read, the sizes and the per-manager table stay as they are, and
    the cursors move past the 8 bytes (4 words) of the record head and the
    8 bytes (4 words) of each of its entries. *)
Theorem siiPDO_record_steps_over_unassigned_pdo :
  forall (sl t mapoffset : Z) (l : sii_locals) (g : Globals Net) (lo hi e sm : Z),
    fst (sii_bytes mbx sl 4 (a l) (soem g)) = [lo; hi; e; sm] ->
    EC_MAXSM <= sm ->
    0 <= nPDO (PDO l) < EC_MAXEEPDO - 2 ->
    exists (l' : sii_locals) (g' : Globals Net),
      siiPDO_record mbx dtype2string sl t mapoffset l g = Done (l', g') /\
      Vocabulary.printed (out g') = Vocabulary.printed (out g) /\
      List.length (out g') = (List.length (out g) + 5)%nat /\
      totalsize l' = totalsize l /\
      bitoffset l' = bitoffset l /\
      SMbitsize (PDO l') = SMbitsize (PDO l) /\
      a l' = CInt.uint16 (a l + 8 + 8 * e) /\
      c l' = CInt.uint16 (c l + 4 + 4 * e).
Proof.
  intros sl t mapoffset l g lo hi e sm Hbytes Hsm Hn.
  exact (siiPDO_record_unassigned Net mbx dtype2string sl t mapoffset l g lo hi e sm
           Hbytes Hsm Hn).
Qed.

(** X21.  On a slave whose descriptor memory has no PDO section,
    [si_map_sii] answers 0 for any fuel, having printed its heading and
    nothing else and read no byte of the memory: it looks for the RXPDO
    section and then for the TXPDO section, and after each look-up hands the
    memory back to the PDI exactly when [eep_pdi] of the slave was set in the
    tables the pass started on. *)
Theorem si_map_sii_without_pdo_sections :
  forall (fuel : nat) (sl : Z) (g : Globals Net),
    (forall (cat : Z) (b : Bus Net), CInt.uint16 (fst (ec_siifind mbx sl cat b)) = 0) ->
    let pdi1 := negb (eep_pdi (ec_slave (soem g) sl) =? 0) in
    let b1 := snd (ec_siifind mbx sl (ECT_SII_PDO + 1) (soem g)) in
    let b2 := if pdi1 then snd (ec_eeprom2pdi mbx sl b1) else b1 in
    let pdi2 := negb (eep_pdi (ec_slave b2 sl) =? 0) in
    let b3 := snd (ec_siifind mbx sl ECT_SII_PDO b2) in
    let b4 := if pdi2 then snd (ec_eeprom2pdi mbx sl b3) else b3 in
    si_map_sii mbx dtype2string fuel sl g
    = Done (0, mk_globals b4 (ODlist g) (OElist g)
                 (out g ++ [ev_printf "PDO mapping according to SII :\n" []]
                        ++ [ev_siifind sl (ECT_SII_PDO + 1)]
                        ++ (if pdi1 then [ev_eeprom2pdi sl] else [])
                        ++ [ev_siifind sl ECT_SII_PDO]
                        ++ (if pdi2 then [ev_eeprom2pdi sl] else []))).
Proof.
  intros fuel sl g Hnone pdi1 b1 b2 pdi2 b3 b4.
  assert (Hpass : forall (t mo : Z) (G : Globals Net), 0 <= t <= 1 ->
            let pdi := negb (eep_pdi (ec_slave (soem G) sl) =? 0) in
            let c1 := snd (ec_siifind mbx sl (ECT_SII_PDO + t) (soem G)) in
            si_siiPDO mbx dtype2string fuel sl t mo 0 G
            = Done (0, mk_globals (if pdi then snd (ec_eeprom2pdi mbx sl c1) else c1)
                         (ODlist G) (OElist G)
                         (out G ++ [ev_siifind sl (ECT_SII_PDO + t)]
                                ++ (if pdi then [ev_eeprom2pdi sl] else [])))).
  { intros t mo G Ht pdi c1. subst pdi c1.
    unfold si_siiPDO. unfold ebind at 1. unfold egets at 1. unfold ebind at 1.
    unfold siiPDO_locals. unfold ebind at 1. unfold do_siifind, call.
    replace (if t >? 1 then 1 else t) with t
      by (destruct (Z.gtb_spec t 1); [lia | reflexivity]).
    pose proof (Hnone (ECT_SII_PDO + t) (soem G)) as H0.
    destruct (ec_siifind mbx sl (ECT_SII_PDO + t) (soem G)) as [pos c1].
    cbn [fst snd] in *. cbn [Startpos Index SyncM BitSize SMbitsize]. rewrite H0.
    cbn [Z.gtb Z.compare]. unfold eret at 1.
    destruct (eep_pdi (ec_slave (soem G) sl) =? 0); cbn [negb].
    - unfold ebind, eret. cbn [out totalsize]. rewrite app_nil_r. reflexivity.
    - unfold ebind, do_eeprom2pdi, call, eret. cbn [soem out ODlist OElist].
      destruct (ec_eeprom2pdi mbx sl c1) as [x c2].
      cbn [snd totalsize]. rewrite <- app_assoc. reflexivity. }
  unfold si_map_sii. unfold ebind at 1. unfold printf at 1, emodify at 1.
  unfold ebind at 1. unfold egets at 1. unfold ebind at 1.
  rewrite Hpass by lia. cbn [soem out ODlist OElist].
  unfold ebind at 1. unfold egets at 1. unfold ebind at 1.
  rewrite Hpass by lia. cbn [soem out ODlist OElist].
  change (CInt.int32 (0 + 0)) with 0. cbn [Z.gtb Z.compare orb]. unfold eret.
  subst b4 pdi2 b3 b2 pdi1 b1. rewrite Z.add_0_r. rewrite <- !app_assoc. reflexivity.
Qed.

End Facts.

(** *** The theorems at work on concrete slaves *)

Lemma mapping_word_fields_witness :
  mapping_word 61440 1 16 < 0 /\
  word_obj_idx (mapping_word 61440 1 16) = 61440 /\
  word_obj_subidx (mapping_word 61440 1 16) = 1 /\
  word_bitlen (mapping_word 61440 1 16) = 16.
Proof.
  split; [reflexivity|].
  apply (mapping_word_fields 61440 1 16); lia.
Defined.

Lemma si_PDOassign_returns_witness :
  (exists (size : Z) (g' : Globals unit),
     si_PDOassign (MoreBenchTool.claims 3) Bench.plain_dtype2string 3 1 7184 0 0
       Bench.tool_start
     = Done (size, g')) /\
  si_PDOassign MoreBenchTool.bare Bench.plain_dtype2string 0 1 7184 0 0 Bench.tool_start
  = Done (0, mk_globals (Bench.quiet_bus EC_STATE_PRE_OP)
               (ODlist Bench.tool_start) (OElist Bench.tool_start)
               [ev_SDOread 1 7184 0 false 2 EC_TIMEOUTRXM]).
Proof.
  split.
  - apply (si_PDOassign_returns unit (MoreBenchTool.claims 3) Bench.plain_dtype2string
             3 1 7184 0 0 Bench.tool_start).
    + cbn. discriminate.
    + cbn. lia.
  - apply (si_PDOassign_returns unit MoreBenchTool.bare Bench.plain_dtype2string
             0 1 7184 0 0 Bench.tool_start).
    + cbn. discriminate.
    + cbn. lia.
    + left. cbn. lia.
Defined.

Lemma si_PDOassign_full_count_witness :
  si_PDOassign (MoreBenchTool.claims 65535) Bench.plain_dtype2string 40 1 7184 0 0
    Bench.tool_start
  = Fault out_of_fuel.
Proof.
  apply (si_PDOassign_never_returns_on_full_count unit (MoreBenchTool.claims 65535)
           Bench.plain_dtype2string 40 1 7184 0 0 Bench.tool_start).
  - cbn. lia.
  - reflexivity.
Defined.

Lemma si_map_sdo_witness :
  si_map_sdo MoreBenchTool.bare Bench.plain_dtype2string 0 1 Bench.tool_start
  = Done (0, mk_globals (Bench.quiet_bus EC_STATE_PRE_OP)
               (ODlist Bench.tool_start) (OElist Bench.tool_start)
               [ev_printf "PDO mapping according to CoE :\n" [];
                ev_SDOread 1 ECT_SDO_SMCOMMTYPE 0 false 1 EC_TIMEOUTRXM]).
Proof.
  apply (si_map_sdo_without_process_sync_managers unit MoreBenchTool.bare
           Bench.plain_dtype2string 0 1 Bench.tool_start).
  left. cbn. lia.
Defined.

Lemma si_siiPDO_size_witness :
  exists (size : Z) (g' : Globals unit),
    si_siiPDO (Bench.rom (fun _ => 255) (fun _ _ => 0)) Bench.plain_dtype2string
      511 1 1 0 0 Bench.tool_start
    = Done (size, g') /\
    0 <= size <= sii_size_cap /\ sii_size_cap < CInt.INT_MAX.
Proof.
  apply (si_siiPDO_size_never_wraps unit (Bench.rom (fun _ => 255) (fun _ _ => 0))
           Bench.plain_dtype2string 511 1 1 0 0 Bench.tool_start).
  unfold EC_MAXEEPDO. lia.
Defined.

Lemma si_map_sii_verdict_witness :
  let mbx := Bench.rom (fun _ => 255) (fun _ _ => 0) in
  exists (n_out n_in : Z) (g1 g2 : Globals unit),
    si_siiPDO mbx Bench.plain_dtype2string 511 1 1 0 0
      (mk_globals (soem Bench.tool_start) (ODlist Bench.tool_start)
         (OElist Bench.tool_start) [ev_printf "PDO mapping according to SII :\n" []])
    = Done (n_out, g1) /\
    si_siiPDO mbx Bench.plain_dtype2string 511 1 0
      (CInt.int32 (inputs (ec_slave (soem g1) 1))) 0 g1
    = Done (n_in, g2) /\
    si_map_sii mbx Bench.plain_dtype2string 511 1 Bench.tool_start
    = Done ((if 0 <? n_out + n_in then 1 else 0), g2).
Proof.
  intros mbx.
  apply (si_map_sii_verdict unit mbx Bench.plain_dtype2string 511 1 Bench.tool_start).
  unfold EC_MAXEEPDO. lia.
Defined.

Lemma siiPDO_record_steps_over_witness :
  let mbx := Bench.rom (fun x => if x =? 102 then 2 else if x =? 103 then 255 else 0)
                       (fun _ _ => 0) in
  let l := mk_sii_locals 100 1
             (mk_eepromPDO 64 20 0 (fun _ => 0) (fun _ => 0) (fun _ => 0) (fun _ => 0))
             5 5 in
  fst (sii_bytes mbx 1 4 (a l) (soem Bench.tool_start)) = [0; 0; 2; 255] /\
  exists (l' : sii_locals) (g' : Globals unit),
    siiPDO_record mbx Bench.plain_dtype2string 1 1 0 l Bench.tool_start = Done (l', g') /\
    totalsize l' = 5 /\ a l' = 124 /\ c l' = 13.
Proof.
  intros mbx l.
  assert (Hbytes : fst (sii_bytes mbx 1 4 (a l) (soem Bench.tool_start)) = [0; 0; 2; 255])
    by reflexivity.
  split; [exact Hbytes|].
  destruct (siiPDO_record_steps_over_unassigned_pdo unit mbx Bench.plain_dtype2string
              1 1 0 l Bench.tool_start 0 0 2 255 Hbytes)
    as [l' [g' [E [_ [_ [Ht [_ [_ [Ha Hc]]]]]]]]].
  - unfold EC_MAXSM. lia.
  - cbn. unfold EC_MAXEEPDO. lia.
  - exists l', g'. split; [exact E|]. split; [exact Ht|]. split; [exact Ha | exact Hc].
Defined.

Lemma si_map_sii_without_pdo_sections_witness :
  si_map_sii MoreBenchTool.bare Bench.plain_dtype2string 0 1 MoreBenchTool.pdi_start
  = Done (0, mk_globals (soem MoreBenchTool.pdi_start)
               (ODlist MoreBenchTool.pdi_start) (OElist MoreBenchTool.pdi_start)
               [ev_printf "PDO mapping according to SII :\n" [];
                ev_siifind 1 51; ev_eeprom2pdi 1;
                ev_siifind 1 50; ev_eeprom2pdi 1]).
Proof.
  apply (si_map_sii_without_pdo_sections unit MoreBenchTool.bare Bench.plain_dtype2string
           0 1 MoreBenchTool.pdi_start).
  intros cat b. reflexivity.
Defined.

End MappingMore.
